(** * Omnis dashboard: data access layer, tool surface and client view state

    A shallow embedding of
      - [src/data/clickhouse.ts]  (query builder and the three aggregations),
      - [server.ts]               (the two registered tools),
      - [apps/health-dashboard/src/App.tsx] (client state and its handlers),
    together with the properties of the specification that concern them.

    Conventions of the embedding.
      - A JavaScript number is [NaN], a signed infinity or a rational.  The
        results of [/] and [*] are rounded to the nearest double (53-bit
        significand, ties to even).  The exponent range is not bounded (no
        overflow to an infinity, no subnormal numbers), numbers read from
        text are taken exactly, and the sign of zero is not modelled.
      - A JavaScript string is a [string] of 8-bit characters.
      - The analytical store is an oracle from issued queries to responses;
        every [ch.query] call is recorded in the world, with [console.error]
        output next to it.  [getClient()] is given by its outcome: the
        client, seen as the store it talks to, or the error [createClient]
        throws.
      - An [async] function is a computation over that world which returns
        or throws. *)

From Stdlib Require Import ZArith NArith QArith Qround Qpower Lqa Lia.
From Stdlib Require Import Ascii String List Sorted RelationClasses.
From Stdlib Require Import DecimalString DecimalN.
From Stdlib Require OrderedTypeEx.
From stdpp Require Import base option gmap strings.

Local Open Scope string_scope.

(* ===================================================================== *)
(** ** JavaScript numbers *)
(* ===================================================================== *)

Module JsNumber.

(** [Inf false] is [+Infinity], [Inf true] is [-Infinity]. *)
Inductive number : Type :=
  | NaN
  | Inf (negative : bool)
  | Fin (q : Q).

Definition of_Z (z : Z) : number := Fin (inject_Z z).
Definition of_N (n : N) : number := of_Z (Z.of_N n).

Definition zero : number := of_Z 0.

Definition Qnegb (q : Q) : bool := (Qnum q <? 0)%Z.
Definition Qzerob (q : Q) : bool := (Qnum q =? 0)%Z.
Definition Qltb (a b : Q) : bool := negb (Qle_bool b a).

(** [a > b] *)
Definition gt (a b : number) : bool :=
  match a, b with
  | NaN, _ | _, NaN => false
  | Inf sa, Inf sb => negb sa && sb
  | Inf sa, Fin _ => negb sa
  | Fin _, Inf sb => sb
  | Fin x, Fin y => Qltb y x
  end.

(** [2^k] *)
Definition pow2 (k : Z) : Q := Qpower 2 k.

(** The binade of a positive rational: [2^(ilog2 q) <= q < 2^(ilog2 q + 1)]. *)
Definition ilog2 (q : Q) : Z :=
  let k := (Z.log2 (Qnum q) - Z.log2 (Zpos (Qden q)))%Z in
  if Qle_bool (pow2 k) q then k else (k - 1)%Z.

(** The integer nearest to [x], the even one of two that are as near. *)
Definition rne (x : Q) : Z :=
  let f := Qfloor x in
  match (x - inject_Z f ?= 1 # 2)%Q with
  | Lt => f
  | Gt => (f + 1)%Z
  | Eq => if Z.even f then f else (f + 1)%Z
  end.

(** The double nearest to a positive rational: its significand is scaled
    into [[2^52, 2^53)], rounded to an integer and scaled back. *)
Definition round_pos (q : Q) : Q :=
  let u := (ilog2 q - 52)%Z in
  Qred (inject_Z (rne (q / pow2 u)) * pow2 u).

(** The double nearest to a rational (round to nearest, ties to even). *)
Definition round (q : Q) : Q :=
  match (q ?= 0)%Q with
  | Eq => 0%Q
  | Gt => round_pos q
  | Lt => (- round_pos (- q))%Q
  end.

(** [a / b] *)
Definition div (a b : number) : number :=
  match a, b with
  | NaN, _ | _, NaN => NaN
  | Inf _, Inf _ => NaN
  | Inf sa, Fin y => Inf (xorb sa (Qnegb y))
  | Fin _, Inf _ => Fin 0
  | Fin x, Fin y =>
      if Qzerob y
      then (if Qzerob x then NaN else Inf (Qnegb x))
      else Fin (round (x / y))
  end.

(** [a * b] *)
Definition mul (a b : number) : number :=
  match a, b with
  | NaN, _ | _, NaN => NaN
  | Inf sa, Inf sb => Inf (xorb sa sb)
  | Inf sa, Fin y => if Qzerob y then NaN else Inf (xorb sa (Qnegb y))
  | Fin x, Inf sb => if Qzerob x then NaN else Inf (xorb (Qnegb x) sb)
  | Fin x, Fin y => Fin (round (x * y))
  end.

(** ToBoolean on a number: [0] and [NaN] are falsy. *)
Definition truthy (a : number) : bool :=
  match a with
  | NaN => false
  | Inf _ => true
  | Fin x => negb (Qzerob x)
  end.

(** Numeric equality of two values of the model (rationals up to [Qeq]);
    [NaN] is related to itself so that "the same result" can be stated. *)
Definition same (a b : number) : Prop :=
  match a, b with
  | NaN, NaN => True
  | Inf sa, Inf sb => sa = sb
  | Fin x, Fin y => (x == y)%Q
  | _, _ => False
  end.

(** [a <= b] as a proposition; false when either side is [NaN]. *)
Definition le (a b : number) : Prop :=
  match a, b with
  | NaN, _ | _, NaN => False
  | Inf sa, Inf sb => sa = true \/ sb = false
  | Inf sa, Fin _ => sa = true
  | Fin _, Inf sb => sb = false
  | Fin x, Fin y => (x <= y)%Q
  end.


End JsNumber.
Export JsNumber.

(* ===================================================================== *)
(** ** [Number(string)]: the StringToNumber conversion *)
(* ===================================================================== *)

Module StringToNumber.

Definition is_ws (a : ascii) : bool :=
  let n := nat_of_ascii a in
  (n =? 9)%nat || (n =? 10)%nat || (n =? 11)%nat || (n =? 12)%nat
  || (n =? 13)%nat || (n =? 32)%nat || (n =? 160)%nat.

Fixpoint ltrim (l : list ascii) : list ascii :=
  match l with
  | a :: l' => if is_ws a then ltrim l' else l
  | [] => []
  end.

Definition trim (l : list ascii) : list ascii := rev (ltrim (rev (ltrim l))).

(** Value of a digit in the given radix, if it is one. *)
Definition digit_of (radix : N) (a : ascii) : option N :=
  let n := N_of_ascii a in
  let v :=
    if (48 <=? n)%N && (n <=? 57)%N then Some (n - 48)%N
    else if (97 <=? n)%N && (n <=? 102)%N then Some (n - 87)%N
    else if (65 <=? n)%N && (n <=? 70)%N then Some (n - 55)%N
    else None in
  match v with
  | Some d => if (d <? radix)%N then Some d else None
  | None => None
  end.

(** Longest prefix of digits: returns (value, number of digits, rest). *)
Fixpoint digits (radix : N) (acc : N) (count : nat) (l : list ascii)
  : N * nat * list ascii :=
  match l with
  | a :: l' =>
      match digit_of radix a with
      | Some d => digits radix (acc * radix + d)%N (S count) l'
      | None => (acc, count, l)
      end
  | [] => (acc, count, [])
  end.

Definition pow10 (e : Z) : Q := Qpower (10 # 1) e.

(** ExponentPart_opt followed by the end of the literal. *)
Definition exponent (l : list ascii) : option Z :=
  match l with
  | [] => Some 0%Z
  | c :: l' =>
      if (Ascii.eqb c "e" || Ascii.eqb c "E")%bool then
        let '(neg, l'') :=
          match l' with
          | s :: r => if Ascii.eqb s "-" then (true, r)
                      else if Ascii.eqb s "+" then (false, r)
                      else (false, l')
          | [] => (false, l')
          end in
        match digits 10 0 0 l'' with
        | (v, S _, []) => Some (if neg then (- Z.of_N v)%Z else Z.of_N v)
        | _ => None
        end
      else None
  end.

(** StrUnsignedDecimalLiteral other than [Infinity]. *)
Definition unsigned_decimal (l : list ascii) : option Q :=
  let '(ip, ni, r1) := digits 10 0 0 l in
  let '(fp, nf, r2) :=
    match r1 with
    | c :: r => if Ascii.eqb c "." then digits 10 0 0 r else (0%N, 0%nat, r1)
    | [] => (0%N, 0%nat, r1)
    end in
  match ni, nf with
  | O, O => None
  | _, _ =>
      match exponent r2 with
      | Some e =>
          Some ((inject_Z (Z.of_N ip)
                 + inject_Z (Z.of_N fp) * pow10 (- Z.of_nat nf)) * pow10 e)%Q
      | None => None
      end
  end.

Definition infinity_lit : list ascii := list_ascii_of_string "Infinity".

Definition list_ascii_eqb (a b : list ascii) : bool :=
  String.eqb (string_of_list_ascii a) (string_of_list_ascii b).

Definition unsigned_literal (l : list ascii) : number :=
  if list_ascii_eqb l infinity_lit then Inf false
  else match unsigned_decimal l with
       | Some q => Fin q
       | None => NaN
       end.

Definition negate (n : number) : number :=
  match n with
  | NaN => NaN
  | Inf s => Inf (negb s)
  | Fin q => Fin (- q)%Q
  end.

(** NonDecimalIntegerLiteral: [0x], [0o], [0b] prefixes, unsigned. *)
Definition non_decimal (l : list ascii) : option number :=
  match l with
  | z :: p :: r =>
      if Ascii.eqb z "0" then
        let radix :=
          if (Ascii.eqb p "x" || Ascii.eqb p "X")%bool then Some 16%N
          else if (Ascii.eqb p "o" || Ascii.eqb p "O")%bool then Some 8%N
          else if (Ascii.eqb p "b" || Ascii.eqb p "B")%bool then Some 2%N
          else None in
        match radix with
        | Some b =>
            match digits b 0 0 r with
            | (v, S _, []) => Some (of_N v)
            | _ => Some NaN
            end
        | None => None
        end
      else None
  | _ => None
  end.

Definition StrNumericLiteral (l : list ascii) : number :=
  match non_decimal l with
  | Some n => n
  | None =>
      match l with
      | s :: r =>
          if Ascii.eqb s "-" then negate (unsigned_literal r)
          else if Ascii.eqb s "+" then unsigned_literal r
          else unsigned_literal l
      | [] => zero
      end
  end.

(** The empty or all-blank string converts to [0]. *)
Definition StringToNumber (s : string) : number :=
  StrNumericLiteral (trim (list_ascii_of_string s)).

End StringToNumber.
Export StringToNumber.

(* ===================================================================== *)
(** ** JavaScript values met in rows and parameters *)
(* ===================================================================== *)

(** The primitive values a decoded JSON row can hold in one of its fields;
    [JUndefined] is what reading a missing property yields. *)
Inductive jsval : Type :=
  | JUndefined
  | JNull
  | JBool (b : bool)
  | JNum (n : number)
  | JStr (s : string).

Definition ToBoolean (v : jsval) : bool :=
  match v with
  | JUndefined | JNull => false
  | JBool b => b
  | JNum n => truthy n
  | JStr s => negb (String.eqb s "")
  end.

(** [Number(v)] *)
Definition Number (v : jsval) : number :=
  match v with
  | JUndefined => NaN
  | JNull => zero
  | JBool b => if b then of_Z 1 else zero
  | JNum n => n
  | JStr s => StringToNumber s
  end.

(** [v || d] *)
Definition js_or (v d : jsval) : jsval := if ToBoolean v then v else d.

(** One element of the array that [result.json()] resolves to: [null], or a
    value whose properties can be read (an object, as a finite map). *)
Inductive rowval : Type :=
  | RNull
  | RObj (fields : gmap string jsval).

Definition prop (o : gmap string jsval) (k : string) : jsval :=
  default JUndefined (o !! k).

(** [row?.k] on an element that may be missing ([rows[0]] of an empty array). *)
Definition opt_prop (r : option rowval) (k : string) : jsval :=
  match r with
  | Some (RObj o) => prop o k
  | Some RNull | None => JUndefined
  end.

(* ===================================================================== *)
(** ** Types of [clickhouse.ts] *)
(* ===================================================================== *)

Record QueryFilters : Type := {
  hours : option number;
  sensor_ip : option string;
  sensor_name : option string;
  limit : option number;
}.

Module ApplicationMetrics.
Record t : Type := {
  applicationName : jsval;
  totalTransactions : number;
  errorCount : number;
  avgLatencyMs : number;
  p95LatencyMs : number;
}.
End ApplicationMetrics.

Module HealthOverviewData.
Record t : Type := {
  totalTransactions : number;
  errorRate : number;
  avgLatencyMs : number;
  p95LatencyMs : number;
  uniqueClients : number;
  uniqueServers : number;
  applications : list ApplicationMetrics.t;
}.
End HealthOverviewData.

Module TopTalkerData.
Record t : Type := {
  clientIp : jsval;
  serverIp : jsval;
  bytes : number;
  requestCount : number;
}.
End TopTalkerData.

Module TrafficTimelinePoint.
Record t : Type := {
  hour : jsval;
  requests : number;
  errors : number;
}.
End TrafficTimelinePoint.

(** A bound parameter: [string | number]. *)
Inductive param : Type :=
  | PNum (n : number)
  | PStr (s : string).

Record WhereClauseResult : Type := {
  clause : string;
  params : gmap string param;
}.

(* ===================================================================== *)
(** ** Query helpers *)
(* ===================================================================== *)

(** [filters.hours || 24], [filters.limit || 10] *)
Definition number_or (o : option number) (d : Z) : number :=
  match o with
  | Some n => if truthy n then n else of_Z d
  | None => of_Z d
  end.

(** The test [if (filters.sensor_ip)]: supplied and not the empty string. *)
Definition supplied (o : option string) : bool :=
  match o with
  | Some s => negb (String.eqb s "")
  | None => false
  end.

Definition time_condition : string :=
  "timestamp >= now() - INTERVAL {filter_hours:UInt32} HOUR".
Definition sensor_ip_condition : string :=
  "sensor_ip = {filter_sensor_ip:String}".
Definition sensor_name_condition : string :=
  "sensor_name = {filter_sensor_name:String}".

(** The body of [buildWhereClause] up to its [return]: the two locals
    [conditions] and [params] after the three steps. *)
Definition whereConditions (filters : QueryFilters)
  : list string * gmap string param :=
  let conditions : list string := [] in
  let params : gmap string param := ∅ in
  let hours := number_or (hours filters) 24 in
  let params := <["filter_hours" := PNum hours]> params in
  let conditions := (conditions ++ [time_condition])%list in
  let '(conditions, params) :=
    match sensor_ip filters with
    | Some ip =>
        if supplied (Some ip)
        then ((conditions ++ [sensor_ip_condition])%list,
              <["filter_sensor_ip" := PStr ip]> params)
        else (conditions, params)
    | None => (conditions, params)
    end in
  let '(conditions, params) :=
    match sensor_name filters with
    | Some name =>
        if supplied (Some name)
        then ((conditions ++ [sensor_name_condition])%list,
              <["filter_sensor_name" := PStr name]> params)
        else (conditions, params)
    | None => (conditions, params)
    end in
  (conditions, params).

Definition buildWhereClause (filters : QueryFilters) : WhereClauseResult :=
  let '(conditions, params) := whereConditions filters in
  {| clause :=
       if (0 <? length conditions)%nat
       then String.append "WHERE " (String.concat " AND " conditions)
       else "";
     params := params |}.

(** The four query templates, with [whereClause] spliced in. *)
Definition overallQuery (whereClause : string) : string :=
  String.append "
    SELECT
      count() as total_transactions,
      countIf(is_error = 1) as error_count,
      avg(response_time_ms) as avg_latency_ms,
      quantile(0.95)(response_time_ms) as p95_latency_ms,
      uniq(client_host_ip_address) as unique_clients,
      uniq(server_host_ip_address) as unique_servers
    FROM f_aggregate_telemetry
    " (String.append whereClause "
  ").

Definition appQuery (whereClause : string) : string :=
  String.append "
    SELECT
      application_name,
      count() as total_transactions,
      countIf(is_error = 1) as error_count,
      avg(response_time_ms) as avg_latency_ms,
      quantile(0.95)(response_time_ms) as p95_latency_ms
    FROM f_aggregate_telemetry
    " (String.append whereClause "
    GROUP BY application_name
    ORDER BY total_transactions DESC
    LIMIT 20
  ").

Definition topTalkersQuery (whereClause : string) : string :=
  String.append "
    SELECT
      client_host_ip_address as client_ip,
      server_host_ip_address as server_ip,
      sum(total_bytes) as bytes,
      count() as request_count
    FROM f_aggregate_telemetry
    " (String.append whereClause "
    GROUP BY client_host_ip_address, server_host_ip_address
    ORDER BY bytes DESC
    LIMIT {query_limit:UInt32}
  ").

Definition timelineQuery (whereClause : string) : string :=
  String.append "
    SELECT
      toStartOfHour(timestamp) as hour,
      count() as requests,
      countIf(is_error = 1) as errors
    FROM f_aggregate_telemetry
    " (String.append whereClause "
    GROUP BY hour
    ORDER BY hour
  ").

(* ===================================================================== *)
(** ** The store and asynchronous computations *)
(* ===================================================================== *)

(** The argument of [ch.query]. *)
Record Query : Type := {
  query : string;
  format : string;
  query_params : gmap string param;
}.

(** What [ch.query(q)] followed by [result.json()] gives: a rejection (store
    or network error, timeout, undecodable body) or the decoded rows. *)
Inductive response : Type :=
  | Rejected (message : string)
  | Resolved (rows : list rowval).

Definition Store : Type := Query -> response.

Record World : Type := {
  issued : list Query;
  console : list string;
}.

Definition new_world : World := {| issued := []; console := [] |}.

(** How a call ends.  What this program throws is an [Error] (from
    [createClient], from the client, from a property read on [null]),
    given by its [message]: the handlers' test [error instanceof Error]
    holds of it and the text they build is that message. *)
Inductive outcome (A : Type) : Type :=
  | Returned (a : A)
  | Thrown (message : string).
Arguments Returned {A} a.
Arguments Thrown {A} message.

Definition async (A : Type) : Type := World -> outcome A * World.

Module Async.

Definition ret {A} (a : A) : async A := fun w => (Returned a, w).

Definition throw {A} (message : string) : async A :=
  fun w => (Thrown message, w).

Definition bind {A B} (m : async A) (k : A -> async B) : async B :=
  fun w =>
    match m w with
    | (Returned a, w') => k a w'
    | (Thrown e, w') => (Thrown e, w')
    end.

(** [try { m } catch (error) { handler }] *)
Definition try_catch {A} (m : async A) (handler : string -> async A)
  : async A :=
  fun w =>
    match m w with
    | (Returned a, w') => (Returned a, w')
    | (Thrown e, w') => handler e w'
    end.

Definition lift {A} (o : outcome A) : async A := fun w => (o, w).

(** [console.error(tag, error)] *)
Definition console_error (tag : string) : async unit :=
  fun w => (Returned tt,
            {| issued := issued w; console := (console w ++ [tag])%list |}).

(** [await Promise.all([m1, m2])]: both requests are started, and a
    rejection of either is thrown (of the first in array order when both
    reject; the handlers do not tell them apart). *)
Definition all2 {A B} (m1 : async A) (m2 : async B) : async (A * B) :=
  fun w =>
    let '(r1, w1) := m1 w in
    let '(r2, w2) := m2 w1 in
    (match r1, r2 with
     | Returned a, Returned b => Returned (a, b)
     | Thrown e, _ => Thrown e
     | _, Thrown e => Thrown e
     end, w2).

Definition all3 {A B C} (m1 : async A) (m2 : async B) (m3 : async C)
  : async (A * B * C) :=
  fun w =>
    let '(r1, w1) := m1 w in
    let '(r2, w2) := m2 w1 in
    let '(r3, w3) := m3 w2 in
    (match r1, r2, r3 with
     | Returned a, Returned b, Returned c => Returned (a, b, c)
     | Thrown e, _, _ => Thrown e
     | _, Thrown e, _ => Thrown e
     | _, _, Thrown e => Thrown e
     end, w3).

End Async.

#[global] Instance async_ret : MRet async := @Async.ret.
#[global] Instance async_bind : MBind async :=
  fun A B k m => Async.bind m k.

(** [rows.map(f)] where [f] may throw. *)
Fixpoint map_throwing {A B} (f : A -> outcome B) (l : list A)
  : outcome (list B) :=
  match l with
  | [] => Returned []
  | a :: l' =>
      match f a with
      | Returned b =>
          match map_throwing f l' with
          | Returned bs => Returned (b :: bs)
          | Thrown e => Thrown e
          end
      | Thrown e => Thrown e
      end
  end.

Definition TypeError : string := "TypeError: Cannot read properties of null".

(* ===================================================================== *)
(** ** Query functions of [clickhouse.ts] *)
(* ===================================================================== *)

Definition emptyHealthOverview : HealthOverviewData.t :=
  {| HealthOverviewData.totalTransactions := zero;
     HealthOverviewData.errorRate := zero;
     HealthOverviewData.avgLatencyMs := zero;
     HealthOverviewData.p95LatencyMs := zero;
     HealthOverviewData.uniqueClients := zero;
     HealthOverviewData.uniqueServers := zero;
     HealthOverviewData.applications := [] |}.

(** The callback of [apps.map(...)]. *)
Definition decodeApplication (app : rowval) : outcome ApplicationMetrics.t :=
  match app with
  | RNull => Thrown TypeError
  | RObj o =>
      Returned
        {| ApplicationMetrics.applicationName := prop o "application_name";
           ApplicationMetrics.totalTransactions :=
             Number (prop o "total_transactions");
           ApplicationMetrics.errorCount := Number (prop o "error_count");
           ApplicationMetrics.avgLatencyMs := Number (prop o "avg_latency_ms");
           ApplicationMetrics.p95LatencyMs := Number (prop o "p95_latency_ms") |}
  end.

(** The callback of [rows.map(...)] in [getTopTalkers]. *)
Definition decodeTopTalker (row : rowval) : outcome TopTalkerData.t :=
  match row with
  | RNull => Thrown TypeError
  | RObj o =>
      Returned
        {| TopTalkerData.clientIp := prop o "client_ip";
           TopTalkerData.serverIp := prop o "server_ip";
           TopTalkerData.bytes := Number (prop o "bytes");
           TopTalkerData.requestCount := Number (prop o "request_count") |}
  end.

(** The callback of [rows.map(...)] in [getTrafficTimeline]. *)
Definition decodeTimelinePoint (row : rowval)
  : outcome TrafficTimelinePoint.t :=
  match row with
  | RNull => Thrown TypeError
  | RObj o =>
      Returned
        {| TrafficTimelinePoint.hour := prop o "hour";
           TrafficTimelinePoint.requests := Number (prop o "requests");
           TrafficTimelinePoint.errors := Number (prop o "errors") |}
  end.

(** [Number(overall?.k || 0)] *)
Definition overallNumber (overall : option rowval) (k : string) : number :=
  Number (js_or (opt_prop overall k) (JNum zero)).

(** The object returned inside the [try] of [getHealthOverview]. *)
Definition shapeHealthOverview (overall : option rowval)
    (applications : list ApplicationMetrics.t) : HealthOverviewData.t :=
  let totalTransactions := overallNumber overall "total_transactions" in
  let errorCount := overallNumber overall "error_count" in
  {| HealthOverviewData.totalTransactions := totalTransactions;
     HealthOverviewData.errorRate :=
       if gt totalTransactions zero
       then mul (div errorCount totalTransactions) (of_Z 100)
       else zero;
     HealthOverviewData.avgLatencyMs := overallNumber overall "avg_latency_ms";
     HealthOverviewData.p95LatencyMs := overallNumber overall "p95_latency_ms";
     HealthOverviewData.uniqueClients := overallNumber overall "unique_clients";
     HealthOverviewData.uniqueServers := overallNumber overall "unique_servers";
     HealthOverviewData.applications := applications |}.

(** [await ch.query(q)] and [await result.json()], for the client [ch]
    seen as the store it talks to. *)
Definition ch_query (ch : Store) (q : Query) : async (list rowval) :=
  fun w =>
    (match ch q with
     | Rejected e => Thrown e
     | Resolved rows => Returned rows
     end,
     {| issued := (issued w ++ [q])%list; console := console w |}).

Section Clickhouse.

(** [getClient()], by what it does in this process: it returns the
    client, or throws what [createClient] throws (on a malformed
    [CLICKHOUSE_URL], say).  The three functions call it before their
    [try]. *)
Variable getClient : outcome Store.

Definition getHealthOverview (filters : QueryFilters)
  : async HealthOverviewData.t :=
  ch ← Async.lift getClient;
  let whereClause := clause (buildWhereClause filters) in
  let params := params (buildWhereClause filters) in
  Async.try_catch
    ('(overallRows, apps) ←
       Async.all2
         (ch_query ch {| query := overallQuery whereClause;
                         format := "JSONEachRow";
                         query_params := params |})
         (ch_query ch {| query := appQuery whereClause;
                         format := "JSONEachRow";
                         query_params := params |});
     let overall := head overallRows in
     applications ← Async.lift (map_throwing decodeApplication apps);
     mret (shapeHealthOverview overall applications))
    (fun error =>
       _ ← Async.console_error "[clickhouse] getHealthOverview error:";
       mret emptyHealthOverview).

Definition getTopTalkers (filters : QueryFilters)
  : async (list TopTalkerData.t) :=
  ch ← Async.lift getClient;
  let whereClause := clause (buildWhereClause filters) in
  let params := params (buildWhereClause filters) in
  let limit := number_or (limit filters) 10 in
  let queryParams := <["query_limit" := PNum limit]> params in
  Async.try_catch
    (rows ← ch_query ch {| query := topTalkersQuery whereClause;
                           format := "JSONEachRow";
                           query_params := queryParams |};
     Async.lift (map_throwing decodeTopTalker rows))
    (fun error =>
       _ ← Async.console_error "[clickhouse] getTopTalkers error:";
       mret []).

Definition getTrafficTimeline (filters : QueryFilters)
  : async (list TrafficTimelinePoint.t) :=
  ch ← Async.lift getClient;
  let whereClause := clause (buildWhereClause filters) in
  let params := params (buildWhereClause filters) in
  Async.try_catch
    (rows ← ch_query ch {| query := timelineQuery whereClause;
                           format := "JSONEachRow";
                           query_params := params |};
     Async.lift (map_throwing decodeTimelinePoint rows))
    (fun error =>
       _ ← Async.console_error "[clickhouse] getTrafficTimeline error:";
       mret []).

End Clickhouse.

(* ===================================================================== *)
(** ** Tool surface of [server.ts] *)
(* ===================================================================== *)

(** The handler argument after schema validation: [hours] carries its
    default already, the two sensor fields are optional. *)
Module ToolInput.
Record t : Type := {
  hours : number;
  sensor_ip : option string;
  sensor_name : option string;
}.
End ToolInput.

Module DashboardData.
Record t : Type := {
  healthOverview : HealthOverviewData.t;
  topTalkers : list TopTalkerData.t;
  trafficTimeline : list TrafficTimelinePoint.t;
  filters : ToolInput.t;
  generatedAt : string;
}.
End DashboardData.

(** The values the text digest of [show_network_dashboard] is formatted
    from, in the order of its lines. *)
Record TextSummary : Type := {
  summaryHours : number;
  summaryTotalTransactions : number;
  summaryErrorRate : number;
  summaryAvgLatency : number;
  summaryApplications : nat;
  summaryTopTalker : jsval * jsval;
}.

(** The [text] of a content item, by what it was built from:
    the digest, [JSON.stringify(dashboardData)], or an error message. *)
Inductive ToolText : Type :=
  | Digest (summary : TextSummary)
  | Stringified (payload : DashboardData.t)
  | Message (message : string).

Record CallToolResult : Type := {
  content : list ToolText;
  isError : bool;
}.

(** [n || 0] on a number. *)
Definition number_or_zero (n : number) : number :=
  if truthy n then n else zero.

Section Server.

(** [getClient()] as the data layer sees it. *)
Variable getClient : outcome Store.
(** [new Date().toISOString()] at the time of the call. *)
Variable now : string.

Definition baseFilters (input : ToolInput.t) : QueryFilters :=
  {| hours := Some (ToolInput.hours input);
     sensor_ip := ToolInput.sensor_ip input;
     sensor_name := ToolInput.sensor_name input;
     limit := None |}.

Definition topTalkerFilters (input : ToolInput.t) : QueryFilters :=
  {| hours := Some (ToolInput.hours input);
     sensor_ip := ToolInput.sensor_ip input;
     sensor_name := ToolInput.sensor_name input;
     limit := Some (of_Z 10) |}.

(** The [Promise.all] both handlers start with. *)
Definition fetchDashboard (input : ToolInput.t) : async DashboardData.t :=
  '(healthOverview, topTalkers, trafficTimeline) ←
    Async.all3 (getHealthOverview getClient (baseFilters input))
               (getTopTalkers getClient (topTalkerFilters input))
               (getTrafficTimeline getClient (baseFilters input));
  mret {| DashboardData.healthOverview := healthOverview;
          DashboardData.topTalkers := topTalkers;
          DashboardData.trafficTimeline := trafficTimeline;
          DashboardData.filters := input;
          DashboardData.generatedAt := now |}.

Definition textSummary (input : ToolInput.t) (d : DashboardData.t)
  : TextSummary :=
  let healthOverview := DashboardData.healthOverview d in
  {| summaryHours := ToolInput.hours input;
     summaryTotalTransactions :=
       number_or_zero (HealthOverviewData.totalTransactions healthOverview);
     summaryErrorRate :=
       number_or_zero (HealthOverviewData.errorRate healthOverview);
     summaryAvgLatency :=
       number_or_zero (HealthOverviewData.avgLatencyMs healthOverview);
     summaryApplications :=
       length (HealthOverviewData.applications healthOverview);
     summaryTopTalker :=
       match head (DashboardData.topTalkers d) with
       | Some t => (js_or (TopTalkerData.clientIp t) (JStr "N/A"),
                    js_or (TopTalkerData.serverIp t) (JStr "N/A"))
       | None => (JStr "N/A", JStr "N/A")
       end |}.

Definition show_network_dashboard (input : ToolInput.t)
  : async CallToolResult :=
  Async.try_catch
    (dashboardData ← fetchDashboard input;
     mret {| content := [Digest (textSummary input dashboardData);
                         Stringified dashboardData];
             isError := false |})
    (fun errorMessage =>
       mret {| content :=
                 [Message (String.append "Error fetching dashboard data: "
                                         errorMessage)];
               isError := true |}).

Definition refresh_dashboard_data (input : ToolInput.t)
  : async CallToolResult :=
  Async.try_catch
    (dashboardData ← fetchDashboard input;
     mret {| content := [Stringified dashboardData]; isError := false |})
    (fun errorMessage =>
       mret {| content :=
                 [Message (String.append "Refresh error: " errorMessage)];
               isError := true |}).

End Server.

(* ===================================================================== *)
(** ** Client view state of [App.tsx] *)
(* ===================================================================== *)

Module ApplicationDetails.
Record overview_t : Type := {
  applicationName : string;
  totalTransactions : number;
  errorCount : number;
  errorRate : number;
  avgLatencyMs : number;
  p50LatencyMs : number;
  p95LatencyMs : number;
  p99LatencyMs : number;
  totalBytes : number;
  uniqueClients : number;
  uniqueServers : number;
}.
Record client_t : Type := {
  clientIp : string;
  clientTransactions : number;
  clientErrors : number;
  clientBytes : number;
}.
Record server_t : Type := {
  serverIp : string;
  serverPort : number;
  serverTransactions : number;
  serverAvgLatencyMs : number;
}.
Record t : Type := {
  overview : overview_t;
  topClients : list client_t;
  topServers : list server_t;
  timeline : list TrafficTimelinePoint.t;
}.
End ApplicationDetails.

(** [JSON.parse(text)] of a content item, by its result: a [SyntaxError],
    [null], or an object read at the type the caller casts it to. *)
Inductive parsed (A : Type) : Type :=
  | SyntaxError
  | ParsedNull
  | Parsed (a : A).
Arguments SyntaxError {A}.
Arguments ParsedNull {A}.
Arguments Parsed {A} a.

(** What [await callServerTool(...)] does: reject, or resolve to a result
    whose [content] is an array of items ([None]: not an array), each item
    standing for the parse of its [text]. *)
Inductive toolCall (A : Type) : Type :=
  | CallRejected (message : string)
  | CallResolved (content : option (list (parsed A))).
Arguments CallRejected {A} message.
Arguments CallResolved {A} content.

(** [parseInt(s, 10)] *)
Definition parseInt (s : string) : number :=
  let l := ltrim (list_ascii_of_string s) in
  let '(neg, l) :=
    match l with
    | c :: r => if Ascii.eqb c "-" then (true, r)
                else if Ascii.eqb c "+" then (false, r)
                else (false, l)
    | [] => (false, l)
    end in
  match digits 10 0 0 l with
  | (v, S _, _) => if neg then of_Z (- Z.of_N v) else of_N v
  | (_, O, _) => NaN
  end.

Module App.

Record State : Type := {
  data : option DashboardData.t;
  loading : bool;
  error : option string;
  hours : number;
  autoRefresh : bool;
  lastUpdated : option string;
  selectedApp : option string;
  appDetails : option ApplicationDetails.t;
  loadingDetails : bool;
  (* [appRef.current] is set *)
  appRef : bool;
}.

(** [useState] initial values; the handle is not there yet. *)
Definition initial : State :=
  {| data := None; loading := true; error := None; hours := of_Z 24;
     autoRefresh := false; lastUpdated := None; selectedApp := None;
     appDetails := None; loadingDetails := false; appRef := false |}.

Definition setData (v : option DashboardData.t) (s : State) : State :=
  {| data := v; loading := loading s; error := error s; hours := hours s;
     autoRefresh := autoRefresh s; lastUpdated := lastUpdated s;
     selectedApp := selectedApp s; appDetails := appDetails s;
     loadingDetails := loadingDetails s; appRef := appRef s |}.
Definition setLoading (v : bool) (s : State) : State :=
  {| data := data s; loading := v; error := error s; hours := hours s;
     autoRefresh := autoRefresh s; lastUpdated := lastUpdated s;
     selectedApp := selectedApp s; appDetails := appDetails s;
     loadingDetails := loadingDetails s; appRef := appRef s |}.
Definition setError (v : option string) (s : State) : State :=
  {| data := data s; loading := loading s; error := v; hours := hours s;
     autoRefresh := autoRefresh s; lastUpdated := lastUpdated s;
     selectedApp := selectedApp s; appDetails := appDetails s;
     loadingDetails := loadingDetails s; appRef := appRef s |}.
Definition setHours (v : number) (s : State) : State :=
  {| data := data s; loading := loading s; error := error s; hours := v;
     autoRefresh := autoRefresh s; lastUpdated := lastUpdated s;
     selectedApp := selectedApp s; appDetails := appDetails s;
     loadingDetails := loadingDetails s; appRef := appRef s |}.
Definition setLastUpdated (v : option string) (s : State) : State :=
  {| data := data s; loading := loading s; error := error s; hours := hours s;
     autoRefresh := autoRefresh s; lastUpdated := v;
     selectedApp := selectedApp s; appDetails := appDetails s;
     loadingDetails := loadingDetails s; appRef := appRef s |}.
Definition setSelectedApp (v : option string) (s : State) : State :=
  {| data := data s; loading := loading s; error := error s; hours := hours s;
     autoRefresh := autoRefresh s; lastUpdated := lastUpdated s;
     selectedApp := v; appDetails := appDetails s;
     loadingDetails := loadingDetails s; appRef := appRef s |}.
Definition setAppDetails (v : option ApplicationDetails.t) (s : State)
  : State :=
  {| data := data s; loading := loading s; error := error s; hours := hours s;
     autoRefresh := autoRefresh s; lastUpdated := lastUpdated s;
     selectedApp := selectedApp s; appDetails := v;
     loadingDetails := loadingDetails s; appRef := appRef s |}.
Definition setLoadingDetails (v : bool) (s : State) : State :=
  {| data := data s; loading := loading s; error := error s; hours := hours s;
     autoRefresh := autoRefresh s; lastUpdated := lastUpdated s;
     selectedApp := selectedApp s; appDetails := appDetails s;
     loadingDetails := v; appRef := appRef s |}.

(** The first content item, when [content] is a non-empty array. *)
Definition firstItem {A} (r : option (list (parsed A))) : option (parsed A) :=
  match r with
  | Some (item :: _) => Some item
  | Some [] | None => None
  end.

(** *** [refreshData] *)

(** Up to the [await]: [setLoading(true)], then the tool is called with
    the current [hours]. *)
Definition refreshData_start (s : State) : State := setLoading true s.

(** From the [await] on: the [try] body, its [catch], and the [finally]. *)
Definition refreshData_settle (r : toolCall DashboardData.t) (s : State)
  : State :=
  let s :=
    match r with
    | CallRejected _ => setError (Some "Failed to refresh data") s
    | CallResolved content =>
        match firstItem content with
        | Some (Parsed jsonData) =>
            setError None
              (setLastUpdated (Some (DashboardData.generatedAt jsonData))
                 (setData (Some jsonData) s))
        | Some ParsedNull =>
            (* [setData(null)] runs, then [null.generatedAt] throws *)
            setError (Some "Failed to refresh data") (setData None s)
        | Some SyntaxError => setError (Some "Failed to refresh data") s
        | None => s
        end
    end in
  setLoading false s.

Definition refreshData (r : toolCall DashboardData.t) (s : State) : State :=
  if appRef s then refreshData_settle r (refreshData_start s) else s.

(** *** [handleHoursChange] *)

Definition handleHoursChange_start (newHours : string) (s : State) : State :=
  let h := parseInt newHours in
  setLoading true (setHours h s).

Definition handleHoursChange_settle (r : toolCall DashboardData.t)
    (s : State) : State :=
  let s :=
    match r with
    | CallRejected _ => s
    | CallResolved content =>
        match firstItem content with
        | Some (Parsed jsonData) =>
            setLastUpdated (Some (DashboardData.generatedAt jsonData))
              (setData (Some jsonData) s)
        | Some ParsedNull => setData None s
        | Some SyntaxError => s
        | None => s
        end
    end in
  setLoading false s.

Definition handleHoursChange (newHours : string)
    (r : toolCall DashboardData.t) (s : State) : State :=
  if appRef s
  then handleHoursChange_settle r (handleHoursChange_start newHours s)
  else s.

(** *** [handleAppClick] and [handleBackToOverview] *)

Definition handleAppClick_start (appName : string) (s : State) : State :=
  setAppDetails None (setLoadingDetails true (setSelectedApp (Some appName) s)).

Definition handleAppClick_settle (r : toolCall ApplicationDetails.t)
    (s : State) : State :=
  let s :=
    match r with
    | CallRejected _ => s
    | CallResolved content =>
        match firstItem content with
        | Some (Parsed jsonData) => setAppDetails (Some jsonData) s
        | Some ParsedNull => setAppDetails None s
        | Some SyntaxError => s
        | None => s
        end
    end in
  setLoadingDetails false s.

(** [appName] is [undefined] when the chart selection is cleared. *)
Definition handleAppClick (appName : option string)
    (r : toolCall ApplicationDetails.t) (s : State) : State :=
  match appName with
  | Some name =>
      if negb (String.eqb name "") && appRef s
      then handleAppClick_settle r (handleAppClick_start name s)
      else s
  | None => s
  end.

Definition handleBackToOverview (s : State) : State :=
  setAppDetails None (setSelectedApp None s).

(** *** What [App] renders *)

Inductive View : Type :=
  | LoadingSkeleton
  | ErrorCard (message : string)
  | NoDataCard
  (* [ApplicationDetailView] while [loading || !details] *)
  | DetailSkeleton (appName : string)
  | DetailPage (appName : string) (details : ApplicationDetails.t)
  | Dashboard (snapshot : DashboardData.t) (refreshing : bool).

Definition nonEmpty (o : option string) : option string :=
  match o with
  | Some s => if String.eqb s "" then None else Some s
  | None => None
  end.

Definition ApplicationDetailView (appName : string)
    (details : option ApplicationDetails.t) (loading : bool) : View :=
  match loading, details with
  | false, Some d => DetailPage appName d
  | _, _ => DetailSkeleton appName
  end.

Definition render (s : State) : View :=
  match data s with
  | None =>
      if loading s then LoadingSkeleton
      else match nonEmpty (error s) with
           | Some message => ErrorCard message
           | None => NoDataCard
           end
  | Some d =>
      match nonEmpty (selectedApp s) with
      | Some appName =>
          ApplicationDetailView appName (appDetails s) (loadingDetails s)
      | None => Dashboard d (loading s)
      end
  end.

(** The screen shows an error to the user. *)
Definition showsError (v : View) : bool :=
  match v with
  | ErrorCard _ => true
  | _ => false
  end.

End App.

(* ===================================================================== *)
(** ** The wire format of counts, and [Number] on it *)
(* ===================================================================== *)

(** The decimal text of a natural number, as the store prints a 64-bit
    unsigned integer between quotes. *)
Definition decimal (n : N) : string :=
  NilEmpty.string_of_uint (N.to_uint n).


Definition uint_chars (d : Decimal.uint) : list ascii :=
  list_ascii_of_string (NilEmpty.string_of_uint d).

(** What the conversion needs to know of a character of a decimal text. *)
Definition is_decimal_digit (a : ascii) : Prop :=
  (exists d, digit_of 10 a = Some d) /\ is_ws a = false
  /\ Ascii.eqb a "-" = false /\ Ascii.eqb a "+" = false
  /\ Ascii.eqb a "x" = false /\ Ascii.eqb a "X" = false
  /\ Ascii.eqb a "o" = false /\ Ascii.eqb a "O" = false
  /\ Ascii.eqb a "b" = false /\ Ascii.eqb a "B" = false
  /\ Ascii.eqb a "I" = false.

Lemma uint_chars_digits d : Forall is_decimal_digit (uint_chars d).
Proof.
  induction d; cbn; constructor; try assumption;
    (split; [eexists; reflexivity | repeat split; reflexivity]).
Qed.

Ltac digit_step IH :=
  match goal with
  | |- context [digit_of 10 ?c] =>
      let v := eval vm_compute in (digit_of 10 c) in
      change (digit_of 10 c) with v; cbv iota beta
  end;
  match goal with
  | |- digits 10 ?a _ _ = (N.pos (Pos.of_uint_acc _ ?p), _, _) =>
      replace a with (N.pos p) by lia
  end;
  rewrite IH; f_equal; f_equal; lia.

Lemma digits_acc d : forall acc k,
  digits 10 (Npos acc) k (uint_chars d)
  = (Npos (Pos.of_uint_acc d acc), (k + length (uint_chars d))%nat, []).
Proof.
  unfold uint_chars.
  induction d; intros acc k;
    cbn [NilEmpty.string_of_uint list_ascii_of_string digits
         Pos.of_uint_acc length].
  { f_equal. f_equal. lia. }
  all: digit_step IHd.
Qed.

(** A first digit [p] other than 0 starts the accumulator at [p]. *)
Ltac leading_digit d k p :=
  change (0 * 10 + N.pos p)%N with (N.pos p);
  let E := fresh "E" in
  pose proof (digits_acc d p (S k)) as E; unfold uint_chars in E;
  rewrite E; f_equal; f_equal; lia.

Lemma digits_uint d : forall k,
  digits 10 0 k (uint_chars d)
  = (N.of_uint d, (k + length (uint_chars d))%nat, []).
Proof.
  unfold N.of_uint, uint_chars.
  induction d; intros k;
    cbn [NilEmpty.string_of_uint list_ascii_of_string digits Pos.of_uint
         length];
    try (match goal with
         | |- context [digit_of 10 ?c] =>
             let v := eval vm_compute in (digit_of 10 c) in
             change (digit_of 10 c) with v; cbv iota beta
         end).
  - f_equal. f_equal. lia.
  - change (0 * 10 + 0)%N with 0%N. rewrite IHd. f_equal. f_equal. lia.
  - leading_digit d k 1%positive.
  - leading_digit d k 2%positive.
  - leading_digit d k 3%positive.
  - leading_digit d k 4%positive.
  - leading_digit d k 5%positive.
  - leading_digit d k 6%positive.
  - leading_digit d k 7%positive.
  - leading_digit d k 8%positive.
  - leading_digit d k 9%positive.
Qed.

Lemma ltrim_digits l : Forall is_decimal_digit l -> ltrim l = l.
Proof.
  intros H. destruct H as [|a l Ha Hl]; [reflexivity|].
  cbn. destruct Ha as (_ & Hws & _). now rewrite Hws.
Qed.






(** The conversion on some texts a row may hold. *)
Example StringToNumber_examples :
  Forall2 same
    (map StringToNumber
       ["1000"; " 12 "; ""; "abc"; "-5"; "2.50"; "1e3"; "0x1F"; "Infinity";
        "-Infinity"; "."; "5."; ".5"; "1e"; "-0x10"; "12 kB"; "1E-2"])
    [of_Z 1000; of_Z 12; zero; NaN; of_Z (-5); Fin (5 # 2); of_Z 1000;
     of_Z 31; Inf false; Inf true; NaN; of_Z 5; Fin (1 # 2); NaN; NaN; NaN;
     Fin (1 # 100)].
Proof.
  repeat (constructor; [vm_compute; first [reflexivity | exact I]|]).
  constructor.
Qed.

Example parseInt_examples :
  map parseInt ["1"; "6"; "24"; "168"; " 42px"; "-7"; "hours"]
  = [of_Z 1; of_Z 6; of_Z 24; of_Z 168; of_Z 42; of_Z (-7); NaN].
Proof. reflexivity. Qed.

(* ===================================================================== *)
(** ** What one call of an aggregation does, in closed form *)
(* ===================================================================== *)

(** The requests the three functions hand to [ch.query]. *)
Definition overallRequest (f : QueryFilters) : Query :=
  {| query := overallQuery (clause (buildWhereClause f));
     format := "JSONEachRow";
     query_params := params (buildWhereClause f) |}.

Definition appRequest (f : QueryFilters) : Query :=
  {| query := appQuery (clause (buildWhereClause f));
     format := "JSONEachRow";
     query_params := params (buildWhereClause f) |}.

Definition topTalkersRequest (f : QueryFilters) : Query :=
  {| query := topTalkersQuery (clause (buildWhereClause f));
     format := "JSONEachRow";
     query_params :=
       <["query_limit" := PNum (number_or (limit f) 10)]>
         (params (buildWhereClause f)) |}.

Definition timelineRequest (f : QueryFilters) : Query :=
  {| query := timelineQuery (clause (buildWhereClause f));
     format := "JSONEachRow";
     query_params := params (buildWhereClause f) |}.

(** The rows of a response that decode without throwing. *)
Definition decoded {B} (decode : rowval -> outcome B) (r : response)
  : option (list B) :=
  match r with
  | Resolved rows =>
      match map_throwing decode rows with
      | Returned l => Some l
      | Thrown _ => None
      end
  | Rejected _ => None
  end.

Definition log_if_none {B} (o : option B) (tag : string) (w : World)
  : list string :=
  match o with
  | Some _ => console w
  | None => (console w ++ [tag])%list
  end.

Section Runs.

Variable ch : Store.

Definition healthOverviewResult (f : QueryFilters)
  : option HealthOverviewData.t :=
  match ch (overallRequest f), decoded decodeApplication (ch (appRequest f))
  with
  | Resolved rows, Some apps => Some (shapeHealthOverview (head rows) apps)
  | _, _ => None
  end.

Lemma getHealthOverview_run f w :
  getHealthOverview (Returned ch) f w
  = (Returned (default emptyHealthOverview (healthOverviewResult f)),
     {| issued := (issued w ++ [overallRequest f; appRequest f])%list;
        console := log_if_none (healthOverviewResult f)
                     "[clickhouse] getHealthOverview error:" w |}).
Proof.
  unfold getHealthOverview, healthOverviewResult, decoded, Async.try_catch,
    Async.all2, ch_query, mbind, async_bind, Async.bind, mret, async_ret,
    Async.ret, Async.lift, Async.console_error, log_if_none.
  fold (overallRequest f). fold (appRequest f).
  cbn [issued console].
  rewrite <- app_assoc. cbn [app].
  destruct (ch (overallRequest f)) as [e1|rows];
    destruct (ch (appRequest f)) as [e2|apps]; cbn; try reflexivity.
  destruct (map_throwing decodeApplication apps); reflexivity.
Qed.

Lemma getTopTalkers_run f w :
  getTopTalkers (Returned ch) f w
  = (Returned (default [] (decoded decodeTopTalker (ch (topTalkersRequest f)))),
     {| issued := (issued w ++ [topTalkersRequest f])%list;
        console := log_if_none
                     (decoded decodeTopTalker (ch (topTalkersRequest f)))
                     "[clickhouse] getTopTalkers error:" w |}).
Proof.
  unfold getTopTalkers, decoded, Async.try_catch, ch_query, mbind,
    async_bind, Async.bind, mret, async_ret, Async.ret, Async.lift,
    Async.console_error, log_if_none.
  fold (topTalkersRequest f). cbn [issued console].
  destruct (ch (topTalkersRequest f)) as [e|rows]; cbn; try reflexivity.
  destruct (map_throwing decodeTopTalker rows); reflexivity.
Qed.

Lemma getTrafficTimeline_run f w :
  getTrafficTimeline (Returned ch) f w
  = (Returned
       (default [] (decoded decodeTimelinePoint (ch (timelineRequest f)))),
     {| issued := (issued w ++ [timelineRequest f])%list;
        console := log_if_none
                     (decoded decodeTimelinePoint (ch (timelineRequest f)))
                     "[clickhouse] getTrafficTimeline error:" w |}).
Proof.
  unfold getTrafficTimeline, decoded, Async.try_catch, ch_query, mbind,
    async_bind, Async.bind, mret, async_ret, Async.ret, Async.lift,
    Async.console_error, log_if_none.
  fold (timelineRequest f). cbn [issued console].
  destruct (ch (timelineRequest f)) as [e|rows]; cbn; try reflexivity.
  destruct (map_throwing decodeTimelinePoint rows); reflexivity.
Qed.

End Runs.

(** [map_throwing] on rows that are all objects is [map]. *)
Lemma map_throwing_Returned {A B} (f : A -> outcome B) l l' :
  map_throwing f l = Returned l' -> Forall2 (fun a b => f a = Returned b) l l'.
Proof.
  revert l'. induction l as [|a l IH]; intros l' H; cbn in H.
  - inversion H. constructor.
  - destruct (f a) as [b|] eqn:Ea; [|discriminate].
    destruct (map_throwing f l) as [bs|]; [|discriminate].
    inversion H; subst. constructor; auto.
Qed.

Lemma map_throwing_total {A B} (f : A -> outcome B) (g : A -> B) l :
  Forall (fun a => f a = Returned (g a)) l ->
  map_throwing f l = Returned (map g l).
Proof.
  induction 1 as [|a l Ha Hl IH]; cbn; [reflexivity|].
  now rewrite Ha, IH.
Qed.

(* ===================================================================== *)
(** ** The query builder *)
(* ===================================================================== *)

Section QueryBuilder.

Implicit Types f : QueryFilters.

(** The optional conditions, by the two tests of [buildWhereClause]. *)
Definition sensorConditions (ip name : bool) : list string :=
  ((if ip then [sensor_ip_condition] else [])
   ++ (if name then [sensor_name_condition] else []))%list.

Lemma whereConditions_conditions f :
  fst (whereConditions f)
  = time_condition
      :: sensorConditions (supplied (sensor_ip f)) (supplied (sensor_name f)).
Proof.
  unfold whereConditions, sensorConditions.
  destruct (sensor_ip f) as [ip|], (sensor_name f) as [name|];
    cbn [supplied];
    repeat match goal with
           | |- context [String.eqb ?s ""] => destruct (String.eqb s "")
           end; reflexivity.
Qed.

Lemma whereConditions_nonempty f : (0 < length (fst (whereConditions f)))%nat.
Proof. rewrite whereConditions_conditions. cbn. lia. Qed.

Lemma buildWhereClause_clause f :
  clause (buildWhereClause f)
  = String.append "WHERE "
      (String.concat " AND " (fst (whereConditions f))).
Proof.
  pose proof (whereConditions_nonempty f) as H.
  unfold buildWhereClause. destruct (whereConditions f) as [conditions ps].
  cbn [fst clause] in *.
  destruct conditions; [cbn in H; lia | reflexivity].
Qed.

Lemma buildWhereClause_params f :
  params (buildWhereClause f) = snd (whereConditions f).
Proof.
  unfold buildWhereClause. now destruct (whereConditions f).
Qed.

(** The clause is one of four constant texts, chosen by the two tests. *)
Definition clauseText (ip name : bool) : string :=
  String.append "WHERE "
    (String.concat " AND " (time_condition :: sensorConditions ip name)).

Lemma buildWhereClause_text f :
  clause (buildWhereClause f)
  = clauseText (supplied (sensor_ip f)) (supplied (sensor_name f)).
Proof.
  now rewrite buildWhereClause_clause, whereConditions_conditions.
Qed.

(** Where each supplied value ends up. *)
Lemma params_filter_hours f :
  params (buildWhereClause f) !! "filter_hours"
  = Some (PNum (number_or (hours f) 24)).
Proof.
  rewrite buildWhereClause_params. unfold whereConditions.
  destruct (sensor_ip f) as [ip|], (sensor_name f) as [name|];
    cbn [supplied snd];
    repeat match goal with
           | |- context [String.eqb ?s ""] => destruct (String.eqb s "")
           end; cbn [negb snd]; by simplify_map_eq.
Qed.

Lemma params_filter_sensor_ip f :
  params (buildWhereClause f) !! "filter_sensor_ip"
  = if supplied (sensor_ip f) then PStr <$> sensor_ip f else None.
Proof.
  rewrite buildWhereClause_params. unfold whereConditions.
  destruct (sensor_ip f) as [ip|], (sensor_name f) as [name|];
    cbn [supplied snd];
    repeat match goal with
           | |- context [String.eqb ?s ""] => destruct (String.eqb s "")
           end; cbn [negb snd]; by simplify_map_eq.
Qed.

Lemma params_filter_sensor_name f :
  params (buildWhereClause f) !! "filter_sensor_name"
  = if supplied (sensor_name f) then PStr <$> sensor_name f else None.
Proof.
  rewrite buildWhereClause_params. unfold whereConditions.
  destruct (sensor_ip f) as [ip|], (sensor_name f) as [name|];
    cbn [supplied snd];
    repeat match goal with
           | |- context [String.eqb ?s ""] => destruct (String.eqb s "")
           end; cbn [negb snd]; by simplify_map_eq.
Qed.

(** No other name is ever bound by the builder. *)
Lemma params_other f k :
  k <> "filter_hours" -> k <> "filter_sensor_ip" ->
  k <> "filter_sensor_name" ->
  params (buildWhereClause f) !! k = None.
Proof.
  intros H1 H2 H3.
  rewrite buildWhereClause_params. unfold whereConditions.
  destruct (sensor_ip f) as [ip|], (sensor_name f) as [name|];
    cbn [supplied snd];
    repeat match goal with
           | |- context [String.eqb ?s ""] => destruct (String.eqb s "")
           end; cbn [negb snd]; by simplify_map_eq.
Qed.

End QueryBuilder.

(* ===================================================================== *)
(** ** The tool surface, in closed form *)
(* ===================================================================== *)

Section ServerRuns.

Variable ch : Store.
Variable now : string.

Definition dashboardRequests (input : ToolInput.t) : list Query :=
  [overallRequest (baseFilters input); appRequest (baseFilters input);
   topTalkersRequest (topTalkerFilters input);
   timelineRequest (baseFilters input)].

Definition dashboardOf (input : ToolInput.t) : DashboardData.t :=
  {| DashboardData.healthOverview :=
       default emptyHealthOverview
         (healthOverviewResult ch (baseFilters input));
     DashboardData.topTalkers :=
       default [] (decoded decodeTopTalker
                     (ch (topTalkersRequest (topTalkerFilters input))));
     DashboardData.trafficTimeline :=
       default [] (decoded decodeTimelinePoint
                     (ch (timelineRequest (baseFilters input))));
     DashboardData.filters := input;
     DashboardData.generatedAt := now |}.

Lemma fetchDashboard_run input w :
  fst (fetchDashboard (Returned ch) now input w) = Returned (dashboardOf input)
  /\ issued (snd (fetchDashboard (Returned ch) now input w))
     = (issued w ++ dashboardRequests input)%list.
Proof.
  unfold fetchDashboard, Async.all3, mbind, async_bind, Async.bind, mret,
    async_ret, Async.ret.
  rewrite getHealthOverview_run, getTopTalkers_run, getTrafficTimeline_run.
  cbn [issued fst snd]. split; [reflexivity|].
  unfold dashboardRequests. now rewrite <- !app_assoc.
Qed.

Lemma show_network_dashboard_run input w :
  fst (show_network_dashboard (Returned ch) now input w)
  = Returned {| content := [Digest (textSummary input (dashboardOf input));
                            Stringified (dashboardOf input)];
                isError := false |}
  /\ issued (snd (show_network_dashboard (Returned ch) now input w))
     = (issued w ++ dashboardRequests input)%list.
Proof.
  destruct (fetchDashboard_run input w) as [Hr Hi].
  unfold show_network_dashboard, Async.try_catch, mbind, async_bind,
    Async.bind, mret, async_ret, Async.ret.
  destruct (fetchDashboard (Returned ch) now input w) as [[d|e] w'];
    cbn [fst snd] in *; [|discriminate].
  inversion Hr; subst. split; [reflexivity | assumption].
Qed.

Lemma refresh_dashboard_data_run input w :
  fst (refresh_dashboard_data (Returned ch) now input w)
  = Returned {| content := [Stringified (dashboardOf input)];
                isError := false |}
  /\ issued (snd (refresh_dashboard_data (Returned ch) now input w))
     = (issued w ++ dashboardRequests input)%list.
Proof.
  destruct (fetchDashboard_run input w) as [Hr Hi].
  unfold refresh_dashboard_data, Async.try_catch, mbind, async_bind,
    Async.bind, mret, async_ret, Async.ret.
  destruct (fetchDashboard (Returned ch) now input w) as [[d|e] w'];
    cbn [fst snd] in *; [|discriminate].
  inversion Hr; subst. split; [reflexivity | assumption].
Qed.

End ServerRuns.

(* ===================================================================== *)
(** ** Properties of the query builder and of the issued queries *)
(* ===================================================================== *)

Lemma append_assoc (a b c : string) :
  String.append (String.append a b) c = String.append a (String.append b c).
Proof.
  induction a as [|x a IH]; [reflexivity|].
  change (String x (String.append (String.append a b) c)
          = String x (String.append a (String.append b c))).
  now rewrite IH.
Qed.

Definition time_predicate : string := String.append "WHERE " time_condition.

(** [needle] occurs in [hay], as a test. *)
Fixpoint occurs (needle hay : string) : bool :=
  match hay with
  | EmptyString => String.prefix needle hay
  | String _ hay' => String.prefix needle hay || occurs needle hay'
  end.

(** The text of [sql] after the first occurrence of [needle]. *)
Definition textAfter (needle sql : string) : option string :=
  match String.index 0 needle sql with
  | Some i =>
      let k := (i + String.length needle)%nat in
      Some (String.substring k (String.length sql - k) sql)
  | None => None
  end.

(** The time-window predicate as the store is to read it. *)
Definition timeWindow : string :=
  "timestamp >= now() - INTERVAL {filter_hours:UInt32} HOUR".

(** A statement restricted to the time window: it has one [WHERE], the
    conditions after it start with the time-window predicate, and nothing
    after it is joined by [OR], so that the predicate is a conjunct of the
    whole condition. *)
Definition timeScoped (sql : string) : bool :=
  match textAfter "WHERE " sql with
  | Some conditions =>
      String.prefix timeWindow conditions
      && negb (occurs "WHERE" conditions)
      && negb (occurs " OR " conditions)
  | None => false
  end.

(** A query restricted to the time window: its text is, and its parameters
    bind [filter_hours] to a number that is neither 0 nor [NaN]. *)
Definition scoped (q : Query) : Prop :=
  timeScoped (query q) = true
  /\ exists h, query_params q !! "filter_hours" = Some (PNum h)
               /\ truthy h = true.

Example timeScoped_examples :
  timeScoped (overallQuery "") = false
  /\ timeScoped (overallQuery "WHERE sensor_ip = {filter_sensor_ip:String}")
     = false
  /\ timeScoped
       (overallQuery
          "WHERE timestamp >= now() - INTERVAL {filter_hours:UInt32} HOUR OR sensor_ip = {filter_sensor_ip:String}")
     = false
  /\ timeScoped
       (overallQuery
          "WHERE timestamp >= now() - INTERVAL {filter_hours:UInt32} HOUR AND sensor_ip = {filter_sensor_ip:String}")
     = true.
Proof. vm_compute. repeat split. Qed.

Lemma clause_starts_with_time f :
  exists rest,
    clause (buildWhereClause f) = String.append time_predicate rest.
Proof.
  rewrite buildWhereClause_text. unfold clauseText, sensorConditions.
  destruct (supplied (sensor_ip f)), (supplied (sensor_name f));
    eexists; reflexivity.
Qed.

Lemma number_or_truthy o d : (d <> 0)%Z -> truthy (number_or o d) = true.
Proof.
  intros Hd. unfold number_or.
  assert (Ht : truthy (of_Z d) = true).
  { unfold truthy, of_Z, Qzerob. cbn. apply negb_true_iff, Z.eqb_neq, Hd. }
  destruct o as [n|]; [|exact Ht].
  destruct (truthy n) eqn:E; [exact E | exact Ht].
Qed.

Ltac text_scoped f :=
  cbn [query overallRequest appRequest topTalkersRequest timelineRequest];
  rewrite buildWhereClause_text;
  destruct (supplied (sensor_ip f)), (supplied (sensor_name f));
  vm_compute; reflexivity.

Lemma requests_scoped f :
  Forall scoped [overallRequest f; appRequest f; topTalkersRequest f;
                 timelineRequest f].
Proof.
  assert (Hh : exists h, params (buildWhereClause f) !! "filter_hours"
                         = Some (PNum h) /\ truthy h = true).
  { eexists. split; [apply params_filter_hours|].
    apply number_or_truthy. discriminate. }
  constructor; [split; [text_scoped f | exact Hh]|].
  constructor; [split; [text_scoped f | exact Hh]|].
  constructor; [split; [text_scoped f|]|].
  { cbn [query_params topTalkersRequest].
    rewrite lookup_insert_ne by done. exact Hh. }
  constructor; [split; [text_scoped f | exact Hh]|].
  constructor.
Qed.

(** Claim C10.  For every filter, the list of conditions built by
    [buildWhereClause] is non-empty and starts with the time-window
    condition [timestamp >= now() - INTERVAL {filter_hours:UInt32} HOUR],
    so the clause is never empty (the [else] branch of the final
    conditional is not taken): it is [WHERE] followed by that condition and
    by nothing, or by the sensor conditions each joined with [AND].
    [filter_hours] is bound to [hours || 24], which is never 0 or [NaN] and
    is 24 when [hours] is absent; and every query issued by the three
    aggregations and by the two tools has that one [WHERE] clause, with the
    time-window condition first and no [OR] after it, and binds
    [filter_hours]. *)
Theorem where_clause_always_time_scoped (f : QueryFilters) :
  (0 < length (fst (whereConditions f)))%nat
  /\ head (fst (whereConditions f))
     = Some "timestamp >= now() - INTERVAL {filter_hours:UInt32} HOUR"
  /\ clause (buildWhereClause f) <> ""
  /\ (exists rest,
        clause (buildWhereClause f)
        = String.append
            "WHERE timestamp >= now() - INTERVAL {filter_hours:UInt32} HOUR"
            rest
        /\ (rest = ""
            \/ rest = " AND sensor_ip = {filter_sensor_ip:String}"
            \/ rest = " AND sensor_name = {filter_sensor_name:String}"
            \/ rest = " AND sensor_ip = {filter_sensor_ip:String} AND sensor_name = {filter_sensor_name:String}"))
  /\ params (buildWhereClause f) !! "filter_hours"
     = Some (PNum (number_or (hours f) 24))
  /\ truthy (number_or (hours f) 24) = true
  /\ params (buildWhereClause
               {| hours := None; sensor_ip := sensor_ip f;
                  sensor_name := sensor_name f; limit := limit f |})
       !! "filter_hours" = Some (PNum (of_Z 24))
  /\ (forall (ch : Store) (w : World),
        exists q1 q2 q3 q4,
          issued (snd (getHealthOverview (Returned ch) f w))
          = (issued w ++ [q1; q2])%list
          /\ issued (snd (getTopTalkers (Returned ch) f w))
             = (issued w ++ [q3])%list
          /\ issued (snd (getTrafficTimeline (Returned ch) f w))
             = (issued w ++ [q4])%list
          /\ Forall scoped [q1; q2; q3; q4])
  /\ (forall (getClient : outcome Store) (now : string)
             (input : ToolInput.t) (w : World),
        exists qs,
          issued (snd (show_network_dashboard getClient now input w))
          = (issued w ++ qs)%list
          /\ issued (snd (refresh_dashboard_data getClient now input w))
             = (issued w ++ qs)%list
          /\ Forall scoped qs).
Proof.
  split; [apply whereConditions_nonempty|].
  split; [now rewrite whereConditions_conditions|].
  split.
  { destruct (clause_starts_with_time f) as [rest ->]. discriminate. }
  split.
  { rewrite buildWhereClause_text.
    destruct (supplied (sensor_ip f)), (supplied (sensor_name f));
      eexists; (split; [reflexivity|]); auto. }
  split; [apply params_filter_hours|].
  split; [apply number_or_truthy; discriminate|].
  split; [now rewrite params_filter_hours|].
  split.
  - intros ch w.
    exists (overallRequest f), (appRequest f), (topTalkersRequest f),
      (timelineRequest f).
    rewrite getHealthOverview_run, getTopTalkers_run, getTrafficTimeline_run.
    cbn [snd issued]. do 3 (split; [reflexivity|]).
    apply requests_scoped.
  - intros [ch|e] now input w.
    + exists (dashboardRequests input).
      split; [apply show_network_dashboard_run|].
      split; [apply refresh_dashboard_data_run|].
      pose proof (requests_scoped (baseFilters input)) as Hb.
      pose proof (requests_scoped (topTalkerFilters input)) as Ht.
      apply List.Forall_cons_iff in Hb. destruct Hb as [H1 Hb].
      apply List.Forall_cons_iff in Hb. destruct Hb as [H2 Hb].
      apply List.Forall_cons_iff in Hb. destruct Hb as [_ Hb].
      apply List.Forall_cons_iff in Hb. destruct Hb as [H4 _].
      apply List.Forall_cons_iff in Ht. destruct Ht as [_ Ht].
      apply List.Forall_cons_iff in Ht. destruct Ht as [_ Ht].
      apply List.Forall_cons_iff in Ht. destruct Ht as [H3 _].
      unfold dashboardRequests.
      constructor; [exact H1|]. constructor; [exact H2|].
      constructor; [exact H3|]. constructor; [exact H4|]. constructor.
    + exists []. cbn. rewrite app_nil_r.
      split; [reflexivity|]. split; [reflexivity|]. constructor.
Qed.

(** Which optional fields of a filter are present (not [undefined]). *)
Definition given {A} (o : option A) : bool :=
  match o with
  | Some _ => true
  | None => false
  end.

Definition fieldsPresent (f : QueryFilters) : bool * bool * bool * bool :=
  (given (hours f), given (sensor_ip f), given (sensor_name f),
   given (limit f)).

(** The texts handed to the store by one call of each aggregation. *)
Definition queryTexts (ch : Store) (f : QueryFilters) : list string :=
  map query
    (issued (snd (getHealthOverview (Returned ch) f new_world))
     ++ issued (snd (getTopTalkers (Returned ch) f new_world))
     ++ issued (snd (getTrafficTimeline (Returned ch) f new_world)))%list.

Lemma queryTexts_eq ch f :
  queryTexts ch f
  = [overallQuery (clause (buildWhereClause f));
     appQuery (clause (buildWhereClause f));
     topTalkersQuery (clause (buildWhereClause f));
     timelineQuery (clause (buildWhereClause f))].
Proof.
  unfold queryTexts.
  rewrite getHealthOverview_run, getTopTalkers_run, getTrafficTimeline_run.
  reflexivity.
Qed.

(** Claim C1, as stated, fails: the text is not a function of which fields
    are present.  A filter whose [sensor_ip] is the empty string and one
    whose [sensor_ip] is ["10.0.0.1"] have the same fields present, and get
    different clauses (the empty string is treated as no filter). *)
Lemma clause_depends_on_empty_string :
  ~ (forall f1 f2 : QueryFilters,
       fieldsPresent f1 = fieldsPresent f2 ->
       clause (buildWhereClause f1) = clause (buildWhereClause f2)).
Proof.
  intros H.
  specialize (H {| hours := None; sensor_ip := Some ""; sensor_name := None;
                   limit := None |}
                {| hours := None; sensor_ip := Some "10.0.0.1";
                   sensor_name := None; limit := None |} eq_refl).
  vm_compute in H. discriminate H.
Qed.

(** Claim C1, amended.  The clause and the text of every query issued by
    the three aggregations depend only on which of [sensor_ip] and
    [sensor_name] are supplied with a non-empty value: two filters that
    agree on that get the same texts, whatever their values and whatever the
    store answers.  The values travel as bound parameters only:
    [filter_hours], [filter_sensor_ip], [filter_sensor_name] and
    [query_limit] hold them, and no other name is bound. *)
Theorem query_text_independent_of_values
    (ch1 ch2 : Store) (f1 f2 : QueryFilters)
    (Hip : supplied (sensor_ip f1) = supplied (sensor_ip f2))
    (Hname : supplied (sensor_name f1) = supplied (sensor_name f2)) :
  clause (buildWhereClause f1) = clause (buildWhereClause f2)
  /\ queryTexts ch1 f1 = queryTexts ch2 f2
  /\ (forall f : QueryFilters,
        params (buildWhereClause f) !! "filter_hours"
        = Some (PNum (number_or (hours f) 24))
        /\ params (buildWhereClause f) !! "filter_sensor_ip"
           = (if supplied (sensor_ip f) then PStr <$> sensor_ip f else None)
        /\ params (buildWhereClause f) !! "filter_sensor_name"
           = (if supplied (sensor_name f) then PStr <$> sensor_name f
              else None)
        /\ query_params (topTalkersRequest f) !! "query_limit"
           = Some (PNum (number_or (limit f) 10))
        /\ (forall k, k <> "filter_hours" -> k <> "filter_sensor_ip" ->
                      k <> "filter_sensor_name" ->
                      params (buildWhereClause f) !! k = None)).
Proof.
  assert (Hc : clause (buildWhereClause f1) = clause (buildWhereClause f2))
    by (now rewrite !buildWhereClause_text, Hip, Hname).
  split; [exact Hc|].
  split; [now rewrite !queryTexts_eq, Hc|].
  intros f.
  split; [apply params_filter_hours|].
  split; [apply params_filter_sensor_ip|].
  split; [apply params_filter_sensor_name|].
  split; [apply lookup_insert_eq|].
  apply params_other.
Qed.

(** Two filters with different hours, sensors and limits, both with a
    sensor address and no sensor name. *)
Lemma query_text_independent_of_values_witness :
  let f1 := {| hours := Some (of_Z 1); sensor_ip := Some "10.0.0.1";
               sensor_name := None; limit := Some (of_Z 5) |} in
  let f2 := {| hours := Some (of_Z 168);
               sensor_ip := Some "x' OR 1=1 --";
               sensor_name := Some ""; limit := None |} in
  supplied (sensor_ip f1) = supplied (sensor_ip f2)
  /\ supplied (sensor_name f1) = supplied (sensor_name f2)
  /\ clause (buildWhereClause f1) = clause (buildWhereClause f2)
  /\ queryTexts (fun _ => Rejected "down") f1
     = queryTexts (fun _ => Resolved []) f2.
Proof.
  intros f1 f2.
  destruct (query_text_independent_of_values
              (fun _ => Rejected "down") (fun _ => Resolved []) f1 f2
              eq_refl eq_refl) as (H1 & H2 & _).
  split; [reflexivity|]. split; [reflexivity|].
  split; [exact H1 | exact H2].
Defined.

(* ===================================================================== *)
(** ** Failure of the store *)
(* ===================================================================== *)


(** The queries one call issues (those of a run from the empty world). *)
Definition issuedBy {A} (call : async A) : list Query :=
  issued (snd (call new_world)).





(* ===================================================================== *)
(** ** Rounding to the nearest double *)
(* ===================================================================== *)

Section Rounding.

Local Open Scope Q_scope.

Lemma pow2_pos k : 0 < pow2 k.
Proof. apply Qpower_0_lt. reflexivity. Qed.

Lemma pow2_le a b : (a <= b)%Z -> pow2 a <= pow2 b.
Proof. intros H. apply Qpower_le_compat_l; [exact H | discriminate]. Qed.

Lemma pow2_lt a b : (a < b)%Z -> pow2 a < pow2 b.
Proof. intros H. apply Qpower_lt_compat_l; [exact H | reflexivity]. Qed.

Lemma pow2_lt_inv a b : pow2 a < pow2 b -> (a < b)%Z.
Proof. intros H. eapply Qpower_lt_compat_l_inv; [exact H | reflexivity]. Qed.

Lemma pow2_plus a b : pow2 (a + b) == pow2 a * pow2 b.
Proof. apply Qpower_plus. discriminate. Qed.

Lemma pow2_Z n : (0 <= n)%Z -> pow2 n == inject_Z (2 ^ n).
Proof. intros H. symmetry. apply (Zpower_Qpower 2 n H). Qed.

Lemma pow2_succ a : pow2 (a + 1) == 2 * pow2 a.
Proof. rewrite pow2_plus. change (pow2 1) with 2. ring. Qed.

(** [ilog2 q] is the exponent of the binade of [q]. *)
Lemma ilog2_spec q : 0 < q -> pow2 (ilog2 q) <= q /\ q < pow2 (ilog2 q + 1).
Proof.
  intros Hq. destruct q as [n d]. unfold ilog2. cbn [Qnum Qden].
  assert (Hn : (0 < n)%Z) by (unfold Qlt in Hq; cbn in Hq; lia).
  set (a := Z.log2 n). set (b := Z.log2 (Z.pos d)).
  destruct (Z.log2_spec n Hn) as [Ha1 Ha2]. fold a in Ha1, Ha2.
  destruct (Z.log2_spec (Z.pos d) eq_refl) as [Hb1 Hb2]. fold b in Hb1, Hb2.
  assert (Ha0 : (0 <= a)%Z) by apply Z.log2_nonneg.
  assert (Hb0 : (0 <= b)%Z) by apply Z.log2_nonneg.
  assert (HA : pow2 a == inject_Z (2 ^ a)) by now apply pow2_Z.
  assert (HB : pow2 b == inject_Z (2 ^ b)) by now apply pow2_Z.
  assert (Hk : pow2 (a - b) * pow2 b == pow2 a).
  { rewrite <- pow2_plus. now replace (a - b + b)%Z with a by lia. }
  assert (Hq' : (n # d) * inject_Z (Z.pos d) == inject_Z n).
  { unfold Qeq, Qmult, inject_Z. cbn. lia. }
  assert (Hpk := pow2_pos (a - b)). assert (Hpb := pow2_pos b).
  assert (Hd : 0 < inject_Z (Z.pos d)) by reflexivity.
  assert (Ha1q : inject_Z (2 ^ a) <= inject_Z n) by now rewrite <- Zle_Qle.
  assert (Ha2q : inject_Z n < inject_Z (2 ^ (a + 1)))
    by (rewrite <- Zlt_Qlt; replace (a + 1)%Z with (Z.succ a) by lia; exact Ha2).
  assert (Hb1q : inject_Z (2 ^ b) <= inject_Z (Z.pos d)) by now rewrite <- Zle_Qle.
  assert (Hb2q : inject_Z (Z.pos d) < inject_Z (2 ^ (b + 1)))
    by (rewrite <- Zlt_Qlt; replace (b + 1)%Z with (Z.succ b) by lia; exact Hb2).
  assert (HA1 : inject_Z (2 ^ (a + 1)) == 2 * pow2 a)
    by (rewrite <- pow2_Z by lia; apply pow2_succ).
  assert (HB1 : inject_Z (2 ^ (b + 1)) == 2 * pow2 b)
    by (rewrite <- pow2_Z by lia; apply pow2_succ).
  rewrite HA1 in Ha2q. rewrite HB1 in Hb2q. rewrite <- HA in Ha1q.
  rewrite <- HB in Hb1q.
  set (N := inject_Z n) in *. set (D := inject_Z (Z.pos d)) in *.
  set (A := pow2 a) in *. set (B := pow2 b) in *.
  set (K := pow2 (a - b)) in *. set (x := n # d) in *.
  assert (Hup : x < 2 * K).
  { apply Qnot_le_lt. intros F.
    assert (2 * K * D <= x * D) by (apply Qmult_le_compat_r; [exact F | lra]).
    assert (2 * K * B <= 2 * K * D) by (apply Qmult_le_l; lra).
    lra. }
  destruct (Qle_bool K x) eqn:E.
  - apply Qle_bool_iff in E. split; [exact E|].
    rewrite pow2_succ. exact Hup.
  - assert (Hlt : x < K).
    { apply Qnot_le_lt. intros F. apply Qle_bool_iff in F. congruence. }
    replace (a - b - 1 + 1)%Z with (a - b)%Z by lia.
    split; [|exact Hlt].
    assert (HK : K == 2 * pow2 (a - b - 1)).
    { unfold K. rewrite <- pow2_succ. now replace (a - b - 1 + 1)%Z with (a - b)%Z by lia. }
    apply Qnot_lt_le. intros F.
    assert (x * D < pow2 (a - b - 1) * D) by (apply Qmult_lt_r; lra).
    assert (pow2 (a - b - 1) * D < pow2 (a - b - 1) * (2 * B)).
    { apply Qmult_lt_l; [apply pow2_pos | exact Hb2q]. }
    assert (K * B == 2 * pow2 (a - b - 1) * B) by (rewrite HK; ring).
    lra.
Qed.

Lemma ilog2_unique q e : pow2 e <= q -> q < pow2 (e + 1) -> ilog2 q = e.
Proof.
  intros H1 H2.
  assert (Hq : 0 < q) by (eapply Qlt_le_trans; [apply pow2_pos | exact H1]).
  destruct (ilog2_spec q Hq) as [K1 K2].
  assert (ilog2 q < e + 1)%Z
    by (apply pow2_lt_inv; eapply Qle_lt_trans; eauto).
  assert (e < ilog2 q + 1)%Z
    by (apply pow2_lt_inv; eapply Qle_lt_trans; eauto).
  lia.
Qed.

Lemma ilog2_mono x y : 0 < x -> x <= y -> (ilog2 x <= ilog2 y)%Z.
Proof.
  intros Hx Hxy.
  assert (Hy : 0 < y) by (eapply Qlt_le_trans; eauto).
  destruct (ilog2_spec x Hx) as [K1 _]. destruct (ilog2_spec y Hy) as [_ K2].
  assert (ilog2 x < ilog2 y + 1)%Z; [|lia].
  apply pow2_lt_inv. eapply Qle_lt_trans; [exact K1|].
  eapply Qle_lt_trans; eauto.
Qed.

Lemma rne_comp x y : x == y -> rne x = rne y.
Proof.
  intros H. unfold rne. rewrite (Qfloor_comp x y H).
  assert (Hc : (x - inject_Z (Qfloor y) ?= 1 # 2)
               = (y - inject_Z (Qfloor y) ?= 1 # 2))
    by (apply Qcompare_comp; [rewrite H|]; reflexivity).
  now rewrite Hc.
Qed.

Lemma rne_Z z : rne (inject_Z z) = z.
Proof.
  unfold rne. rewrite Qfloor_Z.
  destruct (Qcompare_spec (inject_Z z - inject_Z z) (1 # 2)) as [E|E|E];
    [exfalso; lra | reflexivity | exfalso; lra].
Qed.

Lemma rne_near x :
  inject_Z (rne x) - x <= 1 # 2 /\ x - inject_Z (rne x) <= 1 # 2.
Proof.
  unfold rne. pose proof (Qfloor_le x) as H1. pose proof (Qlt_floor x) as H2.
  rewrite inject_Z_plus in H2. change (inject_Z 1) with 1 in H2.
  destruct (Qcompare_spec (x - inject_Z (Qfloor x)) (1 # 2)) as [E|E|E].
  - destruct (Z.even (Qfloor x)); [lra|].
    rewrite inject_Z_plus. change (inject_Z 1) with 1. lra.
  - lra.
  - rewrite inject_Z_plus. change (inject_Z 1) with 1. lra.
Qed.

Lemma rne_mono x y : x <= y -> (rne x <= rne y)%Z.
Proof.
  intros Hxy. pose proof (Qfloor_resp_le x y Hxy) as Hf.
  assert (Hlo : forall z, (Qfloor z <= rne z <= Qfloor z + 1)%Z).
  { intros z. unfold rne.
    destruct (z - inject_Z (Qfloor z) ?= 1 # 2);
      [destruct (Z.even (Qfloor z))| |]; lia. }
  destruct (Z.eq_dec (Qfloor x) (Qfloor y)) as [E|E];
    [|pose proof (Hlo x); pose proof (Hlo y); lia].
  unfold rne. rewrite E.
  assert (Hd : x - inject_Z (Qfloor y) <= y - inject_Z (Qfloor y)) by lra.
  destruct (Qcompare_spec (x - inject_Z (Qfloor y)) (1 # 2)) as [Ex|Ex|Ex];
    destruct (Qcompare_spec (y - inject_Z (Qfloor y)) (1 # 2)) as [Ey|Ey|Ey];
    try lia; try (exfalso; lra);
    destruct (Z.even (Qfloor y)); lia.
Qed.

(** The scaled significand of a positive number lies in [[2^52, 2^53)]. *)
Lemma significand_range q :
  0 < q ->
  inject_Z (2 ^ 52) <= q / pow2 (ilog2 q - 52)
  /\ q / pow2 (ilog2 q - 52) < inject_Z (2 ^ 53).
Proof.
  intros Hq. destruct (ilog2_spec q Hq) as [H1 H2].
  set (e := ilog2 q) in *. pose proof (pow2_pos (e - 52)) as Hu.
  assert (He : pow2 e == pow2 52 * pow2 (e - 52))
    by (rewrite <- pow2_plus; now replace (52 + (e - 52))%Z with e by lia).
  assert (He1 : pow2 (e + 1) == pow2 53 * pow2 (e - 52))
    by (rewrite <- pow2_plus; now replace (53 + (e - 52))%Z with (e + 1)%Z by lia).
  rewrite <- !pow2_Z by lia. split.
  - apply Qle_shift_div_l; [exact Hu|]. now rewrite <- He.
  - apply Qlt_shift_div_r; [exact Hu|]. now rewrite <- He1.
Qed.

Lemma round_pos_eq q :
  round_pos q
  == inject_Z (rne (q / pow2 (ilog2 q - 52))) * pow2 (ilog2 q - 52).
Proof. unfold round_pos. apply Qred_correct. Qed.

(** Rounding stays in the binade, closed at the top. *)
Lemma round_pos_bounds q :
  0 < q -> pow2 (ilog2 q) <= round_pos q /\ round_pos q <= pow2 (ilog2 q + 1).
Proof.
  intros Hq. destruct (significand_range q Hq) as [H1 H2].
  rewrite round_pos_eq.
  set (e := ilog2 q) in *. pose proof (pow2_pos (e - 52)) as Hu.
  set (m := q / pow2 (e - 52)) in *.
  assert (K1 : (2 ^ 52 <= rne m)%Z)
    by (rewrite <- (rne_Z (2 ^ 52)); now apply rne_mono).
  assert (K2 : (rne m <= 2 ^ 53)%Z)
    by (rewrite <- (rne_Z (2 ^ 53)); apply rne_mono; lra).
  assert (He : pow2 e == pow2 52 * pow2 (e - 52))
    by (rewrite <- pow2_plus; now replace (52 + (e - 52))%Z with e by lia).
  assert (He1 : pow2 (e + 1) == pow2 53 * pow2 (e - 52))
    by (rewrite <- pow2_plus; now replace (53 + (e - 52))%Z with (e + 1)%Z by lia).
  rewrite He, He1, (pow2_Z 52), (pow2_Z 53) by lia.
  rewrite Zle_Qle in K1, K2.
  split; apply Qmult_le_compat_r; lra.
Qed.

Lemma round_pos_pos q : 0 < q -> 0 < round_pos q.
Proof.
  intros Hq. eapply Qlt_le_trans; [apply pow2_pos|].
  apply (round_pos_bounds q Hq).
Qed.

Lemma round_pos_mono x y : 0 < x -> x <= y -> round_pos x <= round_pos y.
Proof.
  intros Hx Hxy.
  assert (Hy : 0 < y) by (eapply Qlt_le_trans; eauto).
  pose proof (ilog2_mono x y Hx Hxy) as He.
  destruct (Z.eq_dec (ilog2 x) (ilog2 y)) as [E|E].
  - rewrite !round_pos_eq, E.
    pose proof (pow2_pos (ilog2 y - 52)) as Hu.
    apply Qmult_le_compat_r; [|lra].
    rewrite <- Zle_Qle. apply rne_mono.
    apply Qmult_le_compat_r; [exact Hxy|].
    apply Qlt_le_weak, Qinv_lt_0_compat, Hu.
  - eapply Qle_trans; [apply (round_pos_bounds x Hx)|].
    eapply Qle_trans; [|apply (round_pos_bounds y Hy)].
    apply pow2_le. lia.
Qed.

(** The relative error of one rounding is at most [2^-53]. *)
Lemma round_pos_error q :
  0 < q ->
  q * (1 - pow2 (-53)) <= round_pos q /\ round_pos q <= q * (1 + pow2 (-53)).
Proof.
  intros Hq. destruct (ilog2_spec q Hq) as [H1 _].
  rewrite round_pos_eq.
  set (e := ilog2 q) in *. pose proof (pow2_pos (e - 52)) as Hu.
  set (u := pow2 (e - 52)) in *. set (m := q / u).
  destruct (rne_near m) as [N1 N2].
  assert (Hm : m * u == q) by (unfold m; field; lra).
  assert (Hh : (1 # 2) * u <= q * pow2 (-53)).
  { assert (Hu' : (1 # 2) * u == pow2 e * pow2 (-53)).
    { unfold u. rewrite <- pow2_plus.
      replace (e + -53)%Z with (e - 52 + -1)%Z by lia.
      rewrite pow2_plus. change (pow2 (-1)) with (1 # 2). ring. }
    rewrite Hu'. apply Qmult_le_compat_r; [exact H1|].
    apply Qlt_le_weak, pow2_pos. }
  assert (A1 : (inject_Z (rne m) - m) * u <= (1 # 2) * u)
    by (apply Qmult_le_compat_r; lra).
  assert (A2 : (m - inject_Z (rne m)) * u <= (1 # 2) * u)
    by (apply Qmult_le_compat_r; lra).
  split; lra.
Qed.

Lemma round_0 : round 0 = 0.
Proof. reflexivity. Qed.

Lemma round_of_pos q : 0 < q -> round q = round_pos q.
Proof. intros H. unfold round. apply Qgt_alt in H. now rewrite H. Qed.


Lemma round_mono_nonneg x y : 0 <= x -> x <= y -> round x <= round y.
Proof.
  intros Hx Hxy. unfold round.
  destruct (Qcompare_spec x 0) as [Ex|Ex|Ex];
    destruct (Qcompare_spec y 0) as [Ey|Ey|Ey]; try (exfalso; lra).
  - apply Qle_refl.
  - apply Qlt_le_weak, round_pos_pos, Ey.
  - now apply round_pos_mono.
Qed.

Lemma round_eq0 q : q == 0 -> round q = 0.
Proof. intros H. unfold round. apply Qeq_alt in H. now rewrite H. Qed.

End Rounding.

(* ===================================================================== *)
(** ** The error rate *)
(* ===================================================================== *)

Lemma gt_zero_Fin q : gt (Fin q) zero = true <-> (0 < q)%Q.
Proof.
  unfold gt, zero, of_Z, Qltb. rewrite negb_true_iff.
  change (inject_Z 0) with 0%Q.
  destruct (Qle_bool q 0) eqn:E.
  - apply Qle_bool_iff in E. split; [discriminate|]. intros H.
    exfalso. apply (Qlt_not_le _ _ H E).
  - split; [|reflexivity]. intros _. apply Qnot_le_lt. intros H.
    apply Qle_bool_iff in H. congruence.
Qed.

Lemma Qzerob_false q : (0 < q)%Q -> Qzerob q = false.
Proof.
  unfold Qzerob, Qlt. cbn. intros H. apply Z.eqb_neq. lia.
Qed.

Lemma Qnegb_false q : (0 <= q)%Q -> Qnegb q = false.
Proof.
  unfold Qnegb, Qle. cbn. intros H. apply Z.ltb_ge. lia.
Qed.

Lemma of_N_pos t : (t <> 0)%N -> (0 < inject_Z (Z.of_N t))%Q.
Proof.
  intros H. change 0%Q with (inject_Z 0). rewrite <- Zlt_Qlt. lia.
Qed.

(** [100 * e / t], the rate of the specification. *)
Definition exactRate (e t : N) : Q :=
  (100 * inject_Z (Z.of_N e) / inject_Z (Z.of_N t))%Q.

(** [(e / t) * 100] as the code computes it, each operation rounded. *)
Definition roundedRate (e t : N) : Q :=
  round (round (inject_Z (Z.of_N e) / inject_Z (Z.of_N t)) * inject_Z 100).

(** With counts [e <= t], [t > 0]: the computed rate is in [0, 100], is
    zero exactly when there is no error, and is the exact rate up to the
    two roundings. *)
Lemma rate_of_counts (e t : N) :
  (e <= t)%N -> (t <> 0)%N ->
  let r := roundedRate e t in
  (0 <= r)%Q /\ (r <= inject_Z 100)%Q /\ (r == 0 <-> e = 0%N)%Q
  /\ (exactRate e t * (1 - pow2 (-52)) <= r)%Q
  /\ (r <= exactRate e t * (1 + pow2 (-51)))%Q.
Proof.
  intros Hle Ht r. subst r. unfold roundedRate, exactRate.
  pose proof (of_N_pos t Ht) as Hpos.
  set (E := inject_Z (Z.of_N e)). set (T := inject_Z (Z.of_N t)) in *.
  assert (He : (0 <= E)%Q)
    by (unfold E; change 0%Q with (inject_Z 0); rewrite <- Zle_Qle; lia).
  assert (Het : (E <= T)%Q) by (unfold E, T; rewrite <- Zle_Qle; lia).
  assert (H0 : (0 <= E / T)%Q)
    by (apply Qle_shift_div_l; [assumption | now rewrite Qmult_0_l]).
  assert (H1 : (E / T <= 1)%Q)
    by (apply Qle_shift_div_r; [assumption | now rewrite Qmult_1_l]).
  change (inject_Z 100) with 100%Q.
  destruct (N.eq_dec e 0%N) as [-> | Hne].
  - assert (Hx : (E / T == 0)%Q) by (unfold E; cbn; unfold Qdiv; ring).
    rewrite (round_eq0 _ Hx). change (round (0 * 100)) with 0%Q.
    split; [apply Qle_refl|]. split; [discriminate|].
    split; [split; reflexivity|].
    assert (Hz : (100 * E / T == 0)%Q) by (unfold E; cbn; unfold Qdiv; ring).
    rewrite Hz. split; rewrite Qmult_0_l; apply Qle_refl.
  - assert (HE : (0 < E)%Q)
      by (unfold E; change 0%Q with (inject_Z 0); rewrite <- Zlt_Qlt; lia).
    assert (Hx : (0 < E / T)%Q)
      by (apply Qlt_shift_div_l; [assumption | now rewrite Qmult_0_l]).
    rewrite (round_of_pos _ Hx).
    pose proof (round_pos_pos _ Hx) as P1.
    assert (B1 : (round_pos (E / T) <= 1)%Q)
      by (change 1%Q with (round_pos 1); now apply round_pos_mono).
    destruct (round_pos_error _ Hx) as [L1 U1].
    set (r1 := round_pos (E / T)) in *.
    assert (Hy : (0 < r1 * 100)%Q) by lra.
    rewrite (round_of_pos _ Hy).
    pose proof (round_pos_pos _ Hy) as P2.
    assert (B2 : (round_pos (r1 * 100) <= 100)%Q)
      by (change 100%Q with (round_pos 100) at 2; apply round_pos_mono; lra).
    destruct (round_pos_error _ Hy) as [L2 U2].
    set (r := round_pos (r1 * 100)) in *.
    split; [lra|]. split; [exact B2|].
    split; [split; [intros K; exfalso; lra | intros K; contradiction]|].
    assert (Hex : (100 * E / T == 100 * (E / T))%Q) by (field; lra).
    rewrite Hex. set (x := (E / T)%Q) in *.
    set (eps := pow2 (-53)) in *.
    assert (Heps : (0 < eps)%Q) by apply pow2_pos.
    assert (Hlo : ((1 - eps) * (1 - eps) >= 1 - pow2 (-52))%Q)
      by (apply Qle_bool_iff; vm_compute; reflexivity).
    assert (Hhi : ((1 + eps) * (1 + eps) <= 1 + pow2 (-51))%Q)
      by (apply Qle_bool_iff; vm_compute; reflexivity).
    assert (Heps1 : (eps <= 1)%Q)
      by (apply Qle_bool_iff; vm_compute; reflexivity).
    split.
    + apply Qle_trans with (100 * x * ((1 - eps) * (1 - eps)))%Q.
      * apply Qmult_le_l; [lra | exact Hlo].
      * apply Qle_trans with (r1 * 100 * (1 - eps))%Q; [|exact L2].
        setoid_replace (100 * x * ((1 - eps) * (1 - eps)))%Q
          with (x * (1 - eps) * (100 * (1 - eps)))%Q using relation Qeq by ring.
        setoid_replace (r1 * 100 * (1 - eps))%Q
          with (r1 * (100 * (1 - eps)))%Q using relation Qeq by ring.
        apply Qmult_le_compat_r; [exact L1 | lra].
    + apply Qle_trans with (100 * x * ((1 + eps) * (1 + eps)))%Q.
      * apply Qle_trans with (r1 * 100 * (1 + eps))%Q; [exact U2|].
        setoid_replace (100 * x * ((1 + eps) * (1 + eps)))%Q
          with (x * (1 + eps) * (100 * (1 + eps)))%Q using relation Qeq by ring.
        setoid_replace (r1 * 100 * (1 + eps))%Q
          with (r1 * (100 * (1 + eps)))%Q using relation Qeq by ring.
        apply Qmult_le_compat_r; [exact U1 | lra].
      * apply Qmult_le_l; [lra | exact Hhi].
Qed.

(** The first row of the store's answer to the overall query, if any. *)
Definition overallRow (ch : Store) (f : QueryFilters) : option rowval :=
  match ch (overallRequest f) with
  | Resolved rows => head rows
  | Rejected _ => None
  end.

(** The largest count a double holds exactly next to all smaller ones. *)
Definition maxSafeCount : N := 2 ^ 53.

(** What holds of [errorRate], for the decoded error count [E] of the
    store's row and the returned overview [v]. *)
Definition errorRateLaw (E : number) (v : HealthOverviewData.t) : Prop :=
  let T := HealthOverviewData.totalTransactions v in
  let rate := HealthOverviewData.errorRate v in
  (gt T zero = true -> rate = mul (div E T) (of_Z 100))
  /\ (gt T zero = false -> rate = zero)
  /\ (same T zero -> rate = zero)
  /\ (forall e t : N,
        E = of_N e -> T = of_N t -> (e <= t)%N -> (t <= maxSafeCount)%N ->
        le zero rate /\ le rate (of_Z 100)
        /\ (same rate zero <-> t = 0%N \/ e = 0%N)
        /\ (t <> 0%N ->
            exists r, rate = Fin r
                      /\ (exactRate e t * (1 - pow2 (-52)) <= r)%Q
                      /\ (r <= exactRate e t * (1 + pow2 (-51)))%Q)).

Lemma shapeHealthOverview_law overall apps :
  errorRateLaw (overallNumber overall "error_count")
    (shapeHealthOverview overall apps).
Proof.
  unfold errorRateLaw, shapeHealthOverview.
  cbn [HealthOverviewData.totalTransactions HealthOverviewData.errorRate].
  set (T := overallNumber overall "total_transactions").
  set (E := overallNumber overall "error_count").
  split; [|split; [|split]].
  - intros Hgt. now rewrite Hgt.
  - intros Hgt. now rewrite Hgt.
  - intros HT. destruct T as [| |q]; try contradiction.
    replace (gt (Fin q) zero) with false; [reflexivity|].
    symmetry. apply not_true_is_false. rewrite gt_zero_Fin.
    cbn in HT. rewrite HT. apply Qlt_irrefl.
  - intros e t -> -> Hle _.
    destruct (N.eq_dec t 0%N) as [-> | Ht].
    + cbn. split; [apply Qle_refl|]. split; [discriminate|].
      split; [split; [now left | reflexivity]|]. intros K. now contradiction K.
    + replace (gt (of_N t) zero) with true
        by (symmetry; apply gt_zero_Fin, of_N_pos, Ht).
      destruct (rate_of_counts e t Hle Ht) as (H0 & H1 & H2 & H3 & H4).
      unfold of_N, of_Z, div.
      rewrite (Qzerob_false _ (of_N_pos t Ht)). cbn [mul le same zero of_Z].
      fold (roundedRate e t).
      split; [exact H0|]. split; [exact H1|].
      change (inject_Z 0) with 0%Q. rewrite H2.
      split; [split; [auto | intros [K | K]; [contradiction | exact K]]|].
      intros _. exists (roundedRate e t). split; [reflexivity|].
      split; assumption.
Qed.

Lemma emptyHealthOverview_law E : errorRateLaw E emptyHealthOverview.
Proof.
  unfold errorRateLaw. cbn. split; [discriminate|].
  split; [reflexivity|]. split; [reflexivity|].
  intros e t _ Ht _ _.
  assert (t = 0%N) as ->
    by (unfold zero, of_N, of_Z in Ht; injection Ht as Ht; lia).
  split; [apply Qle_refl|]. split; [discriminate|].
  split; [split; [now left | reflexivity]|]. intros K. now contradiction K.
Qed.

(** Claim C3, as stated, fails: with 1000 transactions and no error the
    rate is 0 although [totalTransactions] is not. *)
Lemma error_rate_zero_with_transactions :
  ~ (forall (ch : Store) (f : QueryFilters) (w : World) v,
       fst (getHealthOverview (Returned ch) f w) = Returned v ->
       (same (HealthOverviewData.errorRate v) zero
        <-> same (HealthOverviewData.totalTransactions v) zero)).
Proof.
  intros H.
  pose (ch := fun _ : Query =>
          Resolved [RObj {[ "total_transactions" := JStr "1000";
                            "error_count" := JStr "0" ]}]).
  pose (f := {| hours := Some (of_Z 24); sensor_ip := None;
                sensor_name := None; limit := None |}).
  destruct (H ch f new_world _ eq_refl) as [H1 _].
  assert (K : same (Fin 0) zero) by reflexivity.
  specialize (H1 K). vm_compute in H1. discriminate H1.
Qed.

(** The rate is not [100 * errorCount / totalTransactions] exactly: with
    100 transactions and 7 errors, [7 / 100] rounds to a double just above
    0.07 and the product with 100 to 7.000000000000001. *)
Lemma error_rate_is_rounded :
  let ch : Store := fun _ =>
    Resolved [RObj {[ "total_transactions" := JStr "100";
                      "error_count" := JStr "7" ]}] in
  let f := {| hours := Some (of_Z 24); sensor_ip := None;
              sensor_name := None; limit := None |} in
  exists v,
    fst (getHealthOverview (Returned ch) f new_world) = Returned v
    /\ HealthOverviewData.errorRate v
       = Fin (7881299347898369 # 1125899906842624)
    /\ ~ same (HealthOverviewData.errorRate v) (of_Z 7).
Proof.
  intros ch f. eexists. split; [vm_compute; reflexivity|].
  split; [reflexivity|]. vm_compute. discriminate.
Qed.

(** Claim C3, amended.  [getHealthOverview] always returns an overview
    [v]; with [E] the error count decoded from the store's overall row:
    [errorRate] is [(E / totalTransactions) * 100], each operation rounded
    to the nearest double, when [totalTransactions > 0], and [0]
    otherwise, in particular when [totalTransactions = 0]; and when the
    two are counts [e <= t] that a double holds exactly, [errorRate] lies
    in [[0, 100]], is [0] exactly when [t = 0] or [e = 0], and differs
    from [100 * e / t] by a relative error of at most [2^-51]. *)
Theorem error_rate_of_overview (ch : Store) (f : QueryFilters) (w : World) :
  exists v,
    fst (getHealthOverview (Returned ch) f w) = Returned v
    /\ errorRateLaw (overallNumber (overallRow ch f) "error_count") v.
Proof.
  rewrite getHealthOverview_run. cbn [fst].
  eexists. split; [reflexivity|].
  unfold healthOverviewResult, overallRow.
  destruct (ch (overallRequest f)) as [e|rows]; cbn [default].
  - apply emptyHealthOverview_law.
  - destruct (decoded decodeApplication (ch (appRequest f))); cbn [default].
    + apply shapeHealthOverview_law.
    + apply emptyHealthOverview_law.
Qed.

(** The two scenarios of the specification: 1000 transactions with 20
    errors give a rate of 2; no transaction gives a rate of 0. *)
Lemma error_rate_of_overview_witness :
  let ch1 : Store := fun _ =>
    Resolved [RObj {[ "total_transactions" := JStr "1000";
                      "error_count" := JStr "20" ]}] in
  let ch0 : Store := fun _ =>
    Resolved [RObj {[ "total_transactions" := JStr "0";
                      "error_count" := JStr "0" ]}] in
  let f := {| hours := Some (of_Z 24); sensor_ip := None;
              sensor_name := None; limit := None |} in
  (exists v, fst (getHealthOverview (Returned ch1) f new_world) = Returned v
             /\ same (HealthOverviewData.errorRate v) (of_Z 2)
             /\ le zero (HealthOverviewData.errorRate v)
             /\ le (HealthOverviewData.errorRate v) (of_Z 100))
  /\ (exists v, fst (getHealthOverview (Returned ch0) f new_world) = Returned v
                /\ HealthOverviewData.errorRate v = zero).
Proof.
  intros ch1 ch0 f. split.
  - destruct (error_rate_of_overview ch1 f new_world) as (v & Hv & L).
    exists v. split; [exact Hv|].
    vm_compute in Hv. injection Hv as <-.
    destruct L as (L1 & _ & _ & L4).
    destruct (L4 20%N 1000%N) as (R0 & R1 & _);
      [reflexivity | reflexivity | lia | vm_compute; discriminate |].
    split; [|split; assumption].
    vm_compute. reflexivity.
  - destruct (error_rate_of_overview ch0 f new_world) as (v & Hv & L).
    exists v. split; [exact Hv|].
    destruct L as (_ & L2 & _). apply L2.
    vm_compute in Hv. injection Hv as <-. reflexivity.
Defined.

(* ===================================================================== *)
(** ** What the store is relied on for *)
(* ===================================================================== *)


(** *** Reading the clauses of a statement

    The aggregations neither sort nor cut the rows they are sent: they
    ask the store to, in the text of their statements.  The clauses are
    read back from that text, one per line as the templates write them. *)

Definition newline : ascii := "010"%char.

(** The lines of a text. *)
Fixpoint lines (s : string) : list string :=
  match s with
  | EmptyString => [EmptyString]
  | String c s' =>
      if Ascii.eqb c newline then EmptyString :: lines s'
      else match lines s' with
           | l :: ls => String c l :: ls
           | [] => [String c EmptyString]
           end
  end.

Fixpoint unindent (s : string) : string :=
  match s with
  | String c s' => if Ascii.eqb c " " then unindent s' else s
  | EmptyString => s
  end.

(** [s] without its prefix [p], when it has it. *)
Definition dropPrefix (p s : string) : option string :=
  if String.prefix p s
  then Some (String.substring (String.length p)
               (String.length s - String.length p) s)
  else None.

(** [s] without its suffix [p], when it has it. *)
Definition dropSuffix (p s : string) : option string :=
  let k := (String.length s - String.length p)%nat in
  if String.eqb (String.substring k (String.length p) s) p
     && (String.length p <=? String.length s)%nat
  then Some (String.substring 0 k s)
  else None.

Fixpoint firstWith (keyword : string) (ls : list string) : option string :=
  match ls with
  | l :: ls' =>
      match dropPrefix keyword (unindent l) with
      | Some argument => Some argument
      | None => firstWith keyword ls'
      end
  | [] => None
  end.

(** The argument of the clause [keyword] of a statement: what follows the
    keyword on the first line that starts with it. *)
Definition clauseOf (keyword sql : string) : option string :=
  firstWith keyword (lines sql).

Inductive Ordering : Type :=
  | Ascending (column : string)
  | Descending (column : string).

(** [ORDER BY column] or [ORDER BY column DESC] *)
Definition orderBy (sql : string) : option Ordering :=
  match clauseOf "ORDER BY " sql with
  | Some argument =>
      match dropSuffix " DESC" argument with
      | Some column => Some (Descending column)
      | None => Some (Ascending argument)
      end
  | None => None
  end.

(** [GROUP BY column] *)
Definition groupBy (sql : string) : option string := clauseOf "GROUP BY " sql.

(** A number that is a count. *)
Definition countOf (n : number) : option N :=
  match n with
  | Fin q =>
      if (Qnum q mod Zpos (Qden q) =? 0)%Z && (0 <=? Qnum q)%Z
      then Some (Z.to_N (Qnum q / Zpos (Qden q)))
      else None
  | _ => None
  end.

(** A decimal numeral. *)
Definition numeral (s : string) : option N :=
  match digits 10 0 0 (list_ascii_of_string s) with
  | (v, S _, []) => Some v
  | _ => None
  end.

(** The value of the argument of [LIMIT]: a numeral, or the count bound
    to a placeholder [{name:UInt32}]. *)
Definition limitValue (ps : gmap string param) (argument : string)
  : option N :=
  match dropPrefix "{" argument with
  | Some rest =>
      match dropSuffix ":UInt32}" rest with
      | Some name =>
          match ps !! name with
          | Some (PNum n) => countOf n
          | _ => None
          end
      | None => None
      end
  | None => numeral argument
  end.


Example clauses_of_the_templates :
  orderBy (overallQuery "WHERE x") = None
  /\ orderBy (appQuery "WHERE x") = Some (Descending "total_transactions")
  /\ clauseOf "LIMIT " (appQuery "WHERE x") = Some "20"
  /\ orderBy (topTalkersQuery "") = Some (Descending "bytes")
  /\ clauseOf "LIMIT " (topTalkersQuery "") = Some "{query_limit:UInt32}"
  /\ orderBy (timelineQuery "") = Some (Ascending "hour")
  /\ groupBy (timelineQuery "") = Some "hour"
  /\ clauseOf "LIMIT " (timelineQuery "") = None
  /\ limitValue ∅ "20" = Some 20%N
  /\ limitValue {[ "query_limit" := PNum (of_Z 5) ]} "{query_limit:UInt32}"
     = Some 5%N
  /\ limitValue {[ "query_limit" := PNum (Fin (5 # 2)) ]}
       "{query_limit:UInt32}" = None.
Proof. vm_compute. repeat split. Qed.


















(** ** Applications *)










(* ===================================================================== *)
(** ** Top talkers *)
(* ===================================================================== *)


Definition talkerRow (client server bytes : string) : rowval :=
  RObj {[ "client_ip" := JStr client; "server_ip" := JStr server;
          "bytes" := JStr bytes; "request_count" := JStr "3" ]}.













(* ===================================================================== *)
(** ** Traffic timeline *)
(* ===================================================================== *)



Section Timeline.

(** The order of bucket start times, on the values the store writes them
    as. *)
Variable earlier : jsval -> jsval -> Prop.
Hypothesis earlier_strict : StrictOrder earlier.










End Timeline.









(* ===================================================================== *)
(** ** Decoding of raw rows *)
(* ===================================================================== *)




























(* ===================================================================== *)
(** ** The client: failed fetches *)
(* ===================================================================== *)

Section Client.

Import App.

(** The ways a tool call can fail to deliver an object: the call is
    rejected, its content is missing or empty, or the first item does not
    parse to an object. *)
Definition failed {A} (r : toolCall A) : Prop :=
  match r with
  | CallRejected _ => True
  | CallResolved content =>
      match firstItem content with
      | Some (Parsed _) => False
      | _ => True
      end
  end.

(** Claim C4 (the code does not do this).  After a drilldown whose fetch
    fails in any way, the client is on the detail page of the application
    with no details and [loadingDetails] off, and what it renders is the
    loading skeleton of the detail view, the very screen shown while the
    fetch was in flight; no error is shown and the [error] state is left as
    it was. *)
Theorem drilldown_failure_shows_no_error
    (s : State) (d : DashboardData.t) (appName : string)
    (r : toolCall ApplicationDetails.t)
    (Hdata : data s = Some d) (Href : appRef s = true)
    (Hname : appName <> "") (Hfail : failed r) :
  let s' := handleAppClick (Some appName) r s in
  render s' = DetailSkeleton appName
  /\ render s' = render (handleAppClick_start appName s)
  /\ showsError (render s') = false
  /\ error s' = error s
  /\ appDetails s' = None
  /\ loadingDetails s' = false.
Proof.
  intros s'. subst s'. unfold handleAppClick. rewrite Href.
  destruct (String.eqb_spec appName "") as [E|_]; [contradiction|].
  cbn [negb andb].
  assert (Hview : forall t : State,
             data t = Some d -> selectedApp t = Some appName ->
             appDetails t = None ->
             render t = DetailSkeleton appName).
  { intros t Ht Hs Ha. unfold render, nonEmpty. rewrite Ht, Hs, Ha.
    destruct (String.eqb_spec appName ""); [contradiction|].
    unfold ApplicationDetailView. now destruct (loadingDetails t). }
  assert (Hstart : render (handleAppClick_start appName s)
                   = DetailSkeleton appName)
    by (apply Hview; [exact Hdata | reflexivity | reflexivity]).
  rewrite Hstart.
  assert (Hsettle : data (handleAppClick_settle r
                            (handleAppClick_start appName s)) = Some d
                    /\ selectedApp (handleAppClick_settle r
                                      (handleAppClick_start appName s))
                       = Some appName
                    /\ appDetails (handleAppClick_settle r
                                     (handleAppClick_start appName s)) = None
                    /\ error (handleAppClick_settle r
                                (handleAppClick_start appName s)) = error s
                    /\ loadingDetails (handleAppClick_settle r
                                         (handleAppClick_start appName s))
                       = false).
  { unfold handleAppClick_settle.
    destruct r as [message|content]; cbn in Hfail;
      [repeat split; exact Hdata|].
    destruct (firstItem content) as [[| |a]|]; try contradiction;
      repeat split; exact Hdata. }
  destruct Hsettle as (H1 & H2 & H3 & H4 & H5).
  rewrite (Hview _ H1 H2 H3).
  split; [reflexivity|]. split; [reflexivity|]. split; [reflexivity|].
  split; [exact H4|]. split; [exact H3 | exact H5].
Qed.

(** A loaded dashboard, no error, the handle in place. *)
Definition loadedState (d : DashboardData.t) : State :=
  {| data := Some d; loading := false; error := None; hours := of_Z 24;
     autoRefresh := false;
     lastUpdated := Some (DashboardData.generatedAt d);
     selectedApp := None; appDetails := None; loadingDetails := false;
     appRef := true |}.

Definition emptySnapshot : DashboardData.t :=
  {| DashboardData.healthOverview := emptyHealthOverview;
     DashboardData.topTalkers := [];
     DashboardData.trafficTimeline := [];
     DashboardData.filters :=
       {| ToolInput.hours := of_Z 24; ToolInput.sensor_ip := None;
          ToolInput.sensor_name := None |};
     DashboardData.generatedAt := "2026-01-28T13:05:00.000Z" |}.

(** Clicking the segment ["HTTPS"] while the drilldown tool is unknown to
    the server. *)
Lemma drilldown_failure_shows_no_error_witness :
  let s := loadedState emptySnapshot in
  let r : toolCall ApplicationDetails.t :=
    CallRejected "Tool get_application_details_tool not found" in
  data s = Some emptySnapshot /\ appRef s = true /\ "HTTPS" <> "" /\ failed r
  /\ render (handleAppClick (Some "HTTPS") r s) = DetailSkeleton "HTTPS"
  /\ showsError (render (handleAppClick (Some "HTTPS") r s)) = false
  /\ error (handleAppClick (Some "HTTPS") r s) = None.
Proof.
  intros s r.
  assert (Hn : "HTTPS" <> "") by discriminate.
  destruct (drilldown_failure_shows_no_error s emptySnapshot "HTTPS" r
              eq_refl eq_refl Hn I) as (H1 & _ & H3 & H4 & _).
  split; [reflexivity|]. split; [reflexivity|]. split; [exact Hn|].
  split; [exact I|]. split; [exact H1|]. split; [exact H3 | exact H4].
Defined.

(** A fetch that fails: the call is rejected, or the text of the first
    content item is not JSON (as with the server's error message). *)
Definition undelivered {A} (r : toolCall A) : Prop :=
  match r with
  | CallRejected _ => True
  | CallResolved content => firstItem content = Some SyntaxError
  end.

(** Claim C8 (the code does this only in part).  With a snapshot held and
    a fetch that fails: [refreshData] keeps the snapshot and sets the
    error; [handleHoursChange] keeps the snapshot as well but leaves
    [error] as it was, so no error flag accompanies the stale data, while
    [hours] already shows the new value.  On success both replace the
    snapshot by the one received. *)
Theorem failed_fetch_keeps_snapshot
    (s : State) (d : DashboardData.t) (newHours : string)
    (r : toolCall DashboardData.t)
    (Hdata : data s = Some d) (Href : appRef s = true)
    (Hfail : undelivered r) :
  (data (refreshData r s) = Some d
   /\ error (refreshData r s) = Some "Failed to refresh data"
   /\ data (handleHoursChange newHours r s) = Some d
   /\ error (handleHoursChange newHours r s) = error s
   /\ hours (handleHoursChange newHours r s) = parseInt newHours
   /\ loading (handleHoursChange newHours r s) = false)
  /\ (forall d' rest,
        data (refreshData (CallResolved (Some (Parsed d' :: rest))) s)
        = Some d'
        /\ error (refreshData (CallResolved (Some (Parsed d' :: rest))) s)
           = None
        /\ data (handleHoursChange newHours
                   (CallResolved (Some (Parsed d' :: rest))) s) = Some d'
        /\ error (handleHoursChange newHours
                    (CallResolved (Some (Parsed d' :: rest))) s) = error s).
Proof.
  unfold refreshData, handleHoursChange. rewrite Href. split.
  - unfold refreshData_settle, handleHoursChange_settle.
    destruct r as [message|content]; cbn in Hfail.
    + cbn. rewrite Hdata. repeat split.
    + rewrite Hfail. cbn. rewrite Hdata. repeat split.
  - intros d' rest. cbn. repeat split.
Qed.

(** Changing the time range to 6 hours while the server is unreachable:
    the snapshot stays and no error is recorded. *)
Lemma failed_fetch_keeps_snapshot_witness :
  let s := loadedState emptySnapshot in
  let r : toolCall DashboardData.t := CallRejected "Request timed out" in
  data s = Some emptySnapshot /\ appRef s = true /\ undelivered r
  /\ data (handleHoursChange "6" r s) = Some emptySnapshot
  /\ error (handleHoursChange "6" r s) = None
  /\ hours (handleHoursChange "6" r s) = of_Z 6
  /\ error (refreshData r s) = Some "Failed to refresh data".
Proof.
  intros s r.
  destruct (failed_fetch_keeps_snapshot s emptySnapshot "6" r
              eq_refl eq_refl I) as [(_ & H2 & H3 & H4 & H5 & _) _].
  split; [reflexivity|]. split; [reflexivity|]. split; [exact I|].
  split; [exact H3|]. split; [exact H4|]. split; [exact H5 | exact H2].
Defined.

End Client.

(* ===================================================================== *)
(** * Further properties of the data access layer *)
(* ===================================================================== *)








(** X2.  The sensor conditions narrow the result: the clause never holds
    an [OR], and when both sensor fields are supplied the two equalities
    follow the time condition, joined by [AND], in the order address then
    name. *)
Theorem sensor_conditions_are_conjoined (f : QueryFilters) :
  occurs " OR " (clause (buildWhereClause f)) = false
  /\ (supplied (sensor_ip f) = true -> supplied (sensor_name f) = true ->
      clause (buildWhereClause f)
      = String.append time_predicate
          (String.append " AND "
             (String.append sensor_ip_condition
                (String.append " AND " sensor_name_condition))))
  /\ (supplied (sensor_ip f) = false -> supplied (sensor_name f) = false ->
      clause (buildWhereClause f) = time_predicate).
Proof.
  rewrite buildWhereClause_text.
  destruct (supplied (sensor_ip f)), (supplied (sensor_name f));
    (split; [reflexivity|]); split; intros; try discriminate; reflexivity.
Qed.

Lemma sensor_conditions_are_conjoined_witness :
  let f := {| hours := None; sensor_ip := Some "10.0.0.1";
              sensor_name := Some "edge-7"; limit := None |} in
  supplied (sensor_ip f) = true /\ supplied (sensor_name f) = true
  /\ clause (buildWhereClause f)
     = "WHERE timestamp >= now() - INTERVAL {filter_hours:UInt32} HOUR AND sensor_ip = {filter_sensor_ip:String} AND sensor_name = {filter_sensor_name:String}".
Proof.
  intros f. split; [reflexivity|]. split; [reflexivity|].
  exact (proj1 (proj2 (sensor_conditions_are_conjoined f)) eq_refl eq_refl).
Defined.



Lemma map_throwing_null {B} (decode : rowval -> outcome B) rows :
  decode RNull = Thrown TypeError ->
  In RNull rows ->
  exists e, map_throwing decode rows = Thrown e.
Proof.
  intros Hnull. induction rows as [|r rows IH]; intros Hin; [destruct Hin|].
  cbn. destruct Hin as [-> | Hin].
  - rewrite Hnull. eexists. reflexivity.
  - destruct (decode r); [|eexists; reflexivity].
    destruct (IH Hin) as [e ->]. eexists. reflexivity.
Qed.

(** X4.  One [null] row spoils the whole answer: when the rows of a
    response hold a [null], [getTopTalkers] and [getTrafficTimeline] return
    no entry at all, not the other rows; and a [null] among the
    per-application rows makes [getHealthOverview] return the all-zero
    overview even though the overall query was answered. *)
Theorem null_row_empties_the_result
    (ch : Store) (f : QueryFilters) (w : World) (rows : list rowval)
    (Hnull : In RNull rows) :
  (ch (topTalkersRequest f) = Resolved rows ->
   fst (getTopTalkers (Returned ch) f w) = Returned [])
  /\ (ch (timelineRequest f) = Resolved rows ->
      fst (getTrafficTimeline (Returned ch) f w) = Returned [])
  /\ (ch (appRequest f) = Resolved rows ->
      fst (getHealthOverview (Returned ch) f w) = Returned emptyHealthOverview).
Proof.
  rewrite getTopTalkers_run, getTrafficTimeline_run, getHealthOverview_run.
  cbn [fst]. unfold healthOverviewResult, decoded.
  split; [|split]; intros ->.
  - destruct (map_throwing_null decodeTopTalker rows eq_refl Hnull) as [e ->].
    reflexivity.
  - destruct (map_throwing_null decodeTimelinePoint rows eq_refl Hnull)
      as [e ->]. reflexivity.
  - destruct (map_throwing_null decodeApplication rows eq_refl Hnull)
      as [e ->]. now destruct (ch (overallRequest f)).
Qed.

(** Two good pairs with a [null] between them. *)
Lemma null_row_empties_the_result_witness :
  let rows := [talkerRow "10.0.0.7" "10.0.0.1" "4096"; RNull;
               talkerRow "10.0.0.8" "10.0.0.1" "12"] in
  let ch : Store := fun _ => Resolved rows in
  let f := {| hours := None; sensor_ip := None; sensor_name := None;
              limit := None |} in
  In RNull rows
  /\ ch (topTalkersRequest f) = Resolved rows
  /\ fst (getTopTalkers (Returned ch) f new_world) = Returned []
  /\ fst (getHealthOverview (Returned ch) f new_world) = Returned emptyHealthOverview.
Proof.
  intros rows ch f.
  assert (Hin : In RNull rows) by (right; left; reflexivity).
  destruct (null_row_empties_the_result ch f new_world rows Hin)
    as (H1 & _ & H3).
  split; [exact Hin|]. split; [reflexivity|].
  split; [exact (H1 eq_refl) | exact (H3 eq_refl)].
Defined.

(** The entries the three [map] callbacks build from an object. *)
Definition talkerOf (o : gmap string jsval) : TopTalkerData.t :=
  {| TopTalkerData.clientIp := prop o "client_ip";
     TopTalkerData.serverIp := prop o "server_ip";
     TopTalkerData.bytes := Number (prop o "bytes");
     TopTalkerData.requestCount := Number (prop o "request_count") |}.

Definition pointOf (o : gmap string jsval) : TrafficTimelinePoint.t :=
  {| TrafficTimelinePoint.hour := prop o "hour";
     TrafficTimelinePoint.requests := Number (prop o "requests");
     TrafficTimelinePoint.errors := Number (prop o "errors") |}.

Definition applicationOf (o : gmap string jsval) : ApplicationMetrics.t :=
  {| ApplicationMetrics.applicationName := prop o "application_name";
     ApplicationMetrics.totalTransactions :=
       Number (prop o "total_transactions");
     ApplicationMetrics.errorCount := Number (prop o "error_count");
     ApplicationMetrics.avgLatencyMs := Number (prop o "avg_latency_ms");
     ApplicationMetrics.p95LatencyMs := Number (prop o "p95_latency_ms") |}.

Lemma map_throwing_objects {B} (decode : rowval -> outcome B)
    (g : gmap string jsval -> B) os :
  (forall o, decode (RObj o) = Returned (g o)) ->
  map_throwing decode (map RObj os) = Returned (map g os).
Proof.
  intros H. induction os as [|o os IH]; cbn; [reflexivity|].
  now rewrite H, IH.
Qed.

(** X5.  The aggregations keep what the store sends: when the rows are
    objects, each function returns exactly one entry per row, in the order
    of the rows, whatever the limit asked for and whatever the values; the
    functions never sort, filter or cut the rows themselves. *)
Theorem rows_pass_through_one_to_one
    (ch : Store) (f : QueryFilters) (w : World)
    (os : list (gmap string jsval)) :
  (ch (topTalkersRequest f) = Resolved (map RObj os) ->
   fst (getTopTalkers (Returned ch) f w) = Returned (map talkerOf os))
  /\ (ch (timelineRequest f) = Resolved (map RObj os) ->
      fst (getTrafficTimeline (Returned ch) f w) = Returned (map pointOf os))
  /\ (ch (appRequest f) = Resolved (map RObj os) ->
      forall rows, ch (overallRequest f) = Resolved rows ->
      exists v, fst (getHealthOverview (Returned ch) f w) = Returned v
                /\ HealthOverviewData.applications v = map applicationOf os).
Proof.
  rewrite getTopTalkers_run, getTrafficTimeline_run, getHealthOverview_run.
  cbn [fst]. unfold healthOverviewResult, decoded.
  split; [|split].
  - intros ->.
    now rewrite (map_throwing_objects decodeTopTalker talkerOf).
  - intros ->.
    now rewrite (map_throwing_objects decodeTimelinePoint pointOf).
  - intros -> rows ->.
    rewrite (map_throwing_objects decodeApplication applicationOf)
      by reflexivity.
    eexists. split; reflexivity.
Qed.

(** Asked for one pair, a store that sends three, smallest first, gets all
    three back in that order. *)
Lemma rows_pass_through_one_to_one_witness :
  let os : list (gmap string jsval) :=
    [{[ "bytes" := JStr "1" ]}; {[ "bytes" := JStr "2" ]};
     {[ "bytes" := JStr "3" ]}] in
  let ch : Store := fun _ => Resolved (map RObj os) in
  let f := {| hours := None; sensor_ip := None; sensor_name := None;
              limit := Some (of_Z 1) |} in
  ch (topTalkersRequest f) = Resolved (map RObj os)
  /\ fst (getTopTalkers (Returned ch) f new_world) = Returned (map talkerOf os)
  /\ map TopTalkerData.bytes (map talkerOf os) = [of_N 1; of_N 2; of_N 3].
Proof.
  intros os ch f. split; [reflexivity|].
  split; [|reflexivity].
  exact (proj1 (rows_pass_through_one_to_one ch f new_world os) eq_refl).
Defined.

(** X6.  When the overall query is answered with no row, or with a
    [null] row, the six overall metrics are 0 while the applications are
    still those of the per-application rows: the two halves of the overview
    come from two answers and are not reconciled. *)
Theorem overall_metrics_default_without_row
    (ch : Store) (f : QueryFilters) (w : World)
    (rows : list rowval) (os : list (gmap string jsval))
    (Hoverall : ch (overallRequest f) = Resolved rows)
    (Hrow : head rows = None \/ head rows = Some RNull)
    (Happs : ch (appRequest f) = Resolved (map RObj os)) :
  fst (getHealthOverview (Returned ch) f w)
  = Returned
      {| HealthOverviewData.totalTransactions := zero;
         HealthOverviewData.errorRate := zero;
         HealthOverviewData.avgLatencyMs := zero;
         HealthOverviewData.p95LatencyMs := zero;
         HealthOverviewData.uniqueClients := zero;
         HealthOverviewData.uniqueServers := zero;
         HealthOverviewData.applications := map applicationOf os |}.
Proof.
  rewrite getHealthOverview_run. cbn [fst].
  unfold healthOverviewResult, decoded. rewrite Hoverall, Happs.
  rewrite (map_throwing_objects decodeApplication applicationOf)
    by reflexivity.
  destruct Hrow as [-> | ->]; reflexivity.
Qed.

(** A store that answers the overall query with no row and the other
    queries with one application. *)
Definition noOverallRow : Store :=
  fun q =>
    if occurs "GROUP BY" (query q)
    then Resolved [RObj {[ "application_name" := JStr "DNS";
                           "total_transactions" := JStr "90" ]}]
    else Resolved [].

Lemma overall_metrics_default_without_row_witness :
  let f := {| hours := None; sensor_ip := None; sensor_name := None;
              limit := None |} in
  exists v,
    fst (getHealthOverview (Returned noOverallRow) f new_world) = Returned v
    /\ HealthOverviewData.totalTransactions v = zero
    /\ map ApplicationMetrics.totalTransactions
         (HealthOverviewData.applications v) = [of_N 90].
Proof.
  intros f. eexists. split.
  - apply (overall_metrics_default_without_row noOverallRow f new_world []
             [{[ "application_name" := JStr "DNS";
                 "total_transactions" := JStr "90" ]}]).
    + reflexivity.
    + left. reflexivity.
    + reflexivity.
  - split; reflexivity.
Defined.

(* ===================================================================== *)
(** * Further properties of the tool surface *)
(* ===================================================================== *)

(** X7.  A tool answers with [isError] exactly when no client can be
    created.  With a client, whatever the store does,
    [show_network_dashboard] returns the digest followed by the serialized
    dashboard and [refresh_dashboard_data] returns that same dashboard
    alone; the dashboard echoes the input as its [filters] and carries the
    time of the call.  Without one, each handler catches the error of
    [getClient] and returns its message, prefixed, with [isError] set; no
    query is issued.  Neither handler ever rejects. *)
Theorem tools_answer_with_error_only_without_client
    (now : string) (input : ToolInput.t) (w : World) :
  (forall ch : Store,
     exists d,
       fst (show_network_dashboard (Returned ch) now input w)
       = Returned {| content := [Digest (textSummary input d); Stringified d];
                     isError := false |}
       /\ fst (refresh_dashboard_data (Returned ch) now input w)
          = Returned {| content := [Stringified d]; isError := false |}
       /\ DashboardData.filters d = input
       /\ DashboardData.generatedAt d = now
       /\ fst (getHealthOverview (Returned ch) (baseFilters input) w)
          = Returned (DashboardData.healthOverview d)
       /\ fst (getTopTalkers (Returned ch) (topTalkerFilters input) w)
          = Returned (DashboardData.topTalkers d)
       /\ fst (getTrafficTimeline (Returned ch) (baseFilters input) w)
          = Returned (DashboardData.trafficTimeline d))
  /\ (forall e : string,
        show_network_dashboard (Thrown e) now input w
        = (Returned
             {| content :=
                  [Message (String.append "Error fetching dashboard data: " e)];
                isError := true |}, w)
        /\ refresh_dashboard_data (Thrown e) now input w
           = (Returned
                {| content := [Message (String.append "Refresh error: " e)];
                   isError := true |}, w))
  /\ (forall getClient : outcome Store,
        (exists r, fst (show_network_dashboard getClient now input w)
                   = Returned r
                   /\ (isError r = true <-> exists e, getClient = Thrown e))
        /\ (exists r, fst (refresh_dashboard_data getClient now input w)
                      = Returned r
                      /\ (isError r = true
                          <-> exists e, getClient = Thrown e))).
Proof.
  assert (Hok : forall ch : Store,
             exists d,
               fst (show_network_dashboard (Returned ch) now input w)
               = Returned {| content := [Digest (textSummary input d);
                                         Stringified d];
                             isError := false |}
               /\ fst (refresh_dashboard_data (Returned ch) now input w)
                  = Returned {| content := [Stringified d];
                                isError := false |}
               /\ DashboardData.filters d = input
               /\ DashboardData.generatedAt d = now
               /\ fst (getHealthOverview (Returned ch) (baseFilters input) w)
                  = Returned (DashboardData.healthOverview d)
               /\ fst (getTopTalkers (Returned ch) (topTalkerFilters input) w)
                  = Returned (DashboardData.topTalkers d)
               /\ fst (getTrafficTimeline (Returned ch) (baseFilters input) w)
                  = Returned (DashboardData.trafficTimeline d)).
  { intros ch. exists (dashboardOf ch now input).
    split; [apply show_network_dashboard_run|].
    split; [apply refresh_dashboard_data_run|].
    split; [reflexivity|]. split; [reflexivity|].
    rewrite getHealthOverview_run, getTopTalkers_run, getTrafficTimeline_run.
    repeat split. }
  split; [exact Hok|].
  split; [intros e; split; reflexivity|].
  intros [ch|e].
  - destruct (Hok ch) as (d & H1 & H2 & _). split.
    + eexists. split; [exact H1|]. cbn.
      split; [discriminate | intros [e K]; discriminate K].
    + eexists. split; [exact H2|]. cbn.
      split; [discriminate | intros [e K]; discriminate K].
  - split; eexists; (split; [reflexivity|]); cbn; split; eauto.
Qed.

(** The digest of a dashboard with nothing in it. *)
Definition emptyDigest (input : ToolInput.t) : TextSummary :=
  {| summaryHours := ToolInput.hours input;
     summaryTotalTransactions := zero;
     summaryErrorRate := zero;
     summaryAvgLatency := zero;
     summaryApplications := 0;
     summaryTopTalker := (JStr "N/A", JStr "N/A") |}.

(** A store that holds no data: every query is answered with no row. *)
Definition emptyStore : Store := fun _ => Resolved [].

(** X8.  An outage of the store is invisible at the tool surface: when
    every query is rejected, [show_network_dashboard] still answers without
    [isError], with a digest of 0 transactions, 0 error rate, 0 latency, no
    application and no top talker, and a dashboard of zeros and empty
    lists, the same answer as for a store that holds no data. *)
Theorem outage_answers_like_an_empty_store
    (ch : Store) (now : string) (input : ToolInput.t) (w : World)
    (Hdown : forall q, exists message, ch q = Rejected message) :
  fst (show_network_dashboard (Returned ch) now input w)
  = Returned
      {| content :=
           [Digest (emptyDigest input);
            Stringified
              {| DashboardData.healthOverview := emptyHealthOverview;
                 DashboardData.topTalkers := [];
                 DashboardData.trafficTimeline := [];
                 DashboardData.filters := input;
                 DashboardData.generatedAt := now |}];
         isError := false |}
  /\ fst (show_network_dashboard (Returned ch) now input w)
     = fst (show_network_dashboard (Returned emptyStore) now input w).
Proof.
  rewrite (proj1 (show_network_dashboard_run ch now input w)).
  rewrite (proj1 (show_network_dashboard_run emptyStore now input w)).
  assert (Hd : dashboardOf ch now input
               = {| DashboardData.healthOverview := emptyHealthOverview;
                    DashboardData.topTalkers := [];
                    DashboardData.trafficTimeline := [];
                    DashboardData.filters := input;
                    DashboardData.generatedAt := now |}).
  { unfold dashboardOf, healthOverviewResult.
    destruct (Hdown (overallRequest (baseFilters input))) as [m1 ->].
    destruct (Hdown (topTalkersRequest (topTalkerFilters input))) as [m2 ->].
    destruct (Hdown (timelineRequest (baseFilters input))) as [m3 ->].
    reflexivity. }
  rewrite Hd. split; reflexivity.
Qed.

Lemma outage_answers_like_an_empty_store_witness :
  let ch : Store := fun _ => Rejected "ECONNREFUSED" in
  let input := {| ToolInput.hours := of_Z 24; ToolInput.sensor_ip := None;
                  ToolInput.sensor_name := None |} in
  (forall q, exists message, ch q = Rejected message)
  /\ exists r, fst (show_network_dashboard (Returned ch) "2026-01-28T13:05:00.000Z"
                      input new_world) = Returned r
               /\ isError r = false.
Proof.
  intros ch input.
  assert (Hdown : forall q, exists message, ch q = Rejected message)
    by (intros q; eexists; reflexivity).
  split; [exact Hdown|].
  eexists. split.
  - exact (proj1 (outage_answers_like_an_empty_store ch
                    "2026-01-28T13:05:00.000Z" input new_world Hdown)).
  - reflexivity.
Defined.




(* ===================================================================== *)
(** * The input schema of the tools *)
(* ===================================================================== *)

(** [a <= b] as a test; false when either side is [NaN]. *)
Definition leb (a b : number) : bool :=
  match a, b with
  | NaN, _ | _, NaN => false
  | Inf sa, Inf sb => sa || negb sb
  | Inf sa, Fin _ => sa
  | Fin _, Inf sb => negb sb
  | Fin x, Fin y => Qle_bool x y
  end.

Module ToolSchema.

(** The arguments of a call as they arrive: each field absent or a value. *)
Record Raw : Type := {
  hours : option jsval;
  sensor_ip : option jsval;
  sensor_name : option jsval;
}.

(** [z.number().min(1).max(168).optional().default(24)] *)
Definition parseHours (v : option jsval) : option number :=
  match v with
  | None | Some JUndefined => Some (of_Z 24)
  | Some (JNum n) => if leb (of_Z 1) n && leb n (of_Z 168) then Some n else None
  | Some _ => None
  end.

(** [z.string().optional()] *)
Definition parseSensor (v : option jsval) : option (option string) :=
  match v with
  | None | Some JUndefined => Some None
  | Some (JStr s) => Some (Some s)
  | Some _ => None
  end.

(** The parse of the whole [inputSchema]; [None] when a field is refused,
    in which case the handler is not run. *)
Definition parse (raw : Raw) : option ToolInput.t :=
  match parseHours (hours raw), parseSensor (sensor_ip raw),
        parseSensor (sensor_name raw) with
  | Some h, Some ip, Some name =>
      Some {| ToolInput.hours := h; ToolInput.sensor_ip := ip;
              ToolInput.sensor_name := name |}
  | _, _, _ => None
  end.

End ToolSchema.

Lemma leb_le a b : leb a b = true <-> le a b.
Proof.
  destruct a as [|sa|x], b as [|sb|y]; cbn; try (split; [discriminate | tauto]).
  - rewrite orb_true_iff, negb_true_iff. tauto.
  - tauto.
  - rewrite negb_true_iff. tauto.
  - apply Qle_bool_iff.
Qed.

Lemma le_1_truthy n : le (of_Z 1) n -> truthy n = true.
Proof.
  destruct n as [|s|q]; cbn; try tauto. intros H.
  unfold Qzerob. apply negb_true_iff, Z.eqb_neq.
  unfold Qle in H. cbn in H. lia.
Qed.

(** X10.  What the schema lets through: [hours] is 24 when absent and
    otherwise any number from 1 to 168, whole or not, and nothing else; a
    sensor field is absent or any string, the empty one included.  For an
    accepted call, every query either tool issues binds [filter_hours] to
    the accepted [hours] itself: the fallback to 24 inside
    [buildWhereClause] is never taken for a tool call. *)
Theorem schema_bounds_hours (raw : ToolSchema.Raw) (input : ToolInput.t)
    (Hparse : ToolSchema.parse raw = Some input) :
  le (of_Z 1) (ToolInput.hours input)
  /\ le (ToolInput.hours input) (of_Z 168)
  /\ (ToolSchema.hours raw = None -> ToolInput.hours input = of_Z 24)
  /\ (forall n, ToolSchema.hours raw = Some (JNum n) ->
                ToolInput.hours input = n)
  /\ (forall s, ToolSchema.sensor_ip raw = Some (JStr s) ->
                ToolInput.sensor_ip input = Some s)
  /\ (forall (ch : Store) (now : string) (w : World),
        Forall (fun q => query_params q !! "filter_hours"
                         = Some (PNum (ToolInput.hours input)))
               (issuedBy (show_network_dashboard (Returned ch) now input))
        /\ Forall (fun q => query_params q !! "filter_hours"
                            = Some (PNum (ToolInput.hours input)))
                  (issuedBy (refresh_dashboard_data (Returned ch) now input))).
Proof.
  unfold ToolSchema.parse in Hparse.
  destruct (ToolSchema.parseHours (ToolSchema.hours raw)) as [h|] eqn:Eh;
    [|discriminate].
  destruct (ToolSchema.parseSensor (ToolSchema.sensor_ip raw)) as [ip|] eqn:Ei;
    [|discriminate].
  destruct (ToolSchema.parseSensor (ToolSchema.sensor_name raw)) as [nm|];
    [|discriminate].
  injection Hparse as <-. cbn [ToolInput.hours ToolInput.sensor_ip].
  assert (Hrange : le (of_Z 1) h /\ le h (of_Z 168)).
  { unfold ToolSchema.parseHours in Eh.
    destruct (ToolSchema.hours raw) as [[| | |n|]|]; try discriminate;
      try (injection Eh as <-; split; apply leb_le; reflexivity).
    destruct (leb (of_Z 1) n && leb n (of_Z 168)) eqn:E; [|discriminate].
    injection Eh as <-. apply andb_true_iff in E.
    split; apply leb_le; tauto. }
  destruct Hrange as [H1 H168].
  split; [exact H1|]. split; [exact H168|].
  split; [intros Hn; rewrite Hn in Eh; now injection Eh as <-|].
  split.
  { intros n Hn. rewrite Hn in Eh. unfold ToolSchema.parseHours in Eh.
    destruct (leb (of_Z 1) n && leb n (of_Z 168)); [|discriminate].
    now injection Eh as <-. }
  split.
  { intros s Hs. rewrite Hs in Ei. now injection Ei as <-. }
  intros ch now w. unfold issuedBy.
  rewrite (proj2 (show_network_dashboard_run ch now _ new_world)).
  rewrite (proj2 (refresh_dashboard_data_run ch now _ new_world)).
  cbn [issued new_world app]. unfold dashboardRequests.
  assert (Hh : number_or (Some h) 24 = h)
    by (cbn; now rewrite (le_1_truthy h H1)).
  assert (Hb : forall f : QueryFilters, hours f = Some h ->
                 params (buildWhereClause f) !! "filter_hours"
                 = Some (PNum h))
    by (intros f Hf; now rewrite params_filter_hours, Hf, Hh).
  split;
    (constructor; [apply Hb; reflexivity|];
     constructor; [apply Hb; reflexivity|];
     constructor; [cbn [topTalkersRequest query_params];
                   rewrite lookup_insert_ne by done; apply Hb; reflexivity|];
     constructor; [apply Hb; reflexivity|]; constructor).
Qed.

(** A call for the last hour and a half on one sensor. *)
Lemma schema_bounds_hours_witness :
  let raw := {| ToolSchema.hours := Some (JNum (Fin (3 # 2)));
                ToolSchema.sensor_ip := Some (JStr "10.0.0.1");
                ToolSchema.sensor_name := None |} in
  let input := {| ToolInput.hours := Fin (3 # 2);
                  ToolInput.sensor_ip := Some "10.0.0.1";
                  ToolInput.sensor_name := None |} in
  ToolSchema.parse raw = Some input
  /\ le (of_Z 1) (ToolInput.hours input)
  /\ le (ToolInput.hours input) (of_Z 168).
Proof.
  intros raw input.
  destruct (schema_bounds_hours raw input eq_refl) as (H1 & H2 & _).
  split; [reflexivity|]. split; [exact H1 | exact H2].
Defined.

(** X11.  What the schema refuses for [hours]: every number below 1 or
    above 168, [NaN] and the infinities, and every value that is not a
    number ([null] and numeric text included); a refused field refuses the
    whole call. *)
Theorem schema_refuses_hours_out_of_range (raw : ToolSchema.Raw) :
  (forall n, ToolSchema.hours raw = Some (JNum n) ->
             (le (of_Z 1) n /\ le n (of_Z 168)) \/ ToolSchema.parse raw = None)
  /\ (forall n, ToolSchema.hours raw = Some (JNum n) ->
                gt (of_Z 1) n = true \/ gt n (of_Z 168) = true \/ n = NaN ->
                ToolSchema.parse raw = None)
  /\ (forall v, ToolSchema.hours raw = Some v ->
                (forall n, v <> JNum n) -> v <> JUndefined ->
                ToolSchema.parse raw = None).
Proof.
  unfold ToolSchema.parse, ToolSchema.parseHours. split; [|split].
  - intros n ->.
    destruct (leb (of_Z 1) n) eqn:E1; [|now right].
    destruct (leb n (of_Z 168)) eqn:E2; [|now right].
    left. split; now apply leb_le.
  - intros n -> H.
    assert (E : leb (of_Z 1) n && leb n (of_Z 168) = false).
    { apply andb_false_iff.
      destruct H as [H | [H | ->]]; [left | right | left; reflexivity].
      - destruct n as [|s|q]; cbn in *; try reflexivity.
        + now destruct s.
        + unfold Qltb in H. apply negb_true_iff in H.
          destruct (Qle_bool (inject_Z 1) q) eqn:K; [|reflexivity].
          apply Qle_bool_iff in K.
          assert (Qle_bool q (inject_Z 1) = true)
            by (apply Qle_bool_iff; apply Qnot_lt_le; intros L;
                apply Qlt_not_le in L; apply L;
                apply Qnot_lt_le; intros L2;
                apply Qlt_le_weak in L2; apply Qle_bool_iff in L2;
                congruence).
          congruence.
      - destruct n as [|s|q]; cbn in *; try reflexivity.
        + now destruct s.
        + unfold Qltb in H. apply negb_true_iff in H.
          destruct (Qle_bool q (inject_Z 168)) eqn:K; [congruence | reflexivity]. }
    now rewrite E.
  - intros v -> Hn Hu.
    destruct v as [| | |n|]; try reflexivity; [contradiction | now destruct (Hn n)].
Qed.

Lemma schema_refuses_hours_out_of_range_witness :
  let raw := {| ToolSchema.hours := Some (JNum (of_Z 0));
                ToolSchema.sensor_ip := None;
                ToolSchema.sensor_name := None |} in
  let text := {| ToolSchema.hours := Some (JStr "24");
                 ToolSchema.sensor_ip := None;
                 ToolSchema.sensor_name := None |} in
  ToolSchema.parse raw = None /\ ToolSchema.parse text = None.
Proof.
  intros raw text. split.
  - exact (proj1 (proj2 (schema_refuses_hours_out_of_range raw)) (of_Z 0)
             eq_refl (or_introl eq_refl)).
  - apply (proj2 (proj2 (schema_refuses_hours_out_of_range text))
             (JStr "24") eq_refl); discriminate.
Defined.

(* ===================================================================== *)
(** * The entry point ([index.ts]) *)
(* ===================================================================== *)

Module Entry.

(** [process.env] *)
Definition Env : Type := string -> option string.

(** [process.env.PORT ? parseInt(process.env.PORT, 10) : 3000] *)
Definition PORT (env : Env) : number :=
  match env "PORT" with
  | Some s => if String.eqb s "" then of_Z 3000 else parseInt s
  | None => of_Z 3000
  end.

Inductive Transport : Type :=
  | Stdio
  | Http (port : number).

(** The branch [main] takes: [process.argv.includes("--stdio")]. *)
Definition main (argv : list string) (env : Env) : Transport :=
  if existsb (String.eqb "--stdio") argv then Stdio else Http (PORT env).

End Entry.

Lemma decimal_nonempty n : exists c rest, uint_chars (N.to_uint n) = c :: rest.
Proof.
  destruct n as [|p]; [eexists; eexists; reflexivity|].
  cbn [N.to_uint]. pose proof (DecimalPos.Unsigned.to_uint_nonnil p) as H.
  destruct (Pos.to_uint p); try contradiction;
    eexists; eexists; reflexivity.
Qed.

(** [parseInt] reads the decimal text of a natural number back. *)
Lemma parseInt_decimal n : parseInt (decimal n) = of_N n.
Proof.
  unfold parseInt, decimal.
  change (list_ascii_of_string (NilEmpty.string_of_uint (N.to_uint n)))
    with (uint_chars (N.to_uint n)).
  pose proof (uint_chars_digits (N.to_uint n)) as Hd.
  rewrite (ltrim_digits _ Hd).
  destruct (decimal_nonempty n) as (c & rest & E).
  pose proof (digits_uint (N.to_uint n) 0) as Hv.
  rewrite E in *.
  inversion Hd as [|? ? Hc _]; subst.
  destruct Hc as (_ & _ & Hm & Hp & _).
  rewrite Hm, Hp, Hv. cbn [length Nat.add].
  now rewrite DecimalN.Unsigned.of_to.
Qed.

(** X12.  The listening port: 3000 when [PORT] is unset or empty; the
    number itself when [PORT] is its decimal text; and [NaN], with no
    fallback to 3000, when [PORT] starts with anything but blanks, a sign
    or a digit.  With [--stdio] anywhere among the arguments the server
    runs on stdio and [PORT] plays no part. *)
Theorem port_of_environment (env : Entry.Env) :
  (env "PORT" = None \/ env "PORT" = Some "" -> Entry.PORT env = of_Z 3000)
  /\ (forall n, env "PORT" = Some (decimal n) -> Entry.PORT env = of_N n)
  /\ (forall c rest,
        env "PORT" = Some (String c rest) ->
        is_ws c = false -> Ascii.eqb c "-" = false ->
        Ascii.eqb c "+" = false -> digit_of 10 c = None ->
        Entry.PORT env = NaN)
  /\ (forall argv, In "--stdio" argv -> Entry.main argv env = Entry.Stdio)
  /\ (forall argv, ~ In "--stdio" argv ->
                   Entry.main argv env = Entry.Http (Entry.PORT env)).
Proof.
  unfold Entry.PORT. split; [|split; [|split; [|split]]].
  - intros [-> | ->]; reflexivity.
  - intros n ->.
    destruct (decimal_nonempty n) as (c & rest & E).
    assert (Hne : String.eqb (decimal n) "" = false).
    { unfold decimal. unfold uint_chars in E.
      destruct (NilEmpty.string_of_uint (N.to_uint n)); [discriminate|].
      reflexivity. }
    rewrite Hne. apply parseInt_decimal.
  - intros c rest -> Hws Hm Hp Hd. cbn [String.eqb].
    unfold parseInt. cbn [list_ascii_of_string ltrim].
    rewrite Hws, Hm, Hp. cbn [digits]. now rewrite Hd.
  - intros argv Hin. unfold Entry.main.
    replace (existsb (String.eqb "--stdio") argv) with true; [reflexivity|].
    symmetry. apply existsb_exists. exists "--stdio".
    split; [exact Hin | apply String.eqb_refl].
  - intros argv Hin. unfold Entry.main.
    replace (existsb (String.eqb "--stdio") argv) with false; [reflexivity|].
    symmetry. apply not_true_is_false. intros H.
    apply existsb_exists in H. destruct H as (x & Hx & Hq).
    apply String.eqb_eq in Hq. subst x. contradiction.
Qed.

Lemma port_of_environment_witness :
  let env : Entry.Env :=
    fun k => if String.eqb k "PORT" then Some "8080" else None in
  let bad : Entry.Env :=
    fun k => if String.eqb k "PORT" then Some "http" else None in
  Entry.PORT env = of_N 8080
  /\ Entry.PORT bad = NaN
  /\ Entry.main ["node"; "dist/index.js"; "--stdio"] bad = Entry.Stdio.
Proof.
  intros env bad. split; [|split].
  - exact (proj1 (proj2 (port_of_environment env)) 8080%N eq_refl).
  - exact (proj1 (proj2 (proj2 (port_of_environment bad))) "h"%char "ttp"
             eq_refl eq_refl eq_refl eq_refl eq_refl).
  - apply (proj1 (proj2 (proj2 (proj2 (port_of_environment bad))))).
    right. right. left. reflexivity.
Defined.

(* ===================================================================== *)
(** * Client management of [clickhouse.ts] *)
(* ===================================================================== *)

(** [process.env.K || d] *)
Definition env_or (env : Entry.Env) (k d : string) : string :=
  match env k with
  | Some s => if String.eqb s "" then d else s
  | None => d
  end.

Module ClientManagement.

Record ClientConfig : Type := {
  url : string;
  database : string;
  username : string;
  password : string;
  request_timeout : Z;
}.

(** The argument of [createClient]. *)
Definition clientConfig (env : Entry.Env) : ClientConfig :=
  {| url := env_or env "CLICKHOUSE_URL" "http://localhost:8123";
     database := env_or env "CLICKHOUSE_DATABASE" "omnis";
     username := env_or env "CLICKHOUSE_USERNAME" "default";
     password := env_or env "CLICKHOUSE_PASSWORD" "";
     request_timeout := 30000 |}.

(** The module state: the variable [client], with the clients created so
    far (a client is named by its rank of creation) and those on which
    [close] has resolved. *)
Record Process : Type := {
  client : option nat;
  created : list ClientConfig;
  closed : list nat;
}.

Definition start : Process := {| client := None; created := []; closed := [] |}.

(** [createClient] is taken to return here; when it throws, nothing is
    assigned and the module state is as before the call. *)
Definition getClient (env : Entry.Env) (p : Process) : nat * Process :=
  match client p with
  | Some c => (c, p)
  | None =>
      let c := length (created p) in
      (c, {| client := Some c;
             created := (created p ++ [clientConfig env])%list;
             closed := closed p |})
  end.

(** [closeConnection] up to its [await]: the test [if (client)], and the
    client whose [close] is called; [None] when the function returns at
    once. *)
Definition closeConnection_start (p : Process) : option nat := client p.

(** [closeConnection] from its [await] on, given what [client.close()]
    did for the client [c] it was called on: [client = null] is run on the
    state of that moment, whatever [client] holds by then. *)
Definition closeConnection_settle (closing : outcome unit) (c : nat)
    (p : Process) : outcome unit * Process :=
  match closing with
  | Returned _ =>
      (Returned tt,
       {| client := None; created := created p;
          closed := (closed p ++ [c])%list |})
  | Thrown e => (Thrown e, p)
  end.

(** A call of [closeConnection] that no other call overlaps: nothing runs
    between its two parts. *)
Definition closeConnection (closing : outcome unit) (p : Process)
  : outcome unit * Process :=
  match closeConnection_start p with
  | Some c => closeConnection_settle closing c p
  | None => (Returned tt, p)
  end.

(** The calls a process makes over its life, one after the other. *)
Inductive call : Type :=
  | GetClient (env : Entry.Env)
  | CloseConnection (closing : outcome unit).

Definition step (p : Process) (c : call) : Process :=
  match c with
  | GetClient env => snd (getClient env p)
  | CloseConnection closing => snd (closeConnection closing p)
  end.

Definition run (calls : list call) : Process := fold_left step calls start.

(** The clients created and not closed. *)
Definition live (p : Process) : list nat :=
  filter (fun c => negb (existsb (Nat.eqb c) (closed p)))
         (seq 0 (length (created p))).

End ClientManagement.

Section ClientManagementProperties.

Import ClientManagement.

(** What every reachable state satisfies: the clients are closed in the
    order of their creation, and [client] holds the last one created
    exactly when it is not closed. *)
Definition consistent (p : Process) : Prop :=
  match client p with
  | Some c => length (created p) = S c /\ closed p = seq 0 c
  | None => closed p = seq 0 (length (created p))
  end.

Lemma step_consistent p c : consistent p -> consistent (step p c).
Proof.
  unfold consistent, step, getClient, closeConnection, closeConnection_start,
    closeConnection_settle.
  destruct c as [env|closing]; destruct (client p) as [c|] eqn:E;
    cbn [snd client created closed].
  - now rewrite E.
  - intros H. rewrite length_app. cbn [length]. split; [lia | exact H].
  - destruct closing as [[]|e]; cbn [snd client created closed].
    + intros [Hl Hc]. rewrite Hl, Hc. now rewrite seq_S.
    + now rewrite E.
  - now rewrite E.
Qed.

Lemma run_consistent calls : consistent (run calls).
Proof.
  unfold run. assert (H : consistent start) by reflexivity.
  revert H. generalize start.
  induction calls as [|c calls IH]; intros p H; [exact H|].
  cbn. apply IH. now apply step_consistent.
Qed.

Lemma filter_none {A} (g : A -> bool) l :
  (forall x, In x l -> g x = false) -> filter g l = [].
Proof.
  induction l as [|a l IH]; intros H; [reflexivity|].
  cbn. rewrite (H a (or_introl eq_refl)). apply IH.
  intros x Hx. apply H. now right.
Qed.

Lemma filter_all {A} (g : A -> bool) l :
  (forall x, In x l -> g x = true) -> filter g l = l.
Proof.
  induction l as [|a l IH]; intros H; [reflexivity|].
  cbn. rewrite (H a (or_introl eq_refl)). f_equal. apply IH.
  intros x Hx. apply H. now right.
Qed.

Lemma live_seq n k :
  (k <= n)%nat ->
  filter (fun c => negb (existsb (Nat.eqb c) (seq 0 k))) (seq 0 n)
  = seq k (n - k).
Proof.
  intros Hk.
  replace n with (k + (n - k))%nat at 1 by lia.
  rewrite seq_app, filter_app. cbn [Nat.add].
  rewrite filter_none, filter_all; [reflexivity | |].
  - intros x Hx. apply in_seq in Hx. apply negb_true_iff.
    apply not_true_is_false. intros H.
    apply existsb_exists in H. destruct H as (y & Hy & Hq).
    apply Nat.eqb_eq in Hq. subst y. apply in_seq in Hy. lia.
  - intros x Hx. apply negb_false_iff, existsb_exists.
    exists x. split; [exact Hx | apply Nat.eqb_refl].
Qed.

(** X13.  Over any sequence of [getClient] and [closeConnection] calls
    that do not overlap, whatever the closings do, at most one client is
    created and not yet closed, and it is the one the variable [client]
    holds; no client is closed twice, and none is left behind.  Calls of
    [closeConnection] that overlap break this: when two of them are
    started while a client is held, and [getClient] is called between
    their settlements, the first client is closed twice and the client
    created in between is dropped, still open, when the second settles. *)
Theorem at_most_one_live_client (calls : list call) (env : Entry.Env) :
  let p := run calls in
  (live p = match client p with Some c => [c] | None => [] end
   /\ List.NoDup (closed p)
   /\ length (created p) = (length (closed p) + length (live p))%nat)
  /\ (forall c, closeConnection_start p = Some c ->
        let p1 := snd (closeConnection_settle (Returned tt) c p) in
        let c' := fst (getClient env p1) in
        let p2 := snd (getClient env p1) in
        let p3 := snd (closeConnection_settle (Returned tt) c p2) in
        client p2 = Some c' /\ c' <> c
        /\ client p3 = None
        /\ In c' (live p3)
        /\ ~ List.NoDup (closed p3)).
Proof.
  intros p. pose proof (run_consistent calls) as H. fold p in H.
  unfold consistent, live, closeConnection_start in *. split.
  - destruct (client p) as [c|].
    + destruct H as [Hl Hc]. rewrite Hl, Hc.
      rewrite live_seq by lia. replace (S c - c)%nat with 1%nat by lia.
      split; [reflexivity|]. split; [apply seq_NoDup|].
      rewrite length_seq. cbn. lia.
    + rewrite H. rewrite live_seq by lia.
      rewrite Nat.sub_diag. split; [reflexivity|].
      split; [apply seq_NoDup|]. rewrite length_seq. cbn. lia.
  - intros c Hc. rewrite Hc in H. destruct H as [Hl Hclosed].
    cbn [closeConnection_settle snd fst getClient client created closed].
    rewrite Hl, Hclosed.
    split; [reflexivity|]. split; [lia|]. split; [reflexivity|]. split.
    + apply list_elem_of_In, list_elem_of_filter. split.
      * apply Is_true_true, negb_true_iff, not_true_is_false. intros K.
        apply existsb_exists in K. destruct K as (y & Hy & Hq).
        apply Nat.eqb_eq in Hq. subst y.
        rewrite !in_app_iff, in_seq in Hy. cbn in Hy. lia.
      * apply list_elem_of_In, in_seq.
        rewrite length_app, Hl. cbn [length]. lia.
    + intros K. rewrite <- app_assoc in K.
      apply NoDup_remove_2 in K. apply K.
      rewrite in_app_iff. right. left. reflexivity.
Qed.



(** X15.  [closeConnection] does nothing when no client exists; when the
    client's [close] is rejected it throws and keeps the client, which the
    next [getClient] hands out again; when [close] resolves it forgets the
    client, and the next [getClient] creates a new one, distinct from
    every earlier one, from the environment of that moment. *)
Theorem close_then_get_creates_a_new_client
    (calls : list call) (env : Entry.Env) (e : string) :
  let p := run calls in
  (client p = None ->
   forall closing, closeConnection closing p = (Returned tt, p))
  /\ (forall c, client p = Some c ->
        closeConnection (Thrown e) p = (Thrown e, p)
        /\ fst (getClient env p) = c
        /\ let p' := snd (closeConnection (Returned tt) p) in
           fst (closeConnection (Returned tt) p) = Returned tt
           /\ client p' = None
           /\ fst (getClient env p') = S c
           /\ nth_error (created (snd (getClient env p'))) (S c)
              = Some (clientConfig env)).
Proof.
  intros p. pose proof (run_consistent calls) as H. fold p in H.
  unfold consistent in H. split.
  - intros Hn closing. unfold closeConnection, closeConnection_start.
    now rewrite Hn.
  - intros c Hc. rewrite Hc in H. destruct H as [Hl _].
    unfold closeConnection, closeConnection_start, closeConnection_settle,
      getClient.
    rewrite Hc.
    cbn [fst snd client created closed].
    split; [reflexivity|]. split; [reflexivity|].
    split; [reflexivity|]. split; [reflexivity|].
    split; [exact Hl|].
    rewrite nth_error_app2 by lia. rewrite Hl. now rewrite Nat.sub_diag.
Qed.

Lemma close_then_get_creates_a_new_client_witness :
  let env : Entry.Env := fun _ => None in
  let p := run [GetClient env] in
  client p = Some 0%nat
  /\ closeConnection (Thrown "socket hang up") p = (Thrown "socket hang up", p)
  /\ fst (getClient env (snd (closeConnection (Returned tt) p))) = 1%nat.
Proof.
  intros env p.
  destruct (close_then_get_creates_a_new_client [GetClient env] env
              "socket hang up") as [_ H].
  destruct (H 0%nat eq_refl) as (H1 & _ & _ & _ & H3 & _).
  split; [reflexivity|]. split; [exact H1 | exact H3].
Defined.

End ClientManagementProperties.

(* ===================================================================== *)
(** * The topology data access layer ([neo4j.ts]) *)
(* ===================================================================== *)

Module Neo4j.

(** What [record.get] can return: [null], a driver integer, a number, a
    string or a list. *)
Inductive value : Type :=
  | VNull
  | VInt (z : Z)
  | VFloat (n : number)
  | VStr (s : string)
  | VList (items : list value).

(** ToBoolean: a driver integer and a list are objects. *)
Definition truthy (v : value) : bool :=
  match v with
  | VNull => false
  | VInt _ => true
  | VFloat n => JsNumber.truthy n
  | VStr s => negb (String.eqb s "")
  | VList _ => true
  end.

Module HostNode.
Record t : Type := {
  ip : value;
  hostname : value;
  site : value;
}.
End HostNode.

Module Connection.
Record t : Type := {
  sourceIp : value;
  targetIp : value;
  applications : value;
  bytesTransferred : number;
}.
End Connection.

(** A query parameter: a string, or [neo4j.int(n)]. *)
Inductive parameter : Type :=
  | PString (s : string)
  | PInt (n : number).

Record Statement : Type := {
  text : string;
  parameters : gmap string parameter;
}.

(** The database: what [session.run] and [session.close] resolve to. *)
Record Graph : Type := {
  run : Statement -> outcome (list (gmap string value));
  closing : outcome unit;
}.

Record DriverConfig : Type := {
  uri : string;
  username : string;
  password : string;
  maxConnectionLifetime : Z;
  maxConnectionPoolSize : Z;
  connectionAcquisitionTimeout : Z;
}.

Definition driverConfig (env : Entry.Env) : DriverConfig :=
  {| uri := env_or env "NEO4J_URI" "bolt://localhost:7687";
     username := env_or env "NEO4J_USERNAME" "neo4j";
     password := env_or env "NEO4J_PASSWORD" "";
     maxConnectionLifetime := 3 * 60 * 60 * 1000;
     maxConnectionPoolSize := 50;
     connectionAcquisitionTimeout := 2 * 60 * 1000 |}.

(** The module state and what was done to the database: the variable
    [driver], the number of sessions opened, the number of calls of
    [session.close], and the statements run. *)
Record World : Type := {
  driver : option DriverConfig;
  opened : nat;
  closeCalls : nat;
  ran : list Statement;
}.

Definition getDriver (env : Entry.Env) (w : World) : World :=
  match driver w with
  | Some _ => w
  | None => {| driver := Some (driverConfig env); opened := opened w;
               closeCalls := closeCalls w; ran := ran w |}
  end.

Definition getSession (env : Entry.Env) (w : World) : World :=
  let w := getDriver env w in
  {| driver := driver w; opened := S (opened w);
     closeCalls := closeCalls w; ran := ran w |}.

(** [await session.run(text, parameters)] *)
Definition session_run (g : Graph) (st : Statement) (w : World)
  : outcome (list (gmap string value)) * World :=
  (run g st,
   {| driver := driver w; opened := opened w; closeCalls := closeCalls w;
      ran := (ran w ++ [st])%list |}).

(** [finally { await session.close(); }] after a [try] that ended in [r]:
    a rejected [close] replaces the outcome of the [try]. *)
Definition finally_close {A} (g : Graph) (r : outcome A) (w : World)
  : outcome A * World :=
  (match closing g with
   | Returned _ => r
   | Thrown e => Thrown e
   end,
   {| driver := driver w; opened := opened w;
      closeCalls := S (closeCalls w); ran := ran w |}).

(** [record.get(key)]: throws on a key the record does not have. *)
Definition get (record : gmap string value) (key : string) : outcome value :=
  match record !! key with
  | Some v => Returned v
  | None =>
      Thrown (String.append "This record has no field with key '"
                (String.append key "'"))
  end.

Definition bind {A B} (o : outcome A) (k : A -> outcome B) : outcome B :=
  match o with
  | Returned a => k a
  | Thrown e => Thrown e
  end.

Definition hostsStatement : Statement :=
  {| text := "
      MATCH (h:Host)
      RETURN h.ip as ip, h.hostname as hostname, h.site as site
      LIMIT 1000
    ";
     parameters := ∅ |}.

Definition hostOf (record : gmap string value) : outcome HostNode.t :=
  bind (get record "ip") (fun ip =>
  bind (get record "hostname") (fun hostname =>
  bind (get record "site") (fun site =>
  Returned {| HostNode.ip := ip; HostNode.hostname := hostname;
              HostNode.site := site |}))).

Definition getHosts (g : Graph) (env : Entry.Env) (w : World)
  : outcome (list HostNode.t) * World :=
  let w := getSession env w in
  let '(result, w) := session_run g hostsStatement w in
  finally_close g (bind result (map_throwing hostOf)) w.

Definition connectionsStatement (limit : number) : Statement :=
  {| text := "
      MATCH (c:Host)-[r:TALKS_TO]->(s:Host)
      RETURN c.ip as sourceIp, s.ip as targetIp, r.applications as applications, r.bytesTransferred as bytes
      LIMIT $limit
    ";
     parameters := {[ "limit" := PInt limit ]} |}.

Definition TypeError : string := "TypeError: toNumber is not a function".

(** [record.get("bytes")?.toNumber() || 0] *)
Definition bytesOf (v : value) : outcome number :=
  match v with
  | VNull => Returned zero
  | VInt z => Returned (if JsNumber.truthy (of_Z z) then of_Z z else zero)
  | VFloat _ | VStr _ | VList _ => Thrown TypeError
  end.

Definition connectionOf (record : gmap string value)
  : outcome Connection.t :=
  bind (get record "sourceIp") (fun sourceIp =>
  bind (get record "targetIp") (fun targetIp =>
  bind (get record "applications") (fun applications =>
  bind (bind (get record "bytes") bytesOf) (fun bytes =>
  Returned {| Connection.sourceIp := sourceIp;
              Connection.targetIp := targetIp;
              Connection.applications :=
                if truthy applications then applications else VList [];
              Connection.bytesTransferred := bytes |})))).

(** [limit: number = 500] *)
Definition getConnections (g : Graph) (env : Entry.Env)
    (limit : option number) (w : World)
  : outcome (list Connection.t) * World :=
  let limit := default (of_Z 500) limit in
  let w := getSession env w in
  let '(result, w) := session_run g (connectionsStatement limit) w in
  finally_close g (bind result (map_throwing connectionOf)) w.

Definition pathStatement (fromIp toIp : string) : Statement :=
  {| text := "
      MATCH p = shortestPath((a:Host {ip: $fromIp})-[*]-(b:Host {ip: $toIp}))
      RETURN [n IN nodes(p) | n.ip] as path
    ";
     parameters := {[ "fromIp" := PString fromIp; "toIp" := PString toIp ]} |}.

Definition findShortestPath (g : Graph) (env : Entry.Env)
    (fromIp toIp : string) (w : World) : outcome value * World :=
  let w := getSession env w in
  let '(result, w) := session_run g (pathStatement fromIp toIp) w in
  finally_close g
    (bind result (fun records =>
       match records with
       | [] => Returned (VList [])
       | first :: _ => get first "path"
       end)) w.

End Neo4j.

(* ===================================================================== *)
(** * Properties of the topology data access layer *)
(* ===================================================================== *)

Module Neo4jCalls.
Import Neo4j.





End Neo4jCalls.

Section Neo4jProperties.
Import Neo4j Neo4jCalls.

Variable g : Graph.
Variable env : Entry.Env.



(** X17.  Unlike the ClickHouse layer, a rejected query is not turned into
    an empty result: when [session.run] rejects and [session.close]
    resolves, each of the three functions rejects with the query's
    error. *)
Theorem query_failure_propagates (e : string) (w : World)
    (limit : option number) (fromIp toIp : string) :
  (forall st, run g st = Thrown e) ->
  closing g = Returned tt ->
  fst (getHosts g env w) = Thrown e /\
  fst (getConnections g env limit w) = Thrown e /\
  fst (findShortestPath g env fromIp toIp w) = Thrown e.
Proof.
  intros Hrun Hclose.
  unfold getHosts, getConnections, findShortestPath, session_run,
    finally_close.
  cbn. rewrite !Hrun, Hclose. cbn. auto.
Qed.

(** X18.  A rejected [session.close] replaces the outcome of the [try]
    block: whatever the query returned or threw, each of the three
    functions rejects with the error of [close]. *)
Theorem close_failure_masks_the_result (e : string) (w : World)
    (limit : option number) (fromIp toIp : string) :
  closing g = Thrown e ->
  fst (getHosts g env w) = Thrown e /\
  fst (getConnections g env limit w) = Thrown e /\
  fst (findShortestPath g env fromIp toIp w) = Thrown e.
Proof.
  intros Hclose.
  unfold getHosts, getConnections, findShortestPath, session_run,
    finally_close.
  cbn. rewrite Hclose. auto.
Qed.

(** X19.  [findShortestPath] looks at the first record only: without
    records it resolves to the empty list, otherwise to the [path] field
    of the first record, and it rejects when that record has no such
    field, whatever the other records hold. *)
Theorem shortest_path_reads_first_record (fromIp toIp : string)
    (records : list (gmap string value)) (w : World) :
  run g (pathStatement fromIp toIp) = Returned records ->
  closing g = Returned tt ->
  fst (findShortestPath g env fromIp toIp w) =
    match records with
    | [] => Returned (VList [])
    | first :: _ =>
        match first !! "path" with
        | Some path => Returned path
        | None => Thrown "This record has no field with key 'path'"
        end
    end.
Proof.
  intros Hrun Hclose.
  unfold findShortestPath, session_run, finally_close.
  cbn. rewrite Hrun, Hclose. cbn.
  destruct records as [|first rest]; [reflexivity|].
  unfold get. destruct (first !! "path"); reflexivity.
Qed.

End Neo4jProperties.

(** Witnesses of the properties above. *)
Module Neo4jExamples.
Import Neo4j.

Definition down : Graph :=
  {| run := fun _ => Thrown "ServiceUnavailable";
     closing := Returned tt |}.

Definition stuck : Graph :=
  {| run := fun _ => Returned [];
     closing := Thrown "SessionExpired" |}.

Definition twoPaths : Graph :=
  {| run := fun _ =>
       Returned [ {[ "path" := VList [VStr "10.0.0.1"; VStr "10.0.0.2"] ]};
                  {[ "other" := VNull ]} ];
     closing := Returned tt |}.

Definition fresh : World :=
  {| driver := None; opened := 0; closeCalls := 0; ran := [] |}.

Definition noEnv : Entry.Env := fun _ => None.

End Neo4jExamples.

Lemma query_failure_propagates_witness :
  fst (Neo4j.getHosts Neo4jExamples.down Neo4jExamples.noEnv Neo4jExamples.fresh)
    = Thrown "ServiceUnavailable" /\
  fst (Neo4j.getConnections Neo4jExamples.down Neo4jExamples.noEnv None Neo4jExamples.fresh)
    = Thrown "ServiceUnavailable" /\
  fst (Neo4j.findShortestPath Neo4jExamples.down Neo4jExamples.noEnv "a" "b"
         Neo4jExamples.fresh)
    = Thrown "ServiceUnavailable".
Proof.
  apply (query_failure_propagates Neo4jExamples.down Neo4jExamples.noEnv "ServiceUnavailable"
           Neo4jExamples.fresh None "a" "b");
    [intros st; reflexivity | reflexivity].
Defined.

Lemma close_failure_masks_the_result_witness :
  fst (Neo4j.getHosts Neo4jExamples.stuck Neo4jExamples.noEnv Neo4jExamples.fresh)
    = Thrown "SessionExpired" /\
  fst (Neo4j.getConnections Neo4jExamples.stuck Neo4jExamples.noEnv None Neo4jExamples.fresh)
    = Thrown "SessionExpired" /\
  fst (Neo4j.findShortestPath Neo4jExamples.stuck Neo4jExamples.noEnv "a" "b"
         Neo4jExamples.fresh)
    = Thrown "SessionExpired".
Proof.
  apply (close_failure_masks_the_result Neo4jExamples.stuck Neo4jExamples.noEnv
           "SessionExpired" Neo4jExamples.fresh None "a" "b").
  reflexivity.
Defined.

Lemma shortest_path_reads_first_record_witness :
  fst (Neo4j.findShortestPath Neo4jExamples.twoPaths Neo4jExamples.noEnv "10.0.0.1" "10.0.0.2"
         Neo4jExamples.fresh)
    = Returned (Neo4j.VList [Neo4j.VStr "10.0.0.1"; Neo4j.VStr "10.0.0.2"]).
Proof.
  exact (shortest_path_reads_first_record Neo4jExamples.twoPaths Neo4jExamples.noEnv
           "10.0.0.1" "10.0.0.2" _ Neo4jExamples.fresh
           eq_refl eq_refl).
Defined.

Lemma map_throwing_Exists {A B} (f : A -> outcome B) (l : list A) :
  Exists (fun a => exists e, f a = Thrown e) l ->
  exists e, map_throwing f l = Thrown e.
Proof.
  induction 1 as [a l [e He]|a l _ [e IH]]; cbn.
  - rewrite He. eauto.
  - destruct (f a); [rewrite IH|]; eauto.
Qed.

Section Neo4jDecoding.
Import Neo4j Neo4jCalls.

Variable g : Graph.
Variable env : Entry.Env.

Lemma connectionOf_defaults record c :
  connectionOf record = Returned c ->
  truthy (Connection.applications c) = true /\
  exists z, Connection.bytesTransferred c = of_Z z.
Proof.
  unfold connectionOf, bind, get.
  destruct (record !! "sourceIp"); [|discriminate].
  destruct (record !! "targetIp"); [|discriminate].
  destruct (record !! "applications") as [apps|]; [|discriminate].
  destruct (record !! "bytes") as [bytes|]; [|discriminate].
  destruct (bytesOf bytes) as [n|] eqn:Eb; [|discriminate].
  intros [= <-]. cbn. split.
  - destruct (truthy apps) eqn:Ea; [exact Ea|reflexivity].
  - destruct bytes; cbn in Eb; try discriminate; injection Eb as <-.
    + exists 0%Z. reflexivity.
    + exists z. change (negb (Qzerob (inject_Z z))) with (negb (z =? 0)%Z).
      destruct (Z.eqb_spec z 0) as [->|]; reflexivity.
Qed.

(** X20.  Every connection [getConnections] resolves with has a truthy
    [applications] (a missing list has become [[]]) and an integer
    [bytesTransferred] (a missing count has become [0]); it returns one
    connection per record. *)
Theorem connections_are_defaulted (limit : option number) (w : World)
    (cs : list Connection.t) :
  fst (getConnections g env limit w) = Returned cs ->
  (exists records,
     run g (connectionsStatement (default (of_Z 500) limit))
       = Returned records /\ length cs = length records) /\
  Forall (fun c => truthy (Connection.applications c) = true /\
                   exists z, Connection.bytesTransferred c = of_Z z) cs.
Proof.
  unfold getConnections, session_run, finally_close. cbn.
  destruct (closing g); [|discriminate].
  destruct (run g _) as [records|] eqn:Er; [|discriminate]. cbn.
  intros H. apply map_throwing_Returned in H. split.
  - exists records. split; [reflexivity|].
    symmetry. eapply Forall2_length, H.
  - clear Er. induction H as [|r c rs cs' Hc _ IH]; constructor; auto.
    exact (connectionOf_defaults _ _ Hc).
Qed.

(** X21.  A [bytes] value that is neither [null] nor a driver integer is
    not coerced: one such record makes the whole call of [getConnections]
    reject, whatever the other records hold. *)
Theorem non_integer_bytes_rejects_the_call (limit : option number)
    (w : World) (records : list (gmap string value)) :
  run g (connectionsStatement (default (of_Z 500) limit))
    = Returned records ->
  Exists (fun r => exists v, r !! "bytes" = Some v /\
                     v <> VNull /\ forall z, v <> VInt z) records ->
  exists e, fst (getConnections g env limit w) = Thrown e.
Proof.
  intros Hrun Hbad.
  unfold getConnections, session_run, finally_close. cbn.
  destruct (closing g); [|eauto].
  rewrite Hrun. cbn. apply map_throwing_Exists.
  eapply List.Exists_impl; [|exact Hbad].
  intros r (v & Hv & Hnull & Hint).
  unfold connectionOf, bind, get. rewrite Hv.
  destruct (r !! "sourceIp"); [|eauto].
  destruct (r !! "targetIp"); [|eauto].
  destruct (r !! "applications"); [|eauto].
  destruct v; cbn; eauto; [contradiction|]. now destruct (Hint z).
Qed.


End Neo4jDecoding.

Module Neo4jRecords.
Import Neo4j.

Definition bare : gmap string value :=
  {[ "sourceIp" := VStr "10.0.0.1"; "targetIp" := VStr "10.0.0.2";
     "applications" := VNull; "bytes" := VNull ]}.

Definition counted : gmap string value :=
  {[ "sourceIp" := VStr "10.0.0.1"; "targetIp" := VStr "10.0.0.3";
     "applications" := VList [VStr "DNS"]; "bytes" := VInt 2048 ]}.

Definition floating : gmap string value :=
  {[ "sourceIp" := VStr "10.0.0.1"; "targetIp" := VStr "10.0.0.4";
     "applications" := VList []; "bytes" := VFloat (of_Z 7) ]}.

Definition answering (records : list (gmap string value)) : Graph :=
  {| run := fun _ => Returned records; closing := Returned tt |}.

Definition connections : list Connection.t :=
  [ {| Connection.sourceIp := VStr "10.0.0.1";
       Connection.targetIp := VStr "10.0.0.2";
       Connection.applications := VList [];
       Connection.bytesTransferred := zero |};
    {| Connection.sourceIp := VStr "10.0.0.1";
       Connection.targetIp := VStr "10.0.0.3";
       Connection.applications := VList [VStr "DNS"];
       Connection.bytesTransferred := of_Z 2048 |} ].

End Neo4jRecords.

Lemma connections_are_defaulted_witness :
  fst (Neo4j.getConnections (Neo4jRecords.answering
         [Neo4jRecords.bare; Neo4jRecords.counted])
         Neo4jExamples.noEnv None Neo4jExamples.fresh)
    = Returned Neo4jRecords.connections /\
  Forall (fun c =>
            Neo4j.truthy (Neo4j.Connection.applications c) = true /\
            exists z, Neo4j.Connection.bytesTransferred c = of_Z z)
    Neo4jRecords.connections.
Proof.
  assert (H : fst (Neo4j.getConnections (Neo4jRecords.answering
                [Neo4jRecords.bare; Neo4jRecords.counted])
                Neo4jExamples.noEnv None Neo4jExamples.fresh)
              = Returned Neo4jRecords.connections) by reflexivity.
  split; [exact H|].
  exact (proj2 (connections_are_defaulted _ _ _ _ _ H)).
Defined.

Lemma non_integer_bytes_rejects_the_call_witness :
  exists e,
    fst (Neo4j.getConnections (Neo4jRecords.answering
           [Neo4jRecords.counted; Neo4jRecords.floating])
           Neo4jExamples.noEnv (Some (of_Z 2)) Neo4jExamples.fresh)
      = Thrown e.
Proof.
  apply (non_integer_bytes_rejects_the_call
           (Neo4jRecords.answering
              [Neo4jRecords.counted; Neo4jRecords.floating])
           Neo4jExamples.noEnv (Some (of_Z 2)) Neo4jExamples.fresh
           [Neo4jRecords.counted; Neo4jRecords.floating]);
    [reflexivity|].
  apply Exists_cons_tl, Exists_cons_hd.
  exists (Neo4j.VFloat (of_Z 7)).
  split; [reflexivity|]. split; [discriminate|]. intros z; discriminate.
Defined.


(* ===================================================================== *)
(** * The dashboard's utility functions ([App.tsx]) *)
(* ===================================================================== *)

Module AppUtil.

(** [a < b] *)
Definition lt (a b : number) : bool := gt b a.

Inductive Color : Type := emerald | amber | rose.

Definition getErrorRateColor (rate : number) : Color :=
  if lt rate (of_Z 1) then emerald
  else if lt rate (of_Z 5) then amber
  else rose.

(** The badge of the error-rate card: its [deltaType] and its text. *)
Inductive DeltaType : Type := increase | unchanged.
Inductive BadgeText : Type := Healthy | Warning | Critical.

Definition errorRateDelta (rate : number) : DeltaType :=
  if gt rate (of_Z 5) then increase else unchanged.

Definition errorRateText (rate : number) : BadgeText :=
  if lt rate (of_Z 1) then Healthy
  else if lt rate (of_Z 5) then Warning
  else Critical.

(** How alarming a colour is. *)
Definition severity (c : Color) : nat :=
  match c with
  | emerald => 0
  | amber => 1
  | rose => 2
  end.

(** The text of an integer in a template literal. *)
Definition showInt (z : Z) : string :=
  if (z <? 0)%Z then "-" ++ decimal (Z.to_N (- z)) else decimal (Z.to_N z).

(** [timeAgo], from [Date.now()] and [date.getTime()] in milliseconds;
    the latter is [None] ([NaN]) for a string that is no date. *)
Definition timeAgo (now : Z) (time : option Z) : string :=
  match time with
  | None => "NaNh ago"
  | Some t =>
      let seconds := ((now - t) / 1000)%Z in
      if (seconds <? 60)%Z then showInt seconds ++ "s ago"
      else if (seconds <? 3600)%Z then showInt (seconds / 60) ++ "m ago"
      else showInt (seconds / 3600) ++ "h ago"
  end.

End AppUtil.

Section AppUtilProperties.
Import AppUtil.

Lemma lt_Fin x k : lt (Fin x) (of_Z k) = true <-> (x < inject_Z k)%Q.
Proof.
  unfold lt, gt, of_Z, Qltb. rewrite negb_true_iff.
  split.
  - intros H. apply Qnot_le_lt. intros Hle.
    apply Qle_bool_iff in Hle. congruence.
  - intros H. destruct (Qle_bool (inject_Z k) x) eqn:E; [|reflexivity].
    apply Qle_bool_iff in E. apply Qlt_not_le in H. contradiction.
Qed.

Lemma gt_Fin x k : gt (Fin x) (of_Z k) = true <-> (inject_Z k < x)%Q.
Proof.
  unfold gt, of_Z, Qltb. rewrite negb_true_iff.
  split.
  - intros H. apply Qnot_le_lt. intros Hle.
    apply Qle_bool_iff in Hle. congruence.
  - intros H. destruct (Qle_bool x (inject_Z k)) eqn:E; [|reflexivity].
    apply Qle_bool_iff in E. apply Qlt_not_le in H. contradiction.
Qed.

(** X23.  The colour of the error-rate card and the text of its badge
    always agree (emerald with Healthy, amber with Warning, rose with
    Critical), and the badge shows an increase only when it reads
    Critical; the badge reads Critical without showing an increase exactly
    when the rate is 5 or is not a number. *)
Theorem error_rate_card_is_consistent (rate : number) :
  (getErrorRateColor rate = emerald <-> errorRateText rate = Healthy) /\
  (getErrorRateColor rate = amber <-> errorRateText rate = Warning) /\
  (getErrorRateColor rate = rose <-> errorRateText rate = Critical) /\
  (errorRateDelta rate = increase -> errorRateText rate = Critical) /\
  (errorRateText rate = Critical /\ errorRateDelta rate = unchanged <->
   rate = NaN \/ same rate (of_Z 5)).
Proof.
  unfold getErrorRateColor, errorRateText, errorRateDelta.
  destruct rate as [|[]|x].
  - cbn. intuition congruence.
  - cbn. intuition congruence.
  - cbn. intuition congruence.
  - assert (Hsame : same (Fin x) (of_Z 5) <-> (x == inject_Z 5)%Q)
      by reflexivity.
    destruct (lt (Fin x) (of_Z 1)) eqn:E1;
      [|destruct (lt (Fin x) (of_Z 5)) eqn:E5];
      destruct (gt (Fin x) (of_Z 5)) eqn:G5;
      rewrite Hsame;
      repeat match goal with
             | H : lt _ _ = true |- _ => apply lt_Fin in H
             | H : gt _ _ = true |- _ => apply gt_Fin in H
             | H : lt (Fin x) (of_Z ?k) = false |- _ =>
                 assert (~ (x < inject_Z k)%Q)
                   by (intros F; apply lt_Fin in F; congruence);
                 clear H
             | H : gt (Fin x) (of_Z ?k) = false |- _ =>
                 assert (~ (inject_Z k < x)%Q)
                   by (intros F; apply gt_Fin in F; congruence);
                 clear H
             end;
      unfold inject_Z in *;
      try (exfalso; lra);
      (split; [intuition congruence|]);
      (split; [intuition congruence|]);
      (split; [intuition congruence|]);
      (split; [intuition congruence|]);
      split; try (intros [? ?]; try discriminate);
      try (intros [?|?]; [discriminate|]);
      try lra; try (right; lra); try (exfalso; lra); auto.
Qed.

(** X24.  A higher error rate never gets a milder colour. *)
Theorem error_rate_colour_is_monotone (a b : number) :
  le a b ->
  (severity (getErrorRateColor a) <= severity (getErrorRateColor b))%nat.
Proof.
  unfold getErrorRateColor.
  destruct a as [|sa|x], b as [|sb|y]; cbn [le]; try contradiction.
  - intros [->| ->]; [cbn; lia|]. destruct sa; cbn; lia.
  - intros ->. cbn. lia.
  - intros ->.
    destruct (lt (Fin x) (of_Z 1)); [cbn; lia|].
    destruct (lt (Fin x) (of_Z 5)); cbn; lia.
  - intros Hxy.
    destruct (lt (Fin y) (of_Z 1)) eqn:Y1.
    { apply lt_Fin in Y1.
      assert (X1 : lt (Fin x) (of_Z 1) = true)
        by (apply lt_Fin; cbn in *; lra).
      rewrite X1. cbn. lia. }
    destruct (lt (Fin y) (of_Z 5)) eqn:Y5.
    { apply lt_Fin in Y5.
      assert (X5 : lt (Fin x) (of_Z 5) = true)
        by (apply lt_Fin; cbn in *; lra).
      rewrite X5. destruct (lt (Fin x) (of_Z 1)); cbn; lia. }
    destruct (lt (Fin x) (of_Z 1)); [cbn; lia|].
    destruct (lt (Fin x) (of_Z 5)); cbn; lia.
Qed.

(** X25.  [timeAgo] rounds down and never overstates: for a time that is
    not in the future it shows whole seconds below one minute, whole
    minutes below one hour and whole hours from then on, and the shown
    count is the largest number of whole units that have elapsed. *)
Theorem timeAgo_rounds_down (now t : Z) :
  (t <= now)%Z ->
  let d := (now - t)%Z in
  exists n,
    (0 <= n)%Z /\
    ((d < 60000)%Z /\ timeAgo now (Some t) = showInt n ++ "s ago" /\
       (1000 * n <= d < 1000 * (n + 1))%Z
     \/
     (60000 <= d < 3600000)%Z /\
       timeAgo now (Some t) = showInt n ++ "m ago" /\
       (60000 * n <= d < 60000 * (n + 1))%Z
     \/
     (3600000 <= d)%Z /\ timeAgo now (Some t) = showInt n ++ "h ago" /\
       (3600000 * n <= d < 3600000 * (n + 1))%Z).
Proof.
  intros Ht d. unfold timeAgo. fold d.
  assert (Hd : (0 <= d)%Z) by (unfold d; lia).
  pose proof (Z.div_mod d 1000 ltac:(lia)) as Hs.
  pose proof (Z.mod_pos_bound d 1000 ltac:(lia)) as Hsb.
  set (seconds := (d / 1000)%Z) in *.
  destruct (Z.ltb_spec seconds 60) as [H60|H60].
  - exists seconds. split; [lia|]. left.
    split; [lia|]. split; [reflexivity|lia].
  - pose proof (Z.div_mod seconds 60 ltac:(lia)) as Hm.
    pose proof (Z.mod_pos_bound seconds 60 ltac:(lia)) as Hmb.
    pose proof (Z.div_mod seconds 3600 ltac:(lia)) as Hh.
    pose proof (Z.mod_pos_bound seconds 3600 ltac:(lia)) as Hhb.
    destruct (Z.ltb_spec seconds 3600) as [H3600|H3600].
    + exists (seconds / 60)%Z. split; [lia|]. right; left.
      split; [lia|]. split; [reflexivity|lia].
    + exists (seconds / 3600)%Z. split; [lia|]. right; right.
      split; [lia|]. split; [reflexivity|lia].
Qed.

End AppUtilProperties.

Lemma error_rate_colour_is_monotone_witness :
  (AppUtil.severity (AppUtil.getErrorRateColor (Fin (1 # 2)))
   <= AppUtil.severity (AppUtil.getErrorRateColor (of_Z 7)))%nat.
Proof.
  apply (error_rate_colour_is_monotone (Fin (1 # 2)) (of_Z 7)).
  cbn. unfold Qle. cbn. lia.
Defined.

Lemma timeAgo_rounds_down_witness :
  exists n,
    (0 <= n)%Z /\
    ((125000 < 60000)%Z /\
       AppUtil.timeAgo 1700000125000%Z (Some 1700000000000%Z)
         = AppUtil.showInt n ++ "s ago" /\
       (1000 * n <= 125000 < 1000 * (n + 1))%Z
     \/
     (60000 <= 125000 < 3600000)%Z /\
       AppUtil.timeAgo 1700000125000%Z (Some 1700000000000%Z)
         = AppUtil.showInt n ++ "m ago" /\
       (60000 * n <= 125000 < 60000 * (n + 1))%Z
     \/
     (3600000 <= 125000)%Z /\
       AppUtil.timeAgo 1700000125000%Z (Some 1700000000000%Z)
         = AppUtil.showInt n ++ "h ago" /\
       (3600000 * n <= 125000 < 3600000 * (n + 1))%Z).
Proof.
  apply (timeAgo_rounds_down 1700000125000%Z 1700000000000%Z). lia.
Defined.

(* ===================================================================== *)
(** * The dashboard's event handlers ([App.tsx]) *)
(* ===================================================================== *)

Module AppEvents.
Import App.

(** A content item of a tool result, by the parse of its [text]: a parse
    error, [null], a value without a truthy [healthOverview]
    ([Parsed None]), or a snapshot. *)
Definition ResultItem : Type := parsed (option DashboardData.t).

(** The body of [if (jsonData.healthOverview)] in [ontoolresult]. *)
Definition takeSnapshot (jsonData : DashboardData.t) (s : State) : State :=
  setError None
    (setLastUpdated (Some (DashboardData.generatedAt jsonData))
       (setHours
          (number_or (Some (ToolInput.hours (DashboardData.filters jsonData)))
             24)
          (setData (Some jsonData) s))).

(** The loop of [ontoolresult] over the items in the order it visits
    them; an item that throws is skipped, the first snapshot ends it. *)
Fixpoint scan (visited : list ResultItem) (s : State) : State :=
  match visited with
  | [] => s
  | Parsed (Some jsonData) :: _ => takeSnapshot jsonData s
  | _ :: rest => scan rest s
  end.

(** [ontoolresult]: the items are visited from the last to the first;
    [content] is [None] when it is not an array. *)
Definition ontoolresult (content : option (list ResultItem)) (s : State)
  : State :=
  let s :=
    match content with
    | Some items => scan (rev items) s
    | None => s
    end in
  setLoading false s.

(** The effect on [connectionError]. *)
Definition connectionErrorEffect (connectionError : option string)
    (s : State) : State :=
  match connectionError with
  | Some message =>
      setLoading false (setError (Some ("Connection error: " ++ message)) s)
  | None => s
  end.

(** [fetchInitialData], from the [await] on. *)
Definition fetchInitialData (r : toolCall DashboardData.t) (s : State)
  : State :=
  let s :=
    match r with
    | CallRejected _ => setError (Some "Failed to load dashboard data") s
    | CallResolved content =>
        match firstItem content with
        | Some (Parsed jsonData) =>
            setError None
              (setLastUpdated (Some (DashboardData.generatedAt jsonData))
                 (setData (Some jsonData) s))
        | Some ParsedNull =>
            setError (Some "Failed to load dashboard data") (setData None s)
        | Some SyntaxError =>
            setError (Some "Failed to load dashboard data") s
        | None => s
        end
    end in
  setLoading false s.

(** The effect that starts [fetchInitialData]: [connected] stands for
    [isConnected && app]. *)
Definition initialFetchEffect (connected : bool)
    (r : toolCall DashboardData.t) (s : State) : State :=
  match connected, data s with
  | true, None => fetchInitialData r s
  | _, _ => s
  end.

(** A tool call that resolves to one item holding [a]. *)
Definition delivers {A} (a : A) : toolCall A :=
  CallResolved (Some [Parsed a]).

(** The [try] block of the fetch ends in the [catch]. *)
Definition throws {A} (r : toolCall A) : bool :=
  match r with
  | CallRejected _ => true
  | CallResolved content =>
      match firstItem content with
      | Some SyntaxError | Some ParsedNull => true
      | _ => false
      end
  end.

Definition isSnapshot (item : ResultItem) : bool :=
  match item with
  | Parsed (Some _) => true
  | _ => false
  end.

End AppEvents.

Section AppEventProperties.
Import App AppEvents.

Lemma scan_last (pre post : list ResultItem) (d : DashboardData.t)
    (s : State) :
  forallb (fun i => negb (isSnapshot i)) post = true ->
  scan (rev (pre ++ Parsed (Some d) :: post)%list) s = takeSnapshot d s.
Proof.
  intros Hpost. rewrite rev_app_distr. cbn [rev]. rewrite <- app_assoc.
  cbn [app]. rewrite <- (rev_involutive post) in Hpost.
  induction (rev post) as [|i l IH]; [reflexivity|].
  cbn [rev] in Hpost. rewrite forallb_app in Hpost.
  apply andb_true_iff in Hpost as [Hl Hi]. cbn in Hi.
  rewrite andb_true_r in Hi.
  cbn [app scan].
  destruct i as [| |[j|]]; cbn in Hi; try discriminate; auto.
Qed.

(** X26.  [ontoolresult] takes the last snapshot of the result: whatever
    comes before it, and whatever unreadable or foreign items come after
    it, the state holds that snapshot, its time stamp and its hours (24
    when they are 0 or not a number), the error is cleared and [loading]
    is off; the drilldown state is left alone. *)
Theorem last_snapshot_wins (pre post : list ResultItem)
    (d : DashboardData.t) (s : State) :
  forallb (fun i => negb (isSnapshot i)) post = true ->
  let s' := ontoolresult (Some (pre ++ Parsed (Some d) :: post)%list) s in
  data s' = Some d /\
  lastUpdated s' = Some (DashboardData.generatedAt d) /\
  hours s' =
    (if truthy (ToolInput.hours (DashboardData.filters d))
     then ToolInput.hours (DashboardData.filters d) else of_Z 24) /\
  error s' = None /\
  loading s' = false /\
  selectedApp s' = selectedApp s /\
  appDetails s' = appDetails s.
Proof.
  intros Hpost s'. subst s'. unfold ontoolresult.
  rewrite (scan_last pre post d s Hpost).
  cbn. auto 10.
Qed.

(** X27.  When the first fetch ends in its [catch] (a rejected call, a
    text that does not parse, a parse to [null]) while no snapshot is
    held, the client shows the error card with the text "Failed to load
    dashboard data"; when it delivers a snapshot, the snapshot is held and
    the error is cleared; when the result has no content, nothing changes
    but [loading].  In every case [loading] ends off. *)
Theorem first_fetch_outcome (r : toolCall DashboardData.t) (s : State) :
  data s = None ->
  let s' := initialFetchEffect true r s in
  loading s' = false /\
  (throws r = true ->
     render s' = ErrorCard "Failed to load dashboard data") /\
  (forall content d,
     r = CallResolved content -> firstItem content = Some (Parsed d) ->
     data s' = Some d /\ error s' = None /\
     lastUpdated s' = Some (DashboardData.generatedAt d)) /\
  (forall content,
     r = CallResolved content -> firstItem content = None ->
     s' = setLoading false s).
Proof.
  intros Hdata s'. subst s'. unfold initialFetchEffect. rewrite Hdata.
  unfold fetchInitialData.
  split; [|split; [|split]].
  - destruct r as [m|content]; [reflexivity|].
    destruct (firstItem content) as [[| |d]|]; reflexivity.
  - destruct r as [m|content]; cbn [throws].
    + intros _. unfold render. cbn. rewrite Hdata. reflexivity.
    + destruct (firstItem content) as [[| |d]|]; try discriminate;
        intros _; unfold render; cbn; rewrite ?Hdata; reflexivity.
  - intros content d -> ->. cbn. auto.
  - intros content -> ->. reflexivity.
Qed.

(** X28.  Drilldown responses are not matched to the application they
    were asked for: when the user clicks application [a], then [b], and
    the details of [b] arrive before those of [a], the client first shows
    the page of [b] with the details of [b], and then the page of [b]
    with the details of [a]. *)
Theorem late_details_replace_current_ones (s : State) (d : DashboardData.t)
    (a b : string) (da db : ApplicationDetails.t) :
  data s = Some d -> a <> "" -> b <> "" ->
  let clicked := handleAppClick_start b (handleAppClick_start a s) in
  let first := handleAppClick_settle (delivers db) clicked in
  let second := handleAppClick_settle (delivers da) first in
  render clicked = DetailSkeleton b /\
  render first = DetailPage b db /\
  render second = DetailPage b da.
Proof.
  intros Hdata Ha Hb clicked first second.
  subst clicked first second. unfold render, nonEmpty. cbn.
  rewrite Hdata.
  destruct (String.eqb_spec b ""); [contradiction|]. auto.
Qed.

(** X29.  Opening an application and going back is a round trip when the
    answer of the drilldown fetch arrives before the back button is
    pressed: from a state that shows the overview, the click, the answer
    (whatever it is) and the back button restore the state exactly.  When
    the back button is pressed while the fetch is in flight, the late
    answer is still applied: the overview is rendered as before, but the
    state now holds the details the answer delivered, and equals the
    starting state only when the fetch failed. *)
Theorem back_undoes_drilldown (s : State) (appName : string)
    (r : toolCall ApplicationDetails.t) :
  selectedApp s = None -> appDetails s = None -> loadingDetails s = false ->
  let clicked := handleAppClick_start appName s in
  let late := handleAppClick_settle r (handleBackToOverview clicked) in
  handleBackToOverview (handleAppClick_settle r clicked) = s
  /\ render late = render s
  /\ late = setAppDetails (appDetails late) s
  /\ (forall d, r = delivers d -> appDetails late = Some d /\ late <> s)
  /\ (failed r -> late = s).
Proof.
  destruct s as [dt ld er hs ar lu sa ad ldd ref]. cbn [selectedApp appDetails
    loadingDetails].
  intros -> -> ->. cbv zeta.
  split; [|split; [|split; [|split]]].
  - destruct r as [m|content]; [reflexivity|].
    unfold handleAppClick_settle.
    destruct (firstItem content) as [[| |j]|]; reflexivity.
  - destruct r as [m|content]; [reflexivity|].
    unfold handleAppClick_settle.
    destruct (firstItem content) as [[| |j]|]; reflexivity.
  - destruct r as [m|content]; [reflexivity|].
    unfold handleAppClick_settle.
    destruct (firstItem content) as [[| |j]|]; reflexivity.
  - intros d ->. split; [reflexivity|]. discriminate.
  - destruct r as [m|content]; [reflexivity|].
    unfold failed, handleAppClick_settle.
    destruct (firstItem content) as [[| |j]|]; intros F;
      [reflexivity | reflexivity | contradiction | reflexivity].
Qed.

(** X30.  The hours the selector sends pass the schema of the refresh
    tool exactly when they lie between 1 and 168: for the decimal text of
    [n], [handleHoursChange] sets [hours] to [n], and the schema accepts
    that number if and only if [1 <= n <= 168]. *)
Theorem selected_hours_against_schema (n : N) (s : State) :
  let s' := handleHoursChange_start (decimal n) s in
  hours s' = of_N n /\
  (ToolSchema.parseHours (Some (JNum (hours s'))) = Some (of_N n)
   <-> (1 <= n <= 168)%N) /\
  (ToolSchema.parseHours (Some (JNum (hours s'))) = None
   <-> ~ (1 <= n <= 168)%N).
Proof.
  intros s'. subst s'. unfold handleHoursChange_start.
  cbn [hours setLoading setHours]. rewrite parseInt_decimal.
  split; [reflexivity|].
  unfold ToolSchema.parseHours.
  assert (H1 : leb (of_Z 1) (of_N n) = true <-> (1 <= n)%N).
  { rewrite leb_le. unfold of_N, of_Z. cbn [le].
    rewrite <- Zle_Qle. lia. }
  assert (H2 : leb (of_N n) (of_Z 168) = true <-> (n <= 168)%N).
  { rewrite leb_le. unfold of_N, of_Z. cbn [le].
    rewrite <- Zle_Qle. lia. }
  destruct (leb (of_Z 1) (of_N n)) eqn:E1;
    destruct (leb (of_N n) (of_Z 168)) eqn:E2; cbn [andb];
    split; split; intros H; try discriminate; try reflexivity;
    try lia; try (exfalso; intuition (try discriminate; lia)).
Qed.

End AppEventProperties.

Module AppExamples.
Import App.

Definition snapshot : DashboardData.t :=
  {| DashboardData.healthOverview := emptyHealthOverview;
     DashboardData.topTalkers := [];
     DashboardData.trafficTimeline := [];
     DashboardData.filters :=
       {| ToolInput.hours := of_Z 6; ToolInput.sensor_ip := None;
          ToolInput.sensor_name := None |};
     DashboardData.generatedAt := "2024-01-01T00:00:00.000Z" |}.

Definition overview : State :=
  {| data := Some snapshot; loading := false; error := None;
     hours := of_Z 6; autoRefresh := false;
     lastUpdated := Some "2024-01-01T00:00:00.000Z"; selectedApp := None;
     appDetails := None; loadingDetails := false; appRef := true |}.

Definition details (transactions : Z) : ApplicationDetails.t :=
  {| ApplicationDetails.overview :=
       {| ApplicationDetails.applicationName := "DNS";
          ApplicationDetails.totalTransactions := of_Z transactions;
          ApplicationDetails.errorCount := zero;
          ApplicationDetails.errorRate := zero;
          ApplicationDetails.avgLatencyMs := zero;
          ApplicationDetails.p50LatencyMs := zero;
          ApplicationDetails.p95LatencyMs := zero;
          ApplicationDetails.p99LatencyMs := zero;
          ApplicationDetails.totalBytes := zero;
          ApplicationDetails.uniqueClients := zero;
          ApplicationDetails.uniqueServers := zero |};
     ApplicationDetails.topClients := [];
     ApplicationDetails.topServers := [];
     ApplicationDetails.timeline := [] |}.

End AppExamples.

Lemma last_snapshot_wins_witness :
  App.data
    (AppEvents.ontoolresult
       (Some [SyntaxError; Parsed (Some AppExamples.snapshot); Parsed None])
       App.initial)
  = Some AppExamples.snapshot.
Proof.
  exact (proj1 (last_snapshot_wins [SyntaxError] [Parsed None]
                  AppExamples.snapshot App.initial eq_refl)).
Defined.

Lemma first_fetch_outcome_witness :
  App.render
    (AppEvents.initialFetchEffect true (CallRejected "timeout") App.initial)
  = App.ErrorCard "Failed to load dashboard data".
Proof.
  exact (proj1 (proj2 (first_fetch_outcome (CallRejected "timeout")
                         App.initial eq_refl)) eq_refl).
Defined.

Lemma late_details_replace_current_ones_witness :
  App.render
    (App.handleAppClick_settle (AppEvents.delivers (AppExamples.details 1))
       (App.handleAppClick_settle
          (AppEvents.delivers (AppExamples.details 2))
          (App.handleAppClick_start "DNS"
             (App.handleAppClick_start "HTTP" AppExamples.overview))))
  = App.DetailPage "DNS" (AppExamples.details 1).
Proof.
  refine (proj2 (proj2 (late_details_replace_current_ones
                          AppExamples.overview AppExamples.snapshot
                          "HTTP" "DNS" (AppExamples.details 1)
                          (AppExamples.details 2) eq_refl _ _)));
    discriminate.
Defined.

Lemma back_undoes_drilldown_witness :
  App.handleBackToOverview
    (App.handleAppClick_settle (AppEvents.delivers (AppExamples.details 1))
       (App.handleAppClick_start "DNS" AppExamples.overview))
  = AppExamples.overview
  /\ App.appDetails
       (App.handleAppClick_settle (AppEvents.delivers (AppExamples.details 1))
          (App.handleBackToOverview
             (App.handleAppClick_start "DNS" AppExamples.overview)))
     = Some (AppExamples.details 1).
Proof.
  destruct (back_undoes_drilldown AppExamples.overview "DNS"
              (AppEvents.delivers (AppExamples.details 1))
              eq_refl eq_refl eq_refl) as (H1 & _ & _ & H4 & _).
  split; [exact H1|]. exact (proj1 (H4 _ eq_refl)).
Defined.
